(** * Nexium volume-boost page: wallet connection and transfer submission

    A shallow embedding of the two modules the specification is about:

    - [WalletManager] (walletManager.js): provider detection, the connect
      handshake on the extension path and on the mobile deep-link path,
      the passive check for an existing session, the account-change
      listeners and disconnect;
    - [TransactionService] (transactionService.js, the revision that takes
      native-token amounts, sets a gas limit and inspects the confirmation):
      the three transfer paths.

    The code is asynchronous JavaScript.  It is embedded as follows.

    - A method body is a value of [Prog]: a tree whose nodes are the
      operations of the body (read or write a field of [this], read
      [window], call into a provider or a client library, arm or clear a
      timer, settle the promise under construction) and whose leaves are
      [return] and [throw].
    - [run] executes such a tree against a scripted environment: every
      call to the outside is answered by a script.  It is used for the
      methods of which the specification describes one invocation at a
      time.
    - [EventLoop] executes [connect] the way the browser does: one state
      for the page ([this], pending awaits, armed timers, promises, the
      clock) and one step per browser event.  It is used for what the
      specification says about overlapping invocations and about the
      polling timers.

    JavaScript numbers are IEEE 754 binary64 values ([spec_float] with
    precision 53); bigints are [Z]; strings are [string]. *)

From Stdlib Require Import ZArith List String Ascii Bool Lia.
From Stdlib Require Import DecimalString DecimalPos.
From Stdlib Require Import Floats.SpecFloat.
Import ListNotations.

Open Scope string_scope.
Open Scope Z_scope.

Set Implicit Arguments.
Set Warnings "-register-all".


(* ================================================================== *)
(** * The JavaScript runtime the code relies on *)
(* ================================================================== *)

Module JS.

(** ** Strings *)

Definition ascii_toLowerCase (c : ascii) : ascii :=
  let n := nat_of_ascii c in
  if (Nat.leb 65 n && Nat.leb n 90)%bool then ascii_of_nat (n + 32) else c.

(** [String.prototype.toLowerCase], on the ASCII range. *)
Fixpoint toLowerCase (s : string) : string :=
  match s with
  | EmptyString => EmptyString
  | String c s' => String (ascii_toLowerCase c) (toLowerCase s')
  end.

(** [String.prototype.includes]. *)
Fixpoint includes (needle hay : string) : bool :=
  (prefix needle hay ||
   match hay with
   | EmptyString => false
   | String _ hay' => includes needle hay'
   end)%bool.

(** [/needle/i.test(hay)] for a pattern that is a plain word. *)
Definition test_i (needle hay : string) : bool :=
  includes (toLowerCase needle) (toLowerCase hay).

(** Truthiness of a value that is a string, [null] or [undefined]. *)
Definition truthy_string (v : option string) : bool :=
  match v with
  | Some s => negb (String.eqb s "")
  | None => false
  end.

(** [a?.toLowerCase()]. *)
Definition opt_toLowerCase (v : option string) : option string :=
  option_map toLowerCase v.

(** [a !== b] for values that are strings or [undefined]. *)
Definition strict_neq (a b : option string) : bool :=
  match a, b with
  | Some x, Some y => negb (String.eqb x y)
  | None, None => false
  | _, _ => true
  end.

(** [a !== b] where [a] is a string or [undefined] and [b] is a string
    or [null]: [undefined] and [null] are two values, so the test is
    false only for two equal strings. *)
Definition strict_neq_null (a b : option string) : bool :=
  match a, b with
  | Some x, Some y => negb (String.eqb x y)
  | _, _ => true
  end.

Definition string_of_Z (z : Z) : string := NilZero.string_of_int (Z.to_int z).

Fixpoint zeros (n : nat) : string :=
  match n with
  | O => EmptyString
  | S n' => String "0" (zeros n')
  end.

(** ** Numbers: IEEE 754 binary64 *)

Definition prec : Z := 53.
Definition emax : Z := 1024.
Definition number : Type := spec_float.


(** The number value of an integer (round to nearest, ties to even). *)
Definition Number_of_Z (z : Z) : number := binary_normalize prec emax z 0 false.

Definition Number_mul : number -> number -> number := SFmul prec emax.
Definition Number_div : number -> number -> number := SFdiv prec emax.
Definition Number_lt : number -> number -> bool := SFltb.
Definition Number_ge (x y : number) : bool := SFleb y x.

(** The number value of the decimal literal [s * 10^p].  For the
    literals used below both operands of the division are exact, so the
    one rounding of the division is the rounding of the literal. *)
Definition Number_of_decimal (s p : Z) : number :=
  if 0 <=? p then Number_of_Z (s * 10 ^ p)
  else Number_div (Number_of_Z s) (Number_of_Z (10 ^ (- p))).

Definition isFinite (x : number) : bool :=
  match x with
  | S754_zero _ | S754_finite _ _ _ => true
  | S754_infinity _ | S754_nan => false
  end.

(** [Math.floor]. *)
Definition Math_floor (x : number) : number :=
  match x with
  | S754_finite s m e =>
      if 0 <=? e then x
      else binary_normalize prec emax
             (Z.div (if s then Z.neg m else Z.pos m) (2 ^ (- e))) 0 s
  | _ => x
  end.

(** The mathematical value of a number that is an integer: what
    [BigInt(x)] returns; [None] where [BigInt(x)] throws a RangeError. *)
Definition BigInt_of_Number (x : number) : option Z :=
  match x with
  | S754_zero _ => Some 0
  | S754_finite s m e =>
      let v := if s then Z.neg m else Z.pos m in
      if 0 <=? e then Some (v * 2 ^ e)
      else if (v mod 2 ^ (- e)) =? 0 then Some (v / 2 ^ (- e)) else None
  | _ => None
  end.

(** *** [Number.prototype.toString]

    ECMAScript, Number::toString(x) in radix 10: among the decimals
    [s * 10^(n-k)] with [k] digits that round to [x], take [k] least and
    then the decimal closest to [x]; print it positionally when
    [-6 < n <= 21] and in exponent notation otherwise. *)

(** Exact comparison of [s * 10^p] with [c * 2^q]. *)
Definition cmp_dec_bin (s p c q : Z) : comparison :=
  Z.compare (s * 10 ^ Z.max p 0 * 2 ^ Z.max (- q) 0)
            (c * 2 ^ Z.max q 0 * 10 ^ Z.max (- p) 0).

Section ToString.
Variables (m : positive) (e : Z).

(** The interval of reals that round to [m * 2^e], in units of [2^(e-2)]. *)
Definition lower_c : Z :=
  if ((Z.pos m =? 2 ^ (prec - 1)) && (3 - emax - prec <? e))%bool
  then 4 * Z.pos m - 1 else 4 * Z.pos m - 2.

Definition upper_c : Z := 4 * Z.pos m + 2.

Definition rounds_here (s p : Z) : bool :=
  let ev := Z.even (Z.pos m) in
  match cmp_dec_bin s p lower_c (e - 2), cmp_dec_bin s p upper_c (e - 2) with
  | Gt, Lt => true
  | Eq, Lt | Gt, Eq => ev
  | _, _ => false
  end.

(** The least [n] from the start value on with [m * 2^e < 10^n]. *)
Fixpoint find_n (fuel : nat) (n : Z) : Z :=
  match fuel with
  | O => n
  | S fuel' =>
      match cmp_dec_bin 1 n (Z.pos m) e with
      | Gt => n
      | _ => find_n fuel' (n + 1)
      end
  end.

Definition floor_scaled (p : Z) : Z :=
  (Z.pos m * 2 ^ Z.max e 0 * 10 ^ Z.max (- p) 0)
  / (2 ^ Z.max (- e) 0 * 10 ^ Z.max p 0).

(** The [k]-digit decimal that rounds to [m * 2^e], if there is one, as
    the pair of its digits [s] and its position [n]. *)
Definition candidate (n k : Z) : option (Z * Z) :=
  let p := n - k in
  let lo := floor_scaled p in
  let hi := lo + 1 in
  let hi' := if hi =? 10 ^ k then (10 ^ (k - 1), n + 1) else (hi, n) in
  match rounds_here lo p, rounds_here hi p with
  | false, false => None
  | true, false => Some (lo, n)
  | false, true => Some hi'
  | true, true =>
      match cmp_dec_bin (lo + hi) p (2 * Z.pos m) e with
      | Gt => Some (lo, n)
      | Lt => Some hi'
      | Eq => if Z.even lo then Some (lo, n) else Some hi'
      end
  end.

Fixpoint shortest (fuel : nat) (n k : Z) : Z * Z * Z :=
  match fuel with
  | O => (floor_scaled (n - k), n, k)
  | S fuel' =>
      match candidate n k with
      | Some (s, n') => (s, n', k)
      | None => shortest fuel' n (k + 1)
      end
  end.

End ToString.

Definition slice (a b : nat) (s : string) : string := substring a (b - a) s.

Definition Number_toString (x : number) : string :=
  match x with
  | S754_nan => "NaN"
  | S754_zero _ => "0"
  | S754_infinity s => if s then "-Infinity" else "Infinity"
  | S754_finite sg m e =>
      let n0 := find_n m e 700 (-330) in
      let '(s, n, k) := shortest m e 17 n0 1 in
      let digits := string_of_Z s in
      let body :=
        if ((k <=? n) && (n <=? 21))%bool then
          digits ++ zeros (Z.to_nat (n - k))
        else if ((0 <? n) && (n <=? 21))%bool then
          slice 0 (Z.to_nat n) digits ++ "." ++
          slice (Z.to_nat n) (Z.to_nat k) digits
        else if ((-6 <? n) && (n <=? 0))%bool then
          "0." ++ zeros (Z.to_nat (- n)) ++ digits
        else
          let ex := n - 1 in
          let exs := (if ex <? 0 then "-" else "+") ++ string_of_Z (Z.abs ex) in
          if k =? 1 then digits ++ "e" ++ exs
          else slice 0 1 digits ++ "." ++
               slice 1 (Z.to_nat k) digits ++ "e" ++ exs
      in if sg then "-" ++ body else body
  end.

(** ** JSON values and [JSON.stringify] *)

Inductive json : Type :=
| JNull
| JBool (b : bool)
| JNumber (n : Z)
| JString (s : string)
| JArray (items : list json)
| JObject (fields : list (string * json)).

(** Truthiness of a JSON value: arrays and objects are always truthy. *)
Definition truthy (v : json) : bool :=
  match v with
  | JNull => false
  | JBool b => b
  | JNumber n => negb (n =? 0)
  | JString s => negb (String.eqb s "")
  | JArray _ | JObject _ => true
  end.

Definition is_object (v : json) : bool :=
  match v with
  | JArray _ | JObject _ => true
  | _ => false
  end.

(** The double quote and the backslash. *)
Definition dquote : ascii := ascii_of_nat 34.
Definition backslash : ascii := ascii_of_nat 92.

Fixpoint escape (s : string) : string :=
  match s with
  | EmptyString => EmptyString
  | String c s' =>
      if Ascii.eqb c dquote then String backslash (String dquote (escape s'))
      else if Ascii.eqb c backslash then String backslash (String backslash (escape s'))
      else String c (escape s')
  end.

Definition quote (s : string) : string :=
  String dquote (escape s ++ String dquote EmptyString).

Fixpoint commas (l : list string) : string :=
  match l with
  | [] => ""
  | [x] => x
  | x :: l' => x ++ "," ++ commas l'
  end.

Fixpoint JSON_stringify (v : json) : string :=
  match v with
  | JNull => "null"
  | JBool b => if b then "true" else "false"
  | JNumber n => string_of_Z n
  | JString s => quote s
  | JArray items => "[" ++ commas (map JSON_stringify items) ++ "]"
  | JObject fields =>
      "{" ++ commas (map (fun kv => quote (fst kv) ++ ":" ++ JSON_stringify (snd kv))
                         fields) ++ "}"
  end.

(** ** Errors

    Everything the code throws is [new Error(message)]; a wallet
    provider rejects with an object that has a [message] and, for
    EIP-1193 providers, a numeric [code]. *)

Record Error : Type := mkError { message : string; code : option Z }.

Definition new_Error (msg : string) : Error := mkError msg None.

(** [error.code === c] *)
Definition code_is (e : Error) (c : Z) : bool :=
  match code e with
  | Some c' => c' =? c
  | None => false
  end.

(** How a promise settles or a call completes. *)
Inductive Outcome (A : Type) : Type :=
| Resolved (a : A)
| Rejected (e : Error).

Arguments Resolved {A} a.
Arguments Rejected {A} e.

End JS.

Import JS.

(* ================================================================== *)
(** * The page: [window], [navigator] and the configuration *)
(* ================================================================== *)

(** [window.ethereum], as far as the code reads it. *)
Record EthereumProvider : Type := {
  isMetaMask : bool;
  isTrustWallet : bool;
  selectedAddress : option string
}.

(** [window.solana], as far as the code reads it. *)
Record SolanaProvider : Type := {
  isPhantom : bool;
  isConnected_ : bool
}.

(** What the code reads from the page at one moment. *)
Record Window : Type := {
  ethereum : option EthereumProvider;
  solana : option SolanaProvider;
  onLine : bool;
  userAgent : string
}.

(** config.js *)
Module CONFIG.

Module BOOST_ADDRESSES.
Definition ethereum : string := "0xeA54572eBA790E31f97e1D6f941D7427276688C3".
Definition solana : string := "73F2hbzhk7ZuTSSYTSbemddFasVrW8Av5FD9PeMVmxA7".
Definition bnb : string := "0x10269ABC1fBB7999164037a17a62905E099278f9".
End BOOST_ADDRESSES.

Definition SOLANA_RPC_URL : string :=
  "https://proportionate-skilled-shard.solana-mainnet.quiknode.pro/e13cbae8b642209c482805a4e443fd1f27a4f42a".

(** [CONFIG.DEEP_LINKS[walletName]], on the keys the object defines. *)
Definition DEEP_LINKS (walletName : string) : option string :=
  if String.eqb walletName "MetaMask" then
    Some "https://metamask.app.link/dapp/nexium-bot.onrender.com/add-volume.html"
  else if String.eqb walletName "Phantom" then
    Some "https://phantom.app/ul/browse/https%3A%2F%2Fnexium-bot.onrender.com%2Fadd-volume.html?ref=https%3A%2F%2Fnexium-bot.onrender.com"
  else if String.eqb walletName "Trust" then
    Some "https://link.trustwallet.com/open_url?coin_id=20000714&url=https://nexium-bot.onrender.com/add-volume.html"
  else None.

Definition MIN_BOOST_AMOUNT : number := Number_of_Z 1.

End CONFIG.

(** utils.js: [/iPhone|iPad|iPod|Android/i.test(navigator.userAgent)] *)
Definition isMobileDevice (w : Window) : bool :=
  (test_i "iPhone" (userAgent w) || test_i "iPad" (userAgent w)
   || test_i "iPod" (userAgent w) || test_i "Android" (userAgent w))%bool.

(* ================================================================== *)
(** * Method bodies as trees *)
(* ================================================================== *)

Section Programs.

(** [St]: the fields of [this];  [Q X]: the calls to the outside that
    answer with an [X] (or throw);  [V]: the value of the promise that
    the method builds with [new Promise]. *)
Variable St : Type.
Variable Q : Type -> Type.
Variable V : Type.

Inductive Prog (R : Type) : Type :=
| Ret (r : R)                                   (* return r *)
| Throw (e : Error)                             (* throw e *)
| GetThis (k : St -> Prog R)                     (* read this *)
| SetThis (f : St -> St) (k : Prog R)             (* this.x = ... *)
| GetWindow (k : Window -> Prog R)              (* read window, navigator *)
| Ext (X : Type) (q : Q X) (k : X + Error -> Prog R)
                                                (* call q, await its answer *)
| SetInterval (ms : Z) (cb : Prog unit) (k : Prog R)
| ClearInterval (k : Prog R)
| SetTimeout (ms : Z) (cb : Prog unit) (k : Prog R)
| Resolve (v : V) (k : Prog R)                  (* resolve(v) *)
| Reject (e : Error) (k : Prog R)               (* reject(e) *)
| Navigate (url : string) (k : Prog R).         (* window.location.href = url *)

Arguments Ret {R} r.
Arguments Throw {R} e.
Arguments Ext {R X} q k.

(** Sequencing: run [p], then [f] on what it returns. *)
Fixpoint bind (R T : Type) (p : Prog R) (f : R -> Prog T) : Prog T :=
  match p with
  | Ret r => f r
  | Throw e => Throw e
  | GetThis k => GetThis (fun s => bind (k s) f)
  | SetThis g k => SetThis g (bind k f)
  | GetWindow k => GetWindow (fun w => bind (k w) f)
  | Ext q k => Ext q (fun a => bind (k a) f)
  | SetInterval ms cb k => SetInterval ms cb (bind k f)
  | ClearInterval k => ClearInterval (bind k f)
  | SetTimeout ms cb k => SetTimeout ms cb (bind k f)
  | Resolve v k => Resolve v (bind k f)
  | Reject e k => Reject e (bind k f)
  | Navigate url k => Navigate url (bind k f)
  end.

(** [try { p } catch (error) { h error }].  A callback handed to a timer
    runs later, outside the [try]. *)
Fixpoint try_catch (R : Type) (p : Prog R) (h : Error -> Prog R) : Prog R :=
  match p with
  | Ret r => Ret r
  | Throw e => h e
  | GetThis k => GetThis (fun s => try_catch (k s) h)
  | SetThis g k => SetThis g (try_catch k h)
  | GetWindow k => GetWindow (fun w => try_catch (k w) h)
  | Ext q k => Ext q (fun a => try_catch (k a) h)
  | SetInterval ms cb k => SetInterval ms cb (try_catch k h)
  | ClearInterval k => ClearInterval (try_catch k h)
  | SetTimeout ms cb k => SetTimeout ms cb (try_catch k h)
  | Resolve v k => Resolve v (try_catch k h)
  | Reject e k => Reject e (try_catch k h)
  | Navigate url k => Navigate url (try_catch k h)
  end.

(** [await q] (or a plain call [q] into a library): the answer, or the
    exception it throws. *)
Definition call (X : Type) (q : Q X) : Prog X :=
  Ext q (fun a => match a with inl x => Ret x | inr e => Throw e end).

Definition this : Prog St := GetThis (fun s => Ret s).
Definition assign (f : St -> St) : Prog unit := SetThis f (Ret tt).
Definition window : Prog Window := GetWindow (fun w => Ret w).

(** ** One invocation against a scripted environment *)

(** What the outside world does during one invocation: [answer n q] is
    the answer to call [q] when [n] calls were answered before it, and
    [page n] is what [window] looks like at that time. *)
Record Script : Type := {
  answer : forall X : Type, nat -> Q X -> X + Error;
  page : nat -> Window
}.

(** What an observer sees of one invocation. *)
Inductive Event : Type :=
| Called (X : Type) (q : Q X) (a : X + Error)
| Armed (interval : bool) (ms : Z)
| Cleared
| Settled (o : Outcome V)
| Went (url : string).

Record Run (R : Type) : Type := {
  final : St;
  outcome : Outcome R;
  events : list Event
}.

Fixpoint run_from (R : Type) (p : Prog R) (sc : Script) (n : nat) (s : St)
  (tr : list Event) : Run R :=
  match p with
  | Ret r => {| final := s; outcome := Resolved r; events := rev tr |}
  | Throw e => {| final := s; outcome := Rejected e; events := rev tr |}
  | GetThis k => run_from (k s) sc n s tr
  | SetThis f k => run_from k sc n (f s) tr
  | GetWindow k => run_from (k (page sc n)) sc n s tr
  | Ext q k =>
      let a := answer sc n q in
      run_from (k a) sc ((S n)) s (Called q a :: tr)
  | SetInterval ms _ k => run_from k sc n s (Armed true ms :: tr)
  | ClearInterval k => run_from k sc n s (Cleared :: tr)
  | SetTimeout ms _ k => run_from k sc n s (Armed false ms :: tr)
  | Resolve v k => run_from k sc n s (Settled (Resolved v) :: tr)
  | Reject e k => run_from k sc n s (Settled (Rejected e) :: tr)
  | Navigate url k => run_from k sc n s (Went url :: tr)
  end.

Definition run (R : Type) (p : Prog R) (sc : Script) (s : St) : Run R :=
  run_from p sc 0 s [].

End Programs.

Arguments Ret {St Q V R} r.
Arguments Throw {St Q V R} e.
Arguments GetThis {St Q V R} k.
Arguments SetThis {St Q V R} f k.
Arguments GetWindow {St Q V R} k.
Arguments Ext {St Q V R X} q k.
Arguments SetInterval {St Q V R} ms cb k.
Arguments ClearInterval {St Q V R} k.
Arguments SetTimeout {St Q V R} ms cb k.
Arguments Resolve {St Q V R} v k.
Arguments Reject {St Q V R} e k.
Arguments Navigate {St Q V R} url k.
Arguments call {St Q V X} q.
Arguments this {St Q V}.
Arguments assign {St Q V} f.
Arguments window {St Q V}.
Arguments answer {Q} s {X} n q.
Arguments Called {Q V X} q a.
Arguments Armed {Q V} interval ms.
Arguments Cleared {Q V}.
Arguments Settled {Q V} o.
Arguments Went {Q V} url.

Declare Scope prog_scope.
Delimit Scope prog_scope with prog.
Notation "x <- p ;; k" := (bind p (fun x => k))
  (at level 61, p at next level, right associativity) : prog_scope.
Notation "p ;; k" := (bind p (fun _ => k))
  (at level 61, right associativity) : prog_scope.
Open Scope prog_scope.

(* ================================================================== *)
(** * The client libraries, as far as the code depends on them *)
(* ================================================================== *)

(** @solana/web3.js *)
Module web3.

Definition LAMPORTS_PER_SOL : number := Number_of_Z 1000000000.

(** [new Connection(endpoint, { commitment, wsEndpoint })] *)
Record Connection : Type := new_Connection {
  endpoint : string;
  commitment : string;
  wsEndpoint : string
}.

End web3.

(** ethers (version 6) *)
Module ethers.

Definition is_digit (c : ascii) : bool :=
  (Nat.leb 48 (nat_of_ascii c) && Nat.leb (nat_of_ascii c) 57)%bool.

(** The longest prefix of digits, and what follows it. *)
Fixpoint digits_of (s : string) : string * string :=
  match s with
  | String c s' =>
      if is_digit c then
        let (d, r) := digits_of s' in (String c d, r)
      else (EmptyString, s)
  | EmptyString => (EmptyString, EmptyString)
  end.

Fixpoint all_zeros (s : string) : bool :=
  match s with
  | EmptyString => true
  | String c s' => (Ascii.eqb c "0" && all_zeros s')%bool
  end.

(** [BigInt(digits)] for a string of digits. *)
Fixpoint BigInt_from (acc : Z) (s : string) : Z :=
  match s with
  | EmptyString => acc
  | String c s' => BigInt_from (10 * acc + (Z.of_nat (nat_of_ascii c) - 48)) s'
  end.

(** [parseUnits(value, decimals)], which is
    [FixedNumber.fromString(value, { decimals, width: 512 }).value]:
    the string has to be an optional minus sign, digits, an optional
    point and digits, with at least one digit in all; the fraction is padded with zeros to [decimals] places and
    may not have non-zero digits beyond them; the result has to fit 512
    bits, signed. *)
Definition parseUnits (value : string) (decimals : nat) : Z + Error :=
  let (negative, unsigned) :=
    match value with
    | String "-" rest => (true, rest)
    | _ => (false, value)
    end in
  let (whole, rest) := digits_of unsigned in
  let rest := match rest with String "." r => r | _ => rest end in
  let (decimal, rest) := digits_of rest in
  if (negb (String.eqb rest "")
      || Nat.eqb (String.length whole + String.length decimal) 0)%bool then
    inr (new_Error "invalid FixedNumber string value")
  else
    let decimal := decimal ++ zeros (decimals - String.length decimal) in
    if negb (all_zeros (substring decimals (String.length decimal - decimals) decimal)) then
      inr (new_Error "too many decimals for format")
    else
      let decimal := substring 0 decimals decimal in
      let magnitude := BigInt_from 0 (whole ++ decimal) in
      let val := if negative then - magnitude else magnitude in
      if ((- 2 ^ 511 <=? val) && (val <? 2 ^ 511))%bool then inl val
      else inr (new_Error "overflow").

Definition parseEther (ether : string) : Z + Error := parseUnits ether 18.

End ethers.

(* ================================================================== *)
(** * walletManager.js *)
(* ================================================================== *)

Module WalletManager.

(** The fields of a [WalletManager]. *)
Record t : Type := {
  publicKey : option string;
  connectedWalletType : option string;
  connecting : bool;
  solConnection : option web3.Connection;
  listenersSetup : bool
}.

Definition constructor : t := {|
  publicKey := None;
  connectedWalletType := None;
  connecting := false;
  solConnection := None;
  listenersSetup := false
|}.

Definition set_publicKey (v : option string) (s : t) : t :=
  {| publicKey := v;
     connectedWalletType := connectedWalletType s;
     connecting := connecting s;
     solConnection := solConnection s;
     listenersSetup := listenersSetup s |}.

Definition set_connectedWalletType (v : option string) (s : t) : t :=
  {| publicKey := publicKey s;
     connectedWalletType := v;
     connecting := connecting s;
     solConnection := solConnection s;
     listenersSetup := listenersSetup s |}.

Definition set_connecting (v : bool) (s : t) : t :=
  {| publicKey := publicKey s;
     connectedWalletType := connectedWalletType s;
     connecting := v;
     solConnection := solConnection s;
     listenersSetup := listenersSetup s |}.

Definition set_solConnection (v : option web3.Connection) (s : t) : t :=
  {| publicKey := publicKey s;
     connectedWalletType := connectedWalletType s;
     connecting := connecting s;
     solConnection := v;
     listenersSetup := listenersSetup s |}.

Definition set_listenersSetup (v : bool) (s : t) : t :=
  {| publicKey := publicKey s;
     connectedWalletType := connectedWalletType s;
     connecting := connecting s;
     solConnection := solConnection s;
     listenersSetup := v |}.

(** The calls a [WalletManager] awaits.  The answer of [getNetwork] is
    the [chainId] of the network; the answer of [solana_connect] is
    [response.publicKey.toString()]. *)
Inductive Request : Type -> Type :=
| eth_requestAccounts : Request (list string)
    (* window.ethereum.request({ method: 'eth_requestAccounts' }) *)
| getNetwork : Request Z
    (* new ethers.BrowserProvider(window.ethereum).getNetwork() *)
| wallet_switchEthereumChain (chainId : string) : Request unit
| wallet_addEthereumChain (chainId chainName : string) : Request unit
| solana_connect (onlyIfTrusted : bool) : Request string.
    (* window.solana.connect() / connect({ onlyIfTrusted: true }) *)

(** The requests on which a wallet may open a window and ask its user:
    EIP-1102 account access, the EIP-3326/3085 chain requests, and
    Phantom's [connect] unless it is called with [onlyIfTrusted]. *)
Definition prompts (X : Type) (q : Request X) : bool :=
  match q with
  | eth_requestAccounts => true
  | getNetwork => false
  | wallet_switchEthereumChain _ => true
  | wallet_addEthereumChain _ _ => true
  | solana_connect onlyIfTrusted => negb onlyIfTrusted
  end.

(** [{ publicKey, network }], with [walletType] when
    [checkExistingConnection] builds it. *)
Record Info : Type := {
  info_publicKey : option string;
  network : string;
  walletType : option string
}.

Definition M : Type -> Type := Prog t Request Info.

Definition isConnecting : M bool := s <- this ;; Ret (connecting s).

Definition isConnected (s : t) : bool :=
  (truthy_string (publicKey s) && truthy_string (connectedWalletType s))%bool.

Definition getWalletType : M (option string) :=
  s <- this ;; Ret (connectedWalletType s).

Definition getPublicKey : M (option string) :=
  s <- this ;; Ret (publicKey s).

(** [window.ethereum?.flag] and [window.solana?.flag], as conditions. *)
Definition ethereum_is (flag : EthereumProvider -> bool) (w : Window) : bool :=
  match ethereum w with Some eth => flag eth | None => false end.

Definition solana_is (flag : SolanaProvider -> bool) (w : Window) : bool :=
  match solana w with Some sol => flag sol | None => false end.

Definition hasWalletExtension (w : Window) (walletName : string) : bool :=
  let hasEthereum := ethereum_is (fun _ => true) w in
  let hasSolana := solana_is (fun _ => true) w in
  let hasTrust :=
    (hasEthereum
     && (ethereum_is isTrustWallet w || test_i "Trust" (userAgent w)))%bool in
  if String.eqb walletName "MetaMask" then
    (hasEthereum && ethereum_is isMetaMask w)%bool
  else if String.eqb walletName "Phantom" then
    (hasSolana && solana_is isPhantom w)%bool
  else if String.eqb walletName "Trust" then
    hasTrust
  else false.

Definition connectMetaMask : M Info :=
  accounts <- call eth_requestAccounts ;;
  if Nat.eqb (List.length accounts) 0 then
    Throw (new_Error "MetaMask failed to provide accounts. Please unlock it.")
  else
  network <- call getNetwork ;;
  if negb (network =? 1) then
    Throw (new_Error "Please switch MetaMask to Ethereum Mainnet.")
  else
  assign (set_publicKey (hd_error accounts)) ;;
  assign (set_connectedWalletType (Some "MetaMask")) ;;
  s <- this ;;
  Ret {| info_publicKey := publicKey s;
         network := "Ethereum";
         walletType := None |}.

Definition connectPhantom : M Info :=
  response <- call (solana_connect false) ;;
  assign (set_publicKey (Some response)) ;;
  assign (set_connectedWalletType (Some "Phantom")) ;;
  assign (set_solConnection (Some (web3.new_Connection CONFIG.SOLANA_RPC_URL "confirmed" ""))) ;;
  s <- this ;;
  Ret {| info_publicKey := publicKey s;
         network := "Solana";
         walletType := None |}.

Definition connectTrustWallet : M Info :=
  accounts <- call eth_requestAccounts ;;
  if Nat.eqb (List.length accounts) 0 then
    Throw (new_Error "Trust Wallet failed to provide accounts. Please unlock it.")
  else
  network <- call getNetwork ;;
  (* Switch to BNB Smart Chain if not already on it *)
  (if negb (network =? 56) then
     network <- try_catch
       (call (wallet_switchEthereumChain "0x38") ;;
        call getNetwork)
       (fun switchError =>
          if code_is switchError 4902 then
            (* Chain not added, add it *)
            call (wallet_addEthereumChain "0x38" "BNB Smart Chain") ;;
            call getNetwork
          else
            Throw (new_Error ("Failed to switch to BNB Smart Chain: "
                              ++ message switchError))) ;;
     if negb (network =? 56) then
       Throw (new_Error "Please switch Trust Wallet to BNB Smart Chain.")
     else Ret tt
   else Ret tt) ;;
  assign (set_publicKey (hd_error accounts)) ;;
  assign (set_connectedWalletType (Some "Trust")) ;;
  s <- this ;;
  Ret {| info_publicKey := publicKey s;
         network := "BNB Smart Chain";
         walletType := None |}.

(** What [connect] returns: a connection result, or the promise it has
    built around the polling timers. *)
Inductive Returned : Type :=
| Value (result : Info)
| ThePromise.

(** The body of [setInterval(async () => { ... }, 1000)]: one look at
    the page, and the handshake once the provider is there. *)
Definition checkConnection (walletName : string) : M unit :=
  w <- window ;;
  let settle (handshake : M Info) : M unit :=
    ClearInterval
      (try_catch
         (result <- handshake ;;
          assign (set_connecting false) ;;
          Resolve result (Ret tt))
         (fun error =>
            assign (set_connecting false) ;;
            Reject error (Ret tt))) in
  if (String.eqb walletName "MetaMask" && ethereum_is isMetaMask w)%bool
  then settle connectMetaMask
  else if (String.eqb walletName "Phantom" && solana_is isPhantom w)%bool
  then settle connectPhantom
  else if (String.eqb walletName "Trust"
           && ethereum_is (fun _ => true) w
           && (ethereum_is isTrustWallet w || test_i "Trust" (userAgent w)))%bool
  then settle connectTrustWallet
  else Ret tt.

(** The body of [setTimeout(() => { ... }, 30000)]. *)
Definition timedOut : M unit :=
  s <- this ;;
  if connecting s then
    ClearInterval
      (assign (set_connecting false) ;;
       Reject (new_Error "Connection timed out. Please open the site in your wallet browser.")
              (Ret tt))
  else Ret tt.

Definition connect (walletName : string) : M Returned :=
  s <- this ;;
  if connecting s then
    Throw (new_Error "Connection already in progress")
  else
  w <- window ;;
  if negb (onLine w) then
    Throw (new_Error "No internet connection. Please check your network.")
  else
  assign (set_connecting true) ;;
  try_catch
    (w <- window ;;
     let isMobile := isMobileDevice w in
     let hasExtension := hasWalletExtension w walletName in
     (* Desktop or extension detected *)
     if (negb isMobile || hasExtension)%bool then
       if negb hasExtension then
         Throw (new_Error (walletName ++ " extension not detected. Please install it."))
       else
       result <-
         (if String.eqb walletName "MetaMask" then connectMetaMask
          else if String.eqb walletName "Phantom" then connectPhantom
          else if String.eqb walletName "Trust" then connectTrustWallet
          else Throw (new_Error ("Unknown wallet: " ++ walletName))) ;;
       assign (set_connecting false) ;;
       Ret (Value result)
     else
     (* Mobile deep linking *)
     match CONFIG.DEEP_LINKS walletName with
     | None => Throw (new_Error ("No deeplink configured for " ++ walletName))
     | Some deeplink =>
         (* Open deeplink *)
         Navigate deeplink
         (* Poll for connection after deeplink *)
         (SetInterval 1000 (checkConnection walletName)
         (* Timeout after 30 seconds *)
         (SetTimeout 30000 timedOut
         (Ret ThePromise)))
     end)
    (fun error =>
       assign (set_connecting false) ;;
       Throw error).

Definition checkExistingConnection : M (option Info) :=
  (* Check Phantom *)
  w <- window ;;
  found <-
    (if (solana_is isPhantom w && solana_is isConnected_ w)%bool
     then
       try_catch
         (response <- call (solana_connect true) ;;
          assign (set_publicKey (Some response)) ;;
          assign (set_connectedWalletType (Some "Phantom")) ;;
          assign (set_solConnection (Some (web3.new_Connection CONFIG.SOLANA_RPC_URL "confirmed" ""))) ;;
          s <- this ;;
          Ret (Some {| info_publicKey := publicKey s;
                       network := "Solana";
                       walletType := Some "Phantom" |}))
         (fun error =>
            (* User hasn't approved connection yet *)
            Ret None)
     else Ret None) ;;
  match found with
  | Some info => Ret (Some info)
  | None =>
  (* Check MetaMask/Trust Wallet *)
  w <- window ;;
  if truthy_string match ethereum w with
                   | Some eth => selectedAddress eth
                   | None => None
                   end
  then
    network <- call getNetwork ;;
    w <- window ;;
    match ethereum w with
    | None =>
        Throw (new_Error "Cannot read properties of undefined (reading 'selectedAddress')")
    | Some eth =>
        assign (set_publicKey (selectedAddress eth)) ;;
        if (isMetaMask eth && (network =? 1))%bool then
          assign (set_connectedWalletType (Some "MetaMask")) ;;
          s <- this ;;
          Ret (Some {| info_publicKey := publicKey s;
                       network := "Ethereum";
                       walletType := Some "MetaMask" |})
        else if ((isTrustWallet eth || test_i "Trust" (userAgent w))
                 && (network =? 56))%bool then
          assign (set_connectedWalletType (Some "Trust")) ;;
          s <- this ;;
          Ret (Some {| info_publicKey := publicKey s;
                       network := "BNB Smart Chain";
                       walletType := Some "Trust" |})
        else Ret None
    end
  else Ret None
  end.

Definition disconnect : M unit :=
  assign (set_publicKey None) ;;
  assign (set_connectedWalletType None) ;;
  assign (set_solConnection None).

(** [getConnectionErrorMessage(error, walletName)] *)
Definition getConnectionErrorMessage (error : Error) (walletName : string) : string :=
  let msg := message error in
  if includes "rejected" msg then
    "Connection to " ++ walletName ++ " was declined."
  else if includes "locked" msg then
    walletName ++ " is locked. Please unlock it."
  else if includes "not detected" msg then
    "Please install the " ++ walletName ++ " extension."
  else if includes "timed out" msg then
    "Connection timed out. Please try again."
  else if String.eqb msg "" then "Failed to connect " ++ walletName
  else msg.

(** ** The account-change listeners

    [setupEventListeners] registers handlers at the providers.  A
    handler is a closure over [this] and over the callback; it is kept
    here as the data it closes over, and [handle] is its body.  The
    callback [onAccountChange] is known by what it does to the wallet
    manager (main.js passes one that calls [disconnect]). *)

Definition Callback : Type := t -> t.

Inductive Listener : Type :=
| on_accountsChanged (onAccountChange : option Callback)   (* ethereum *)
| on_chainChanged                                          (* ethereum *)
| on_accountChanged (onAccountChange : option Callback).   (* solana *)

(** What a provider emits. *)
Inductive Emitted : Type :=
| accountsChanged (accounts : list string)      (* ethereum *)
| chainChanged (chainId : string)               (* ethereum *)
| accountChanged (publicKey : option string).   (* solana *)

(** The wallet manager together with the handlers registered at the
    two providers; [fired] counts the runs of [onAccountChange] and
    [reloads] the calls of [window.location.reload()]. *)
Record Page : Type := {
  manager : t;
  ethereum_on : list Listener;
  solana_on : list Listener;
  fired : nat;
  reloads : nat
}.

Definition fresh_page : Page := {|
  manager := constructor;
  ethereum_on := [];
  solana_on := [];
  fired := 0;
  reloads := 0
|}.

Definition setupEventListeners (w : Window) (onAccountChange : option Callback)
  (p : Page) : Page :=
  (* Prevent duplicate listeners *)
  if listenersSetup (manager p) then p
  else
    let eth :=
      if ethereum_is (fun _ => true) w
      then (ethereum_on p ++ [on_accountsChanged onAccountChange; on_chainChanged])%list
      else ethereum_on p in
    let sol :=
      if solana_is (fun _ => true) w
      then (solana_on p ++ [on_accountChanged onAccountChange])%list
      else solana_on p in
    {| manager := set_listenersSetup true (manager p);
       ethereum_on := eth;
       solana_on := sol;
       fired := fired p;
       reloads := reloads p |}.

Definition invoke (onAccountChange : option Callback) (p : Page) : Page :=
  match onAccountChange with
  | Some f =>
      {| manager := f (manager p);
         ethereum_on := ethereum_on p;
         solana_on := solana_on p;
         fired := Datatypes.S (fired p);
         reloads := reloads p |}
  | None => p
  end.

(** The body of one handler, run on what the provider emitted. *)
Definition handle (l : Listener) (ev : Emitted) (p : Page) : Page :=
  match l, ev with
  | on_accountsChanged onAccountChange, accountsChanged accounts =>
      let newAccount := opt_toLowerCase (hd_error accounts) in
      let currentAccount := opt_toLowerCase (publicKey (manager p)) in
      (* Only trigger callback if account actually changed *)
      if strict_neq newAccount currentAccount
      then invoke onAccountChange p
      else p
  | on_chainChanged, chainChanged _ =>
      (* Reload on chain change *)
      {| manager := manager p;
         ethereum_on := ethereum_on p;
         solana_on := solana_on p;
         fired := fired p;
         reloads := Datatypes.S (reloads p) |}
  | on_accountChanged onAccountChange, accountChanged publicKey' =>
      (* publicKey?.toString() is undefined for no key; this.publicKey is
         null for no account *)
      let newAccount := publicKey' in
      let currentAccount := publicKey (manager p) in
      if strict_neq_null newAccount currentAccount
      then invoke onAccountChange p
      else p
  | _, _ => p
  end.

(** A provider emits: it runs the handlers registered at it, in the
    order of registration. *)
Definition emit (ev : Emitted) (p : Page) : Page :=
  let listeners :=
    match ev with
    | accountsChanged _ | chainChanged _ => ethereum_on p
    | accountChanged _ => solana_on p
    end in
  fold_left (fun p' l => handle l ev p') listeners p.

End WalletManager.

(* ================================================================== *)
(** * transactionService.js *)
(* ================================================================== *)

Module TransactionService.

Record t : Type := {
  solConnection : option web3.Connection
}.

Definition constructor : t := {| solConnection := None |}.

(** An object built by a library or a wallet, of which the code only
    keeps the reference. *)
Inductive Ref : Type := ref (id : nat).

(** The argument of [signer.sendTransaction]. *)
Record TransactionRequest : Type := {
  to : string;
  value : Z;
  gasLimit : Z
}.

(** [{ blockhash, lastValidBlockHeight }] *)
Record BlockhashWithExpiry : Type := {
  blockhash : string;
  lastValidBlockHeight : Z
}.

(** The calls into ethers, @solana/web3.js and the wallets.  The answer
    of [sendTransaction] is [tx.hash], of [wait] it is [receipt.hash],
    of [confirmTransaction] it is [confirmation.value.err] ([None] for
    [null]). *)
Inductive Request : Type -> Type :=
| getSigner : Request Ref
| getAddress (signer : Ref) : Request string
| sendTransaction (signer : Ref) (tx : TransactionRequest) : Request string
| wait (hash : string) : Request string
| new_PublicKey (value : string) : Request Ref
| SystemProgram_transfer (fromPubkey toPubkey : Ref) (lamports : number) : Request Ref
| getLatestBlockhash (c : web3.Connection) (commitment : string)
    : Request BlockhashWithExpiry
| compileToV0Message (payerKey : Ref) (recentBlockhash : string)
    (instructions : list Ref) : Request Ref
| new_VersionedTransaction (message : Ref) : Request Ref
| signTransaction (transaction : Ref) : Request Ref
| connection_sendTransaction (c : web3.Connection) (transaction : Ref)
    (skipPreflight : bool) (maxRetries : Z) : Request string
| confirmTransaction (c : web3.Connection) (signature : string)
    (lastValidBlockHeight : Z) (blockhash : string) (commitment : string)
    : Request (option json).

Definition M : Type -> Type := Prog t Request Empty_set.

Definition initializeSolanaConnection : M web3.Connection :=
  s <- this ;;
  match solConnection s with
  | None =>
      let c := web3.new_Connection CONFIG.SOLANA_RPC_URL "confirmed" "" in
      assign (fun _ => {| solConnection := Some c |}) ;;
      Ret c
  | Some c => Ret c
  end.

(** [this.solConnection] once [initializeSolanaConnection] has been
    called if it was not set. *)
Definition connection : M web3.Connection :=
  s <- this ;;
  match solConnection s with
  | None => initializeSolanaConnection
  | Some c => Ret c
  end.

(** Convert ETH amount to wei: [ethers.parseEther(amount.toString())] *)
Definition weiAmount (amount : number) : Z + Error :=
  ethers.parseEther (Number_toString amount).

(** Convert SOL amount to lamports:
    [Math.floor(amount * LAMPORTS_PER_SOL)] *)
Definition lamports (amount : number) : number :=
  Math_floor (Number_mul amount web3.LAMPORTS_PER_SOL).

Definition parsed (a : Z + Error) : M Z :=
  match a with
  | inl v => Ret v
  | inr e => Throw e
  end.

Definition boostWithMetaMask (amount : number) : M string :=
  w <- window ;;
  match ethereum w with
  | None => Throw (new_Error "MetaMask not found")
  | Some _ =>
      signer <- call getSigner ;;
      fromAddress <- call (getAddress signer) ;;
      (* Convert ETH amount to wei *)
      weiAmount <- parsed (weiAmount amount) ;;
      (* Send transaction - this will trigger wallet confirmation popup *)
      tx <- call (sendTransaction signer
                    {| to := CONFIG.BOOST_ADDRESSES.ethereum;
                       value := weiAmount;
                       gasLimit := 21000 |}) ;;
      receipt <- call (wait tx) ;;
      Ret receipt
  end.

Definition boostWithPhantom (amount : number) (publicKey : string) : M string :=
  w <- window ;;
  match solana w with
  | None => Throw (new_Error "Phantom wallet not found")
  | Some _ =>
      solConnection <- connection ;;
      (* Convert SOL amount to lamports *)
      let lamports := lamports amount in
      senderPublicKey <- call (new_PublicKey publicKey) ;;
      recipientPublicKey <- call (new_PublicKey CONFIG.BOOST_ADDRESSES.solana) ;;
      (* Create transfer instruction *)
      instruction <- call (SystemProgram_transfer senderPublicKey
                             recipientPublicKey lamports) ;;
      (* Get latest blockhash *)
      latest <- call (getLatestBlockhash solConnection "confirmed") ;;
      (* Create transaction message *)
      message <- call (compileToV0Message senderPublicKey (blockhash latest)
                         [instruction]) ;;
      (* Create versioned transaction *)
      versionedTransaction <- call (new_VersionedTransaction message) ;;
      (* This will trigger Phantom wallet confirmation popup *)
      signedTransaction <- call (signTransaction versionedTransaction) ;;
      (* Send signed transaction *)
      signature <- call (connection_sendTransaction solConnection
                           signedTransaction false 3) ;;
      (* Wait for confirmation *)
      confirmation <- call (confirmTransaction solConnection signature
                              (lastValidBlockHeight latest) (blockhash latest)
                              "confirmed") ;;
      match confirmation with
      | Some err =>
          if truthy err then
            Throw (new_Error ("Transaction failed: " ++ JSON_stringify err))
          else Ret signature
      | None => Ret signature
      end
  end.

Definition boostWithTrustWallet (amount : number) : M string :=
  w <- window ;;
  match ethereum w with
  | None => Throw (new_Error "Trust Wallet not found")
  | Some _ =>
      signer <- call getSigner ;;
      fromAddress <- call (getAddress signer) ;;
      (* Convert BNB amount to wei *)
      weiAmount <- parsed (weiAmount amount) ;;
      (* Send transaction - this will trigger wallet confirmation popup *)
      tx <- call (sendTransaction signer
                    {| to := CONFIG.BOOST_ADDRESSES.bnb;
                       value := weiAmount;
                       gasLimit := 21000 |}) ;;
      receipt <- call (wait tx) ;;
      Ret receipt
  end.

End TransactionService.

(* ================================================================== *)
(** * The browser's event loop around one [WalletManager] *)
(* ================================================================== *)

Module EventLoop.

Import WalletManager.

(** An [async] function that was suspended at [await q]: [k] is the rest
    of its body.  [owner] numbers the [connect] invocation it belongs
    to; the promise, the interval and the timeout of that invocation
    are the ones its [resolve], [reject] and [clearInterval] refer to. *)
Inductive Task : Type :=
| task (owner : nat) (R X : Type) (q : Request X) (k : X + Error -> M R).

Record Timer : Type := {
  owner : nat;
  due : Z;
  period : Z;
  callback : M unit
}.

Record Loop : Type := {
  wallet : WalletManager.t;                      (* the one WalletManager *)
  now : Z;                                       (* milliseconds *)
  promises : list (option (Outcome Info));       (* None: pending *)
  tasks : list Task;
  intervals : list Timer;
  timeouts : list Timer;
  location : list string                         (* assignments to location.href *)
}.

(** The page after [new WalletManager()]. *)
Definition start : Loop := {|
  wallet := constructor;
  now := 0;
  promises := [];
  tasks := [];
  intervals := [];
  timeouts := [];
  location := []
|}.

Definition with_wallet (f : WalletManager.t -> WalletManager.t) (l : Loop) : Loop :=
  {| wallet := f (wallet l); now := now l; promises := promises l;
     tasks := tasks l; intervals := intervals l; timeouts := timeouts l;
     location := location l |}.

Definition with_now (t : Z) (l : Loop) : Loop :=
  {| wallet := wallet l; now := t; promises := promises l;
     tasks := tasks l; intervals := intervals l; timeouts := timeouts l;
     location := location l |}.

Definition with_promises (ps : list (option (Outcome Info))) (l : Loop) : Loop :=
  {| wallet := wallet l; now := now l; promises := ps;
     tasks := tasks l; intervals := intervals l; timeouts := timeouts l;
     location := location l |}.

Definition with_tasks (ts : list Task) (l : Loop) : Loop :=
  {| wallet := wallet l; now := now l; promises := promises l;
     tasks := ts; intervals := intervals l; timeouts := timeouts l;
     location := location l |}.

Definition with_intervals (ts : list Timer) (l : Loop) : Loop :=
  {| wallet := wallet l; now := now l; promises := promises l;
     tasks := tasks l; intervals := ts; timeouts := timeouts l;
     location := location l |}.

Definition with_timeouts (ts : list Timer) (l : Loop) : Loop :=
  {| wallet := wallet l; now := now l; promises := promises l;
     tasks := tasks l; intervals := intervals l; timeouts := ts;
     location := location l |}.

Definition with_location (us : list string) (l : Loop) : Loop :=
  {| wallet := wallet l; now := now l; promises := promises l;
     tasks := tasks l; intervals := intervals l; timeouts := timeouts l;
     location := us |}.

(** The state of the promise of invocation [id]: [None] when there is no
    such invocation, [Some None] while it is pending. *)
Definition promise (id : nat) (l : Loop) : option (option (Outcome Info)) :=
  nth_error (promises l) id.

(** [resolve] and [reject] settle a pending promise and do nothing to a
    settled one. *)
Fixpoint settle_nth (id : nat) (o : Outcome Info)
  (ps : list (option (Outcome Info))) : list (option (Outcome Info)) :=
  match ps, id with
  | [], _ => []
  | None :: ps', O => Some o :: ps'
  | Some o' :: ps', O => Some o' :: ps'
  | p :: ps', S id' => p :: settle_nth id' o ps'
  end.

Definition settle (id : nat) (o : Outcome Info) (l : Loop) : Loop :=
  with_promises (settle_nth id o (promises l)) l.

Definition not_of (id : nat) (t : Timer) : bool := negb (Nat.eqb (owner t) id).

(** Run [p] on behalf of invocation [id] until it ends or awaits. *)
Fixpoint drive (R : Type) (id : nat) (w : Window) (p : M R) (l : Loop) : Loop :=
  match p with
  | Ret _ => l
  | Throw _ => l
  | GetThis k => drive id w (k (wallet l)) l
  | SetThis f k => drive id w k (with_wallet f l)
  | GetWindow k => drive id w (k w) l
  | Ext q k => with_tasks (tasks l ++ [task id q k]) l
  | SetInterval ms cb k =>
      drive id w k
        (with_intervals
           (intervals l ++ [{| owner := id; due := now l + ms;
                               period := ms; callback := cb |}]) l)
  | ClearInterval k =>
      drive id w k (with_intervals (filter (not_of id) (intervals l)) l)
  | SetTimeout ms cb k =>
      drive id w k
        (with_timeouts
           (timeouts l ++ [{| owner := id; due := now l + ms;
                              period := 0; callback := cb |}]) l)
  | Resolve v k => drive id w k (settle id (Resolved v) l)
  | Reject e k => drive id w k (settle id (Rejected e) l)
  | Navigate url k => drive id w k (with_location (location l ++ [url]) l)
  end.

(** An [async] function settles its promise with what its body returns
    or throws; when the body returns a promise, that promise is the
    result. *)
Definition async (body : M Returned) : M unit :=
  try_catch
    (r <- body ;;
     match r with
     | Value v => Resolve v (Ret tt)
     | ThePromise => Ret tt
     end)
    (fun e => Reject e (Ret tt)).

(** What a provider answers to a pending request. *)
Inductive Reply : Type :=
| accounts (l : list string)
| chain (chainId : Z)
| done
| key (publicKey : string)
| failure (e : Error).

Definition reply_to (X : Type) (q : Request X) (r : Reply) : option (X + Error) :=
  match q in Request X return option (X + Error) with
  | eth_requestAccounts =>
      match r with
      | accounts l => Some (inl l)
      | failure e => Some (inr e)
      | _ => None
      end
  | getNetwork =>
      match r with
      | chain c => Some (inl c)
      | failure e => Some (inr e)
      | _ => None
      end
  | wallet_switchEthereumChain _ | wallet_addEthereumChain _ _ =>
      match r with
      | done => Some (inl tt)
      | failure e => Some (inr e)
      | _ => None
      end
  | solana_connect _ =>
      match r with
      | key k => Some (inl k)
      | failure e => Some (inr e)
      | _ => None
      end
  end.

(** The events of the page.  Each carries the [window] the code sees
    while it handles the event. *)
Inductive Label : Type :=
| Connect (w : Window) (walletName : string)   (* wallet.connect(walletName) *)
| Answer (i : nat) (w : Window) (r : Reply)    (* the i-th pending await is answered *)
| Tick (id : nat) (w : Window)                 (* the interval of invocation id fires *)
| Expire (id : nat) (w : Window)               (* the timeout of invocation id fires *)
| Elapse (ms : Z).                             (* time passes *)

Fixpoint remove_nth (A : Type) (i : nat) (l : list A) : list A :=
  match l, i with
  | [], _ => []
  | _ :: l', O => l'
  | x :: l', S i' => x :: remove_nth i' l'
  end.

Definition owned_by (id : nat) (t : Timer) : bool := Nat.eqb (owner t) id.

(** After its callback an interval is armed again for one more period. *)
Definition rearm (id : nat) (t0 : Z) (t : Timer) : Timer :=
  if owned_by id t
  then {| owner := owner t; due := t0 + period t; period := period t;
          callback := callback t |}
  else t.

(** One event.  A timer fires at its due time or later, never before. *)
Definition step (lab : Label) (l : Loop) : option Loop :=
  match lab with
  | Connect w walletName =>
      Some (drive (List.length (promises l)) w (async (connect walletName))
              (with_promises (promises l ++ [None]) l))
  | Answer i w r =>
      match nth_error (tasks l) i with
      | Some (task id q k) =>
          match reply_to q r with
          | Some a => Some (drive id w (k a) (with_tasks (remove_nth i (tasks l)) l))
          | None => None
          end
      | None => None
      end
  | Tick id w =>
      match find (owned_by id) (intervals l) with
      | Some t =>
          if due t <=? now l
          then Some (drive id w (callback t)
                       (with_intervals (map (rearm id (now l)) (intervals l)) l))
          else None
      | None => None
      end
  | Expire id w =>
      match find (owned_by id) (timeouts l) with
      | Some t =>
          if due t <=? now l
          then Some (drive id w (callback t)
                       (with_timeouts (filter (not_of id) (timeouts l)) l))
          else None
      | None => None
      end
  | Elapse ms =>
      if 0 <=? ms then Some (with_now (now l + ms) l) else None
  end.

Fixpoint exec (tr : list Label) (l : Loop) : option Loop :=
  match tr with
  | [] => Some l
  | lab :: tr' =>
      match step lab l with
      | Some l' => exec tr' l'
      | None => None
      end
  end.

End EventLoop.

(* ================================================================== *)
(** * The vocabulary of the specification *)
(* ================================================================== *)

(** The error kinds of the specification are the errors the code throws
    with these messages. *)
Module Kind.

Definition ProviderNotDetected (walletName : string) : Error :=
  new_Error (walletName ++ " extension not detected. Please install it.").

Definition AlreadyConnecting : Error :=
  new_Error "Connection already in progress".

Definition Offline : Error :=
  new_Error "No internet connection. Please check your network.".

Definition ConnectTimeout : Error :=
  new_Error "Connection timed out. Please open the site in your wallet browser.".

Definition TransactionFailed (detail : string) : Error :=
  new_Error ("Transaction failed: " ++ detail).

End Kind.

(** ** What a transfer hands to the libraries *)

Module Observe.

Import TransactionService.

Definition Event : Type := Event Request Empty_set.

(** The [lamports] of a call of [SystemProgram.transfer]. *)
Definition lamports_of (ev : Event) : option number :=
  match ev with
  | Called q _ =>
      match q with
      | SystemProgram_transfer _ _ l => Some l
      | _ => None
      end
  | _ => None
  end.

(** The transaction of a call of [signer.sendTransaction]. *)
Definition sent_of (ev : Event) : option TransactionRequest :=
  match ev with
  | Called q _ =>
      match q with
      | sendTransaction _ tx => Some tx
      | _ => None
      end
  | _ => None
  end.

(** Whether the event submits a signed Solana transaction. *)
Definition submitted_of (ev : Event) : option Ref :=
  match ev with
  | Called q _ =>
      match q with
      | connection_sendTransaction _ transaction _ _ => Some transaction
      | _ => None
      end
  | _ => None
  end.

(** What [confirmTransaction] answered: [confirmation.value.err]. *)
Definition confirmed_of (ev : Event) : option (option json) :=
  match ev with
  | Called q a =>
      match q in Request X return X + Error -> option (option json) with
      | confirmTransaction _ _ _ _ _ =>
          fun a => match a with inl err => Some err | inr _ => None end
      | _ => fun _ => None
      end a
  | _ => None
  end.

Fixpoint pick (A B : Type) (f : A -> option B) (l : list A) : list B :=
  match l with
  | [] => []
  | x :: l' =>
      match f x with
      | Some y => y :: pick f l'
      | None => pick f l'
      end
  end.

(** A page with both providers injected. *)
Definition both_wallets : Window := {|
  ethereum := Some {| isMetaMask := true; isTrustWallet := false;
                      selectedAddress := None |};
  solana := Some {| isPhantom := true; isConnected_ := false |};
  onLine := true;
  userAgent := "Mozilla/5.0 (X11; Linux x86_64)"
|}.

(** A simulated run in which every library and wallet call succeeds and
    the network confirms without error. *)
Definition success : Script Request := {|
  answer := fun X n q =>
    match q in Request X return X + Error with
    | getSigner => inl (ref 0)
    | getAddress _ => inl "0x00000000000000000000000000000000000000aa"
    | sendTransaction _ _ => inl "0xhash"
    | wait hash => inl hash
    | new_PublicKey _ => inl (ref n)
    | SystemProgram_transfer _ _ _ => inl (ref n)
    | getLatestBlockhash _ _ =>
        inl {| blockhash := "blockhash"; lastValidBlockHeight := 100 |}
    | compileToV0Message _ _ _ => inl (ref n)
    | new_VersionedTransaction _ => inl (ref n)
    | signTransaction _ => inl (ref n)
    | connection_sendTransaction _ _ _ _ => inl "signature"
    | confirmTransaction _ _ _ _ _ => inl None
    end;
  page := fun _ => both_wallets
|}.

(** The same run, except that the confirmation reports [err]. *)
Definition failing (err : json) : Script Request := {|
  answer := fun X n q =>
    match q in Request X return X + Error -> X + Error with
    | confirmTransaction _ _ _ _ _ => fun _ => inl (Some err)
    | _ => fun a => a
    end (answer success n q);
  page := page success
|}.

End Observe.

(** ** What a wallet manager asks of the providers *)

Module Asked.

Import WalletManager.

Definition Event : Type := Event Request Info.

Definition request_name (X : Type) (q : Request X) : string :=
  match q with
  | eth_requestAccounts => "eth_requestAccounts"
  | getNetwork => "getNetwork"
  | wallet_switchEthereumChain _ => "wallet_switchEthereumChain"
  | wallet_addEthereumChain _ _ => "wallet_addEthereumChain"
  | solana_connect true => "solana.connect({ onlyIfTrusted: true })"
  | solana_connect false => "solana.connect()"
  end.

(** The request of an event, by name. *)
Definition asked (ev : Event) : option string :=
  match ev with
  | Called q _ => Some (request_name q)
  | _ => None
  end.

(** Whether the event is a request on which the wallet may ask its user. *)
Definition prompting (ev : Event) : bool :=
  match ev with
  | Called q _ => prompts q
  | _ => false
  end.

(** No provider holds a session that was trusted before: Phantom
    refuses [connect({ onlyIfTrusted: true })], and the Ethereum
    provider, if there is one, exposes no selected address. *)
Definition no_trusted_session (sc : Script Request) : Prop :=
  (forall n, exists e, answer sc n (solana_connect true) = inr e)
  /\ (forall n, truthy_string
                  match ethereum (page sc n) with
                  | Some eth => selectedAddress eth
                  | None => None
                  end = false).

(** The invariant of the connection state: the account is set if and
    only if the wallet type is. *)
Definition linked (s : WalletManager.t) : Prop :=
  publicKey s <> None <-> connectedWalletType s <> None.

(** A page where MetaMask has an account selected but is on another
    network than Ethereum Mainnet (chain 5). *)
Definition metamask_on_chain_5 : Script Request := {|
  answer := fun X n q =>
    match q in Request X return X + Error with
    | eth_requestAccounts => inl ["0x00000000000000000000000000000000000000aa"]
    | getNetwork => inl 5
    | wallet_switchEthereumChain _ => inl tt
    | wallet_addEthereumChain _ _ => inl tt
    | solana_connect _ => inr (new_Error "User rejected the request.")
    end;
  page := fun _ =>
    {| ethereum := Some {| isMetaMask := true; isTrustWallet := false;
                           selectedAddress :=
                             Some "0x00000000000000000000000000000000000000aa" |};
       solana := None;
       onLine := true;
       userAgent := "Mozilla/5.0 (X11; Linux x86_64)" |}
|}.

(** A page without any wallet. *)
Definition no_wallet : Script Request := {|
  answer := fun X n q =>
    match q in Request X return X + Error with
    | eth_requestAccounts => inr (new_Error "no provider")
    | getNetwork => inr (new_Error "no provider")
    | wallet_switchEthereumChain _ => inr (new_Error "no provider")
    | wallet_addEthereumChain _ _ => inr (new_Error "no provider")
    | solana_connect _ => inr (new_Error "no provider")
    end;
  page := fun _ =>
    {| ethereum := None; solana := None; onLine := true;
       userAgent := "Mozilla/5.0 (X11; Linux x86_64)" |}
|}.

End Asked.

(* ================================================================== *)
(** * One invocation of [connect] followed through the event loop *)
(* ================================================================== *)

Module Isolation.

Import WalletManager EventLoop.

Definition task_owner (t : Task) : nat :=
  match t with task o _ _ => o end.

(** Whether an event belongs to invocation [id]: an answer to one of its
    awaits, one of its timers, or time passing. *)
Definition own (id : nat) (lab : Label) (l : Loop) : bool :=
  match lab with
  | Connect _ _ => false
  | Answer i _ _ =>
      match nth_error (tasks l) i with
      | Some (task o _ _) => Nat.eqb o id
      | None => false
      end
  | Tick i _ => Nat.eqb i id
  | Expire i _ => Nat.eqb i id
  | Elapse _ => true
  end.

(** The events of invocation [id], up to the event that settles its
    promise: the page at that moment.  Events after it are not run. *)
Fixpoint call_run (id : nat) (tr : list Label) (l : Loop) : option Loop :=
  match tr with
  | [] => Some l
  | lab :: tr' =>
      match promise id l with
      | Some None =>
          if own id lab l then
            match step lab l with
            | Some l' => call_run id tr' l'
            | None => None
            end
          else None
      | _ => Some l
      end
  end.

(** The event shows a page on which the provider of [walletName] is
    not injected. *)
Definition absent (walletName : string) (lab : Label) : bool :=
  match lab with
  | Connect w _ => negb (hasWalletExtension w walletName)
  | Answer _ w _ => negb (hasWalletExtension w walletName)
  | Tick _ w => negb (hasWalletExtension w walletName)
  | Expire _ w => negb (hasWalletExtension w walletName)
  | Elapse _ => true
  end.

(** Invocation [id] is polling for [walletName] since time [t0]: its
    promise is pending, the flag is up, it awaits nothing, its interval
    runs [checkConnection] and its timeout, due 30 seconds after [t0],
    runs [timedOut]. *)
Definition polling (id : nat) (walletName : string) (t0 : Z) (l : Loop) : Prop :=
  promise id l = Some None
  /\ connecting (wallet l) = true
  /\ Forall (fun t => task_owner t <> id) (tasks l)
  /\ Forall (fun t => owner t = id ->
                       callback t = checkConnection walletName /\ period t = 1000)
       (intervals l)
  /\ Forall (fun t => owner t = id ->
                       callback t = timedOut /\ due t = t0 + 30000)
       (timeouts l).

(** The pages the event loop can get to from a fresh page. *)
Definition reachable (l : Loop) : Prop := exists tr, exec tr start = Some l.

(** Awaits and timers belong to invocations that were made. *)
Definition wf (l : Loop) : Prop :=
  Forall (fun t => (task_owner t < List.length (promises l))%nat) (tasks l)
  /\ Forall (fun t => (owner t < List.length (promises l))%nat) (intervals l)
  /\ Forall (fun t => (owner t < List.length (promises l))%nat) (timeouts l).

Section Holds.

(** [I st s]: what is to hold of [this] between two events, while the
    promise of the invocation is in state [st]. *)
Variable I : option (Outcome Info) -> WalletManager.t -> Prop.

Definition settled_with (o : Outcome Info) (st : option (Outcome Info))
  : option (Outcome Info) :=
  match st with
  | None => Some o
  | Some _ => st
  end.

(** [holds p s st]: run from [this = s] with the promise in state [st],
    [p] keeps [I] at every point where it gives control back, whatever
    the page shows and whatever the providers answer, as long as the
    promise is pending. *)
Fixpoint holds (R : Type) (p : M R) (s : WalletManager.t)
  (st : option (Outcome Info)) : Prop :=
  match p with
  | Ret _ => I st s
  | Throw _ => I st s
  | GetThis k => holds (k s) s st
  | SetThis f k => holds k (f s) st
  | GetWindow k => forall w, holds (k w) s st
  | Ext q k =>
      I st s /\
      (st = None -> forall a s', I None s' -> holds (k a) s' None)
  | SetInterval _ cb k =>
      (forall s', I None s' -> holds cb s' None) /\ holds k s st
  | SetTimeout _ cb k =>
      (forall s', I None s' -> holds cb s' None) /\ holds k s st
  | ClearInterval k => holds k s st
  | Resolve v k => holds k s (settled_with (Resolved v) st)
  | Reject e k => holds k s (settled_with (Rejected e) st)
  | Navigate _ k => holds k s st
  end.

Variable id : nat.

Definition task_ok (t : Task) : Prop :=
  match t with
  | task o _ k =>
      o = id -> forall a s', I None s' -> holds (k a) s' None
  end.

Definition timer_ok (t : Timer) : Prop :=
  owner t = id -> forall s', I None s' -> holds (callback t) s' None.

Definition lists_ok (l : Loop) : Prop :=
  Forall task_ok (tasks l)
  /\ Forall timer_ok (intervals l)
  /\ Forall timer_ok (timeouts l).

(** The page between two events. *)
Definition rests (l : Loop) : Prop :=
  exists st, promise id l = Some st
             /\ I st (wallet l)
             /\ (st = None -> lists_ok l).

End Holds.

End Isolation.

Module Invariant.

Import WalletManager.

(** For atomicity: unless the promise was resolved, the account and the
    wallet type are [pk] and [ty]. *)
Definition untouched (pk ty : option string) (st : option (Outcome Info))
  (s : WalletManager.t) : Prop :=
  match st with
  | Some (Resolved _) => True
  | _ => publicKey s = pk /\ connectedWalletType s = ty
  end.

(** For the re-entrancy guard: while the promise is pending, the
    [connecting] flag is up. *)
Definition guarded (st : option (Outcome Info)) (s : WalletManager.t) : Prop :=
  match st with
  | None => connecting s = true
  | Some _ => True
  end.

End Invariant.

(* ================================================================== *)
(** * Scenarios *)
(* ================================================================== *)

Module Scenario.

Import WalletManager EventLoop.

(** The amounts of the end-to-end scenarios. *)
Definition half : number := Number_of_decimal 5 (-1).     (* 0.5 *)
Definition tenth : number := Number_of_decimal 1 (-1).    (* 0.1 *)
Definition two_point_o_one : number := Number_of_decimal 201 (-2).   (* 2.01 *)

Definition sender : string := "Sender1111111111111111111111111111111111111".

(** The error object of a failed Solana transaction. *)
Definition custom_error : json :=
  JObject [("InstructionError", JArray [JNumber 0; JObject [("Custom", JNumber 1)]])].

Definition desktop_agent : string :=
  "Mozilla/5.0 (X11; Linux x86_64) AppleWebKit/537.36 Chrome/120.0 Safari/537.36".

Definition phone_agent : string :=
  "Mozilla/5.0 (iPhone; CPU iPhone OS 17_0 like Mac OS X) AppleWebKit/605.1.15 Mobile/15E148".

(** A desktop browser without any wallet extension. *)
Definition desktop : Window :=
  {| ethereum := None; solana := None; onLine := true; userAgent := desktop_agent |}.

(** A desktop browser with the MetaMask extension. *)
Definition desktop_metamask : Window :=
  {| ethereum := Some {| isMetaMask := true; isTrustWallet := false;
                         selectedAddress := None |};
     solana := None; onLine := true; userAgent := desktop_agent |}.

(** A desktop without a wallet, offline. *)
Definition offline_desktop : Window :=
  {| ethereum := None; solana := None; onLine := false;
     userAgent := desktop_agent |}.

(** A phone browser in which no wallet is injected. *)
Definition phone : Window :=
  {| ethereum := None; solana := None; onLine := true; userAgent := phone_agent |}.

(** The same phone browser once MetaMask has injected its provider. *)
Definition phone_metamask : Window :=
  {| ethereum := Some {| isMetaMask := true; isTrustWallet := false;
                         selectedAddress := None |};
     solana := None; onLine := true; userAgent := phone_agent |}.

Definition account : string := "0x00000000000000000000000000000000000000aa".

(** A first [connect('MetaMask')] on the phone goes the deep-link way;
    MetaMask shows up at the first poll and the handshake succeeds at
    once.  The 30-second timeout of this invocation stays armed. *)
Definition first_connect_succeeds : list Label :=
  [ Connect phone "MetaMask";
    Elapse 1000;
    Tick 0 phone_metamask;
    Answer 0 phone_metamask (accounts [account]);
    Answer 0 phone_metamask (chain 1) ].

(** Two seconds in, [connect('MetaMask')] is called again and waits for
    the wallet; at 30 seconds the timeout of the first invocation fires;
    at 31 seconds [connect('MetaMask')] is called a third time. *)
Definition three_connects : list Label :=
  (first_connect_succeeds ++
   [ Elapse 1000;
     Connect phone_metamask "MetaMask";
     Elapse 28000;
     Expire 0 phone_metamask;
     Elapse 1000;
     Connect phone_metamask "MetaMask" ])%list.

(** Five seconds in, [connect('Phantom')] is called and polls for
    Phantom, which never shows up; at 30 seconds the timeout of the first
    invocation fires; at 35 seconds, 30 seconds after the second
    invocation started to poll, its own timeout fires. *)
Definition phantom_starts_polling : list Label :=
  (first_connect_succeeds ++
   [ Elapse 4000;
     Connect phone_metamask "Phantom" ])%list.

Definition phantom_never_appears : list Label :=
  (phantom_starts_polling ++
   [ Elapse 25000;
     Expire 0 phone_metamask;
     Elapse 5000;
     Expire 1 phone_metamask ])%list.

(** [connect('MetaMask')] on the phone; MetaMask shows up at the first
    poll and asks its user, who takes 34 seconds to agree: the timeout
    fires while the handshake is waiting, and the wallet answers
    afterwards. *)
Definition slow_approval : list Label :=
  [ Connect phone "MetaMask";
    Elapse 1000;
    Tick 0 phone_metamask;
    Elapse 29000;
    Expire 0 phone_metamask ].

Definition late_answers : list Label :=
  [ Elapse 5000;
    Answer 0 phone_metamask (accounts [account]);
    Answer 0 phone_metamask (chain 1) ].

(** One [connect('MetaMask')] on a phone where no wallet ever shows up,
    until its timeout fires. *)
Definition nothing_appears : list Label :=
  [ Connect phone "MetaMask";
    Elapse 1000; Tick 0 phone;
    Elapse 29000;
    Expire 0 phone ].

(** [connect('MetaMask')] with the extension, MetaMask on the wrong
    network. *)
Definition wrong_network : list Label :=
  [ Answer 0 desktop_metamask (accounts [account]);
    Answer 0 desktop_metamask (chain 5) ].

End Scenario.

(* ================================================================== *)
(** * More of the vocabulary: what the calls show *)
(* ================================================================== *)

(** ** The answers a wallet manager gets *)

Module Protocol.

Import WalletManager.

Definition Event : Type := Event Request Info.

(** The chain id that a call of [getNetwork] answered. *)
Definition chain_of (ev : Event) : option Z :=
  match ev with
  | Called q a =>
      match q in Request X return X + Error -> option Z with
      | getNetwork => fun a => match a with inl c => Some c | inr _ => None end
      | _ => fun _ => None
      end a
  | _ => None
  end.

(** The error with which a call of [getNetwork] failed. *)
Definition network_error_of (ev : Event) : option Error :=
  match ev with
  | Called q a =>
      match q in Request X return X + Error -> option Error with
      | getNetwork => fun a => match a with inl _ => None | inr e => Some e end
      | _ => fun _ => None
      end a
  | _ => None
  end.

(** The accounts that a call of [eth_requestAccounts] answered. *)
Definition accounts_of (ev : Event) : option (list string) :=
  match ev with
  | Called q a =>
      match q in Request X return X + Error -> option (list string) with
      | eth_requestAccounts =>
          fun a => match a with inl l => Some l | inr _ => None end
      | _ => fun _ => None
      end a
  | _ => None
  end.

(** The error with which a call failed. *)
Definition error_of (ev : Event) : option Error :=
  match ev with
  | Called _ (inr e) => Some e
  | _ => None
  end.

(** The request of an event, by name, and whether it succeeded. *)
Definition answered_of (ev : Event) : option (string * bool) :=
  match ev with
  | Called q a =>
      Some (Asked.request_name q,
            match a with inl _ => true | inr _ => false end)
  | _ => None
  end.

End Protocol.

(** ** The properties an object literal inherits *)

Module Inherited.

(** The properties every object literal inherits from
    [Object.prototype]; [CONFIG.DEEP_LINKS[name]] finds them although
    the object does not define them. *)
Definition Object_prototype : list string :=
  [ "constructor"; "hasOwnProperty"; "isPrototypeOf"; "propertyIsEnumerable";
    "toLocaleString"; "toString"; "valueOf"; "__defineGetter__";
    "__defineSetter__"; "__lookupGetter__"; "__lookupSetter__"; "__proto__" ].

Definition inherited (name : string) : bool :=
  existsb (String.eqb name) Object_prototype.

End Inherited.

(** ** The state of the wallet manager when [connect] settles *)

Module Settled.

Import WalletManager.

(** While the promise of [connect walletName] is pending the
    [connecting] flag is up.  When it is resolved the flag is down, the
    account of the wallet manager is the account of the result, the
    wallet type is [walletName], and the network of the result is the
    one of that wallet.  When it is rejected the flag is down, unless
    the rejection says that another invocation holds it. *)
Definition consistent (walletName : string) (st : option (Outcome Info))
  (s : WalletManager.t) : Prop :=
  match st with
  | None => connecting s = true
  | Some (Resolved info) =>
      connecting s = false
      /\ publicKey s = info_publicKey info
      /\ connectedWalletType s = Some walletName
      /\ In (walletName, network info)
           [ ("MetaMask", "Ethereum"); ("Phantom", "Solana");
             ("Trust", "BNB Smart Chain") ]
  | Some (Rejected e) => connecting s = false \/ e = Kind.AlreadyConnecting
  end.

End Settled.

(** ** What a transfer asks of the libraries, call by call *)

Module Pipeline.

Import TransactionService Observe.

Definition request_name (X : Type) (q : Request X) : string :=
  match q with
  | getSigner => "getSigner"
  | getAddress _ => "getAddress"
  | sendTransaction _ _ => "signer.sendTransaction"
  | wait _ => "wait"
  | new_PublicKey _ => "new PublicKey"
  | SystemProgram_transfer _ _ _ => "SystemProgram.transfer"
  | getLatestBlockhash _ _ => "getLatestBlockhash"
  | compileToV0Message _ _ _ => "compileToV0Message"
  | new_VersionedTransaction _ => "new VersionedTransaction"
  | signTransaction _ => "signTransaction"
  | connection_sendTransaction _ _ _ _ => "connection.sendTransaction"
  | confirmTransaction _ _ _ _ _ => "confirmTransaction"
  end.

(** The request of an event, by name. *)
Definition asked (ev : Event) : option string :=
  match ev with
  | Called q _ => Some (request_name q)
  | _ => None
  end.

(** The error with which a call failed. *)
Definition error_of (ev : Event) : option Error :=
  match ev with
  | Called _ (inr e) => Some e
  | _ => None
  end.

(** [provider.getSigner()]: the signer. *)
Definition signer_of (ev : Event) : option Ref :=
  match ev with
  | Called q a =>
      match q in Request X return X + Error -> option Ref with
      | getSigner => fun a => match a with inl r => Some r | inr _ => None end
      | _ => fun _ => None
      end a
  | _ => None
  end.

(** [signer.sendTransaction]: the signer it was called on and the hash
    of the transaction it answered. *)
Definition sent_hash_of (ev : Event) : option (Ref * string) :=
  match ev with
  | Called q a =>
      match q in Request X return X + Error -> option (Ref * string) with
      | sendTransaction signer _ =>
          fun a => match a with inl h => Some (signer, h) | inr _ => None end
      | _ => fun _ => None
      end a
  | _ => None
  end.

(** [tx.wait()]: the hash of [tx] and the hash of the receipt. *)
Definition receipt_of (ev : Event) : option (string * string) :=
  match ev with
  | Called q a =>
      match q in Request X return X + Error -> option (string * string) with
      | wait h => fun a => match a with inl h' => Some (h, h') | inr _ => None end
      | _ => fun _ => None
      end a
  | _ => None
  end.

(** [new PublicKey(value)]: the value and the key object. *)
Definition key_of (ev : Event) : option (string * Ref) :=
  match ev with
  | Called q a =>
      match q in Request X return X + Error -> option (string * Ref) with
      | new_PublicKey v =>
          fun a => match a with inl r => Some (v, r) | inr _ => None end
      | _ => fun _ => None
      end a
  | _ => None
  end.

(** [SystemProgram.transfer]: sender, recipient and the instruction. *)
Definition instruction_of (ev : Event) : option (Ref * Ref * Ref) :=
  match ev with
  | Called q a =>
      match q in Request X return X + Error -> option (Ref * Ref * Ref) with
      | SystemProgram_transfer f t _ =>
          fun a => match a with inl r => Some (f, t, r) | inr _ => None end
      | _ => fun _ => None
      end a
  | _ => None
  end.

(** [getLatestBlockhash]: what it answered. *)
Definition latest_of (ev : Event) : option BlockhashWithExpiry :=
  match ev with
  | Called q a =>
      match q in Request X return X + Error -> option BlockhashWithExpiry with
      | getLatestBlockhash _ _ =>
          fun a => match a with inl b => Some b | inr _ => None end
      | _ => fun _ => None
      end a
  | _ => None
  end.

(** [compileToV0Message]: payer, blockhash, instructions and the message. *)
Definition message_of (ev : Event) : option (Ref * string * list Ref * Ref) :=
  match ev with
  | Called q a =>
      match q in Request X
            return X + Error -> option (Ref * string * list Ref * Ref) with
      | compileToV0Message p b i =>
          fun a => match a with inl r => Some (p, b, i, r) | inr _ => None end
      | _ => fun _ => None
      end a
  | _ => None
  end.

(** [new VersionedTransaction(message)]: the message and the transaction. *)
Definition transaction_of (ev : Event) : option (Ref * Ref) :=
  match ev with
  | Called q a =>
      match q in Request X return X + Error -> option (Ref * Ref) with
      | new_VersionedTransaction m =>
          fun a => match a with inl r => Some (m, r) | inr _ => None end
      | _ => fun _ => None
      end a
  | _ => None
  end.

(** [window.solana.signTransaction]: the transaction and its signed form. *)
Definition signed_of (ev : Event) : option (Ref * Ref) :=
  match ev with
  | Called q a =>
      match q in Request X return X + Error -> option (Ref * Ref) with
      | signTransaction t =>
          fun a => match a with inl r => Some (t, r) | inr _ => None end
      | _ => fun _ => None
      end a
  | _ => None
  end.

(** [connection.sendTransaction]: the transaction, the options and the
    signature it answered. *)
Definition signature_of (ev : Event) : option (Ref * bool * Z * string) :=
  match ev with
  | Called q a =>
      match q in Request X return X + Error -> option (Ref * bool * Z * string) with
      | connection_sendTransaction _ t p m =>
          fun a => match a with inl s => Some (t, p, m, s) | inr _ => None end
      | _ => fun _ => None
      end a
  | _ => None
  end.

(** [confirmTransaction]: the strategy and the commitment it was called
    with. *)
Definition strategy_of (ev : Event) : option (string * Z * string * string) :=
  match ev with
  | Called q _ =>
      match q with
      | confirmTransaction _ s h b c => Some (s, h, b, c)
      | _ => None
      end
  | _ => None
  end.

(** The connection on which an RPC call was made. *)
Definition connection_of (ev : Event) : option web3.Connection :=
  match ev with
  | Called q _ =>
      match q with
      | getLatestBlockhash c _ => Some c
      | connection_sendTransaction c _ _ _ => Some c
      | confirmTransaction c _ _ _ _ => Some c
      | _ => None
      end
  | _ => None
  end.

(** The calls of a Solana transfer, in the order of the code. *)
Definition solana_calls : list string :=
  [ "new PublicKey"; "new PublicKey"; "SystemProgram.transfer";
    "getLatestBlockhash"; "compileToV0Message"; "new VersionedTransaction";
    "signTransaction"; "connection.sendTransaction"; "confirmTransaction" ].

(** The calls of an Ethereum or BNB transfer, in the order of the code. *)
Definition ethereum_calls : list string :=
  [ "getSigner"; "getAddress"; "signer.sendTransaction"; "wait" ].

(** The connection handle a transaction service works with: the stored
    one, or a new one to the configured endpoint. *)
Definition handle (s : TransactionService.t) : web3.Connection :=
  match solConnection s with
  | Some c => c
  | None => web3.new_Connection CONFIG.SOLANA_RPC_URL "confirmed" ""
  end.

(** What one run of an Ethereum-family transfer shows: the calls are an
    initial part of the sequence of the code; when it resolves, exactly
    one transaction was handed to the signer that [getSigner] answered,
    for [destination], with the parsed amount and a gas limit of 21000,
    and the result is the hash of the receipt of that transaction; when
    it rejects, the state is untouched, no receipt was obtained, and the
    error is the one a call failed with, or that of the missing provider
    or of the amount that does not parse, before anything was sent. *)
Definition one_transfer (boost : number -> M string) (destination missing : string)
  : Prop :=
  forall amount sc s,
  let r := run (boost amount) sc s in
  (exists n, pick asked (events r) = firstn n ethereum_calls)
  /\ (forall hash, outcome r = Resolved hash ->
        exists signer v tx,
          weiAmount amount = inl v
          /\ pick signer_of (events r) = [signer]
          /\ pick sent_of (events r)
             = [{| to := destination; value := v; gasLimit := 21000 |}]
          /\ pick sent_hash_of (events r) = [(signer, tx)]
          /\ pick receipt_of (events r) = [(tx, hash)])
  /\ (forall e, outcome r = Rejected e ->
        final r = s
        /\ pick receipt_of (events r) = []
        /\ (pick error_of (events r) = [e]
            \/ pick error_of (events r) = []
               /\ pick sent_of (events r) = []
               /\ (e = new_Error missing \/ weiAmount amount = inr e))).

End Pipeline.


(* ================================================================== *)
(** * The revision of transactionService.js that takes amounts in USD *)
(* ================================================================== *)

(** ** [Number.prototype.toFixed] *)

Module Fixed.

(** The integer [n] for which [n] is closest to [num / den], the larger
    one when two are equally close ([num >= 0], [den > 0]). *)
Definition nearest (num den : Z) : Z := (2 * num + den) / (2 * den).

(** The digits of [n] with a point before the last [f] of them, padded
    with zeros on the left to [f + 1] digits. *)
Definition point (n : Z) (f : nat) : string :=
  let m := string_of_Z n in
  if Nat.eqb f 0 then m
  else
    let m := zeros (f + 1 - String.length m) ++ m in
    let k := String.length m in
    substring 0 (k - f) m ++ "." ++ substring (k - f) f m.

(** ECMAScript, Number.prototype.toFixed(f) for [0 <= f <= 100]: a
    value that is not finite prints as [toString] does; a magnitude of
    [10^21] or more prints as [toString] does; otherwise the magnitude
    is rounded to [f] decimals, half up, and printed positionally.  The
    sign is that of the value, and zero has none. *)
Definition Number_toFixed (x : number) (f : nat) : string :=
  match x with
  | S754_nan | S754_infinity _ => Number_toString x
  | S754_zero _ => point 0 f
  | S754_finite sg m e =>
      let body :=
        match cmp_dec_bin 1 21 (Z.pos m) e with
        | Gt =>
            point (nearest (Z.pos m * 2 ^ Z.max e 0 * 10 ^ Z.of_nat f)
                           (2 ^ Z.max (- e) 0)) f
        | _ => Number_toString (S754_finite false m e)
        end in
      if sg then "-" ++ body else body
  end.

(** The number of units of the [f]-th decimal that [toFixed] prints,
    with its sign, where it prints positionally. *)
Definition units (x : number) (f : nat) : option Z :=
  match x with
  | S754_zero _ => Some 0
  | S754_finite sg m e =>
      match cmp_dec_bin 1 21 (Z.pos m) e with
      | Gt =>
          Some ((if sg then -1 else 1)
                * nearest (Z.pos m * 2 ^ Z.max e 0 * 10 ^ Z.of_nat f)
                          (2 ^ Z.max (- e) 0))
      | _ => None
      end
  | _ => None
  end.

End Fixed.

(** ** The three transfers *)

Module Legacy.

Import TransactionService Fixed.

(** The argument of [signer.sendTransaction]: no gas limit is given. *)
Record TransactionRequest : Type := {
  to : string;
  value : Z
}.

(** The calls into ethers, @solana/web3.js and the wallets.  The answer
    of [sendTransaction] is [tx.hash]; [wait] answers when the
    transaction is mined; the answer of [confirmTransaction] is
    [confirmation.value.err] ([None] for [null]); the answer of
    [getBalance] is the balance in lamports. *)
Inductive Request : Type -> Type :=
| getSigner : Request Ref
| sendTransaction (signer : Ref) (tx : TransactionRequest) : Request string
| wait (hash : string) : Request unit
| new_PublicKey (value : string) : Request Ref
| SystemProgram_transfer (fromPubkey toPubkey : Ref) (lamports : number) : Request Ref
| getLatestBlockhash (c : web3.Connection) : Request BlockhashWithExpiry
| compileToV0Message (payerKey : Ref) (recentBlockhash : string)
    (instructions : list Ref) : Request Ref
| new_VersionedTransaction (message : Ref) : Request Ref
| signTransaction (transaction : Ref) : Request Ref
| connection_sendTransaction (c : web3.Connection) (transaction : Ref)
    : Request string
| confirmTransaction (c : web3.Connection) (signature : string)
    (lastValidBlockHeight : Z) (blockhash : string) : Request (option json)
| getBalance (c : web3.Connection) (publicKey : Ref) : Request number.

Definition M : Type -> Type := Prog TransactionService.t Request Empty_set.

Definition initializeSolanaConnection : M web3.Connection :=
  s <- this ;;
  match solConnection s with
  | None =>
      let c := web3.new_Connection CONFIG.SOLANA_RPC_URL "confirmed" "" in
      assign (fun _ => {| solConnection := Some c |}) ;;
      Ret c
  | Some c => Ret c
  end.

(** [this.solConnection] once [initializeSolanaConnection] has been
    called if it was not set. *)
Definition connection : M web3.Connection :=
  s <- this ;;
  match solConnection s with
  | None => initializeSolanaConnection
  | Some c => Ret c
  end.

Definition parsed (a : Z + Error) : M Z :=
  match a with
  | inl v => Ret v
  | inr e => Throw e
  end.

(** Placeholder conversion rate: 1 USD = 0.0005 ETH *)
Definition convertUSDtoETH (usdAmount : number) : string :=
  Number_toFixed (Number_mul usdAmount (Number_of_decimal 5 (-4))) 6.

(** Placeholder conversion rate: 1 USD = 0.005 SOL *)
Definition convertUSDtoSOL (usdAmount : number) : number :=
  Number_mul usdAmount (Number_of_decimal 5 (-3)).

(** Placeholder conversion rate: 1 USD = 0.002 BNB *)
Definition convertUSDtoBNB (usdAmount : number) : string :=
  Number_toFixed (Number_mul usdAmount (Number_of_decimal 2 (-3))) 6.

Definition boostWithMetaMask (amountUSD : number) : M string :=
  w <- window ;;
  match ethereum w with
  | None => Throw (new_Error "MetaMask not found")
  | Some _ =>
      signer <- call getSigner ;;
      let ethAmount := convertUSDtoETH amountUSD in
      weiAmount <- parsed (ethers.parseEther ethAmount) ;;
      tx <- call (sendTransaction signer
                    {| to := CONFIG.BOOST_ADDRESSES.ethereum;
                       value := weiAmount |}) ;;
      call (wait tx) ;;
      Ret tx
  end.

Definition boostWithPhantom (amountUSD : number) (publicKey : string) : M string :=
  w <- window ;;
  match solana w with
  | None => Throw (new_Error "Phantom wallet not found")
  | Some _ =>
      solConnection <- connection ;;
      let solAmount := convertUSDtoSOL amountUSD in
      let lamports := Math_floor (Number_mul solAmount web3.LAMPORTS_PER_SOL) in
      senderPublicKey <- call (new_PublicKey publicKey) ;;
      recipientPublicKey <- call (new_PublicKey CONFIG.BOOST_ADDRESSES.solana) ;;
      instruction <- call (SystemProgram_transfer senderPublicKey
                             recipientPublicKey lamports) ;;
      latest <- call (getLatestBlockhash solConnection) ;;
      message <- call (compileToV0Message senderPublicKey (blockhash latest)
                         [instruction]) ;;
      versionedTransaction <- call (new_VersionedTransaction message) ;;
      signedTransaction <- call (signTransaction versionedTransaction) ;;
      signature <- call (connection_sendTransaction solConnection
                           signedTransaction) ;;
      call (confirmTransaction solConnection signature
              (lastValidBlockHeight latest) (blockhash latest)) ;;
      Ret signature
  end.

Definition boostWithTrustWallet (amountUSD : number) : M string :=
  w <- window ;;
  match ethereum w with
  | None => Throw (new_Error "Trust Wallet not found")
  | Some _ =>
      signer <- call getSigner ;;
      let bnbAmount := convertUSDtoBNB amountUSD in
      weiAmount <- parsed (ethers.parseEther bnbAmount) ;;
      tx <- call (sendTransaction signer
                    {| to := CONFIG.BOOST_ADDRESSES.bnb;
                       value := weiAmount |}) ;;
      call (wait tx) ;;
      Ret tx
  end.

(** What a transfer hands over *)

Definition Event : Type := Event Request Empty_set.

(** The transaction of a call of [signer.sendTransaction]. *)
Definition sent_of (ev : Event) : option TransactionRequest :=
  match ev with
  | Called q _ =>
      match q with
      | sendTransaction _ tx => Some tx
      | _ => None
      end
  | _ => None
  end.

(** What [connection.sendTransaction] answered: the signature. *)
Definition signature_of (ev : Event) : option string :=
  match ev with
  | Called q a =>
      match q in Request X return X + Error -> option string with
      | connection_sendTransaction _ _ =>
          fun a => match a with inl s => Some s | inr _ => None end
      | _ => fun _ => None
      end a
  | _ => None
  end.

(** What [confirmTransaction] answered: [confirmation.value.err]. *)
Definition confirmed_of (ev : Event) : option (option json) :=
  match ev with
  | Called q a =>
      match q in Request X return X + Error -> option (option json) with
      | confirmTransaction _ _ _ _ =>
          fun a => match a with inl err => Some err | inr _ => None end
      | _ => fun _ => None
      end a
  | _ => None
  end.

(** A simulated run in which every call succeeds, except that the
    confirmation reports [err]. *)
Definition unconfirmed (err : json) : Script Request := {|
  answer := fun X n q =>
    match q in Request X return X + Error with
    | getSigner => inl (ref 0)
    | sendTransaction _ _ => inl "0xhash"
    | wait _ => inl tt
    | new_PublicKey _ => inl (ref n)
    | SystemProgram_transfer _ _ _ => inl (ref n)
    | getLatestBlockhash _ =>
        inl {| blockhash := "blockhash"; lastValidBlockHeight := 100 |}
    | compileToV0Message _ _ _ => inl (ref n)
    | new_VersionedTransaction _ => inl (ref n)
    | signTransaction _ => inl (ref n)
    | connection_sendTransaction _ _ => inl "signature"
    | confirmTransaction _ _ _ _ => inl (Some err)
    | getBalance _ _ => inl (Number_of_Z 0)
    end;
  page := fun _ => Observe.both_wallets
|}.

Definition getSolanaBalance (address : string) : M number :=
  solConnection <- connection ;;
  publicKey <- call (new_PublicKey address) ;;
  balance <- call (getBalance solConnection publicKey) ;;
  Ret balance.

End Legacy.

(* ================================================================== *)
(** * utils.js *)
(* ================================================================== *)

Module utils.

(** [String.prototype.slice(start, end)]: a negative index counts from
    the end, and both are clamped to the string; [end] left out is the
    length. *)
Definition String_slice (s : string) (start : Z) (stop : option Z) : string :=
  let len := Z.of_nat (String.length s) in
  let clamp i := if i <? 0 then Z.max (len + i) 0 else Z.min i len in
  let from := clamp start in
  let to := match stop with Some e => clamp e | None => len end in
  substring (Z.to_nat from) (Z.to_nat (Z.max (to - from) 0)) s.

(** Shortens a blockchain address for display *)
Definition shortenAddress (address : option string) : string :=
  match address with
  | Some a =>
      if String.eqb a "" then "Unknown"
      else String_slice a 0 (Some 6) ++ "..." ++ String_slice a (-4) None
  | None => "Unknown"
  end.

(** [div.textContent = str; return div.innerHTML]: the serialisation of
    one text node, which writes the ampersand, the no-break space
    (U+00A0) and the two angle brackets as character references. *)
Definition reference (c : ascii) : string :=
  if Ascii.eqb c "&" then "&amp;"
  else if Nat.eqb (nat_of_ascii c) 160 then "&nbsp;"
  else if Ascii.eqb c "<" then "&lt;"
  else if Ascii.eqb c ">" then "&gt;"
  else String c "".

Fixpoint escapeHTML (str : string) : string :=
  match str with
  | EmptyString => EmptyString
  | String c str' => reference c ++ escapeHTML str'
  end.

Definition between (lo hi : string) (c : ascii) : bool :=
  match lo, hi with
  | String l _, String h _ =>
      (Nat.leb (nat_of_ascii l) (nat_of_ascii c)
       && Nat.leb (nat_of_ascii c) (nat_of_ascii h))%bool
  | _, _ => false
  end.

Fixpoint every (p : ascii -> bool) (s : string) : bool :=
  match s with
  | EmptyString => true
  | String c s' => (p c && every p s')%bool
  end.

(** [[a-fA-F0-9]] *)
Definition hex (c : ascii) : bool :=
  (between "a" "f" c || between "A" "F" c || between "0" "9" c)%bool.

(** [/^0x[a-fA-F0-9]{40}$/.test(address)] *)
Definition isValidEthereumAddress (address : string) : bool :=
  match address with
  | String "0" (String "x" rest) =>
      (Nat.eqb (String.length rest) 40 && every hex rest)%bool
  | _ => false
  end.

(** [[1-9A-HJ-NP-Za-km-z]] *)
Definition base58 (c : ascii) : bool :=
  (between "1" "9" c || between "A" "H" c || between "J" "N" c
   || between "P" "Z" c || between "a" "k" c || between "m" "z" c)%bool.

(** [/^[1-9A-HJ-NP-Za-km-z]{32,44}$/.test(address)] *)
Definition isValidSolanaAddress (address : string) : bool :=
  (Nat.leb 32 (String.length address) && Nat.leb (String.length address) 44
   && every base58 address)%bool.

(** [\d] and [\w] *)
Definition digit (c : ascii) : bool := between "0" "9" c.

Definition word (c : ascii) : bool :=
  (between "a" "z" c || between "A" "Z" c || between "0" "9" c
   || Ascii.eqb c "_")%bool.

(** The number of digits a string starts with. *)
Fixpoint digits_ahead (s : string) : nat :=
  match s with
  | String c s' => if digit c then S (digits_ahead s') else O
  | EmptyString => O
  end.

(** [(?=(\d{3})+(?!\d))] at the start of [s]: the digits [s] starts
    with come in one or more groups of three. *)
Definition thousands_ahead (s : string) : bool :=
  let d := digits_ahead s in
  (negb (Nat.eqb d 0) && Nat.eqb (Nat.modulo d 3) 0)%bool.

(** [s.replace(/\B(?=(\d{3})+(?!\d))/g, ',')], for the part [s] of the
    string that follows the character [prev].  The pattern is empty, so
    every position is tried; [\B] holds where the characters on both
    sides are word characters or both are not, and the look-ahead wants
    a digit, which is one. *)
Fixpoint commas_from (prev : option ascii) (s : string) : string :=
  match s with
  | EmptyString => EmptyString
  | String c s' =>
      let here :=
        match prev with
        | Some p => (word p && thousands_ahead s)%bool
        | None => false
        end in
      (if here then "," else "") ++ String c (commas_from (Some c) s')
  end.

(** Formats a number with commas *)
Definition formatNumber (num : number) : string :=
  commas_from None (Number_toString num).

End utils.

(** ** [debounce(func, wait)] *)

Module Debounce.

Section Debounced.

(** The arguments of [func], and [wait], a whole number of
    milliseconds. *)
Variable A : Type.
Variable wait : Z.

(** [setTimeout(handler, timeout)] takes [timeout] as a signed integer
    of 32 bits, wrapping around. *)
Definition long (z : Z) : Z := (z + 2 ^ 31) mod 2 ^ 32 - 2 ^ 31.

(** The delay of the timer that [setTimeout(later, wait)] arms: a
    negative one counts as zero. *)
Definition delay : Z := Z.max (long wait) 0.

(** A timer that [setTimeout] has armed: [later], closed over the
    arguments of the call that armed it. *)
Record Timer : Type := {
  id : nat;
  due : Z;
  args : A
}.

(** What is seen of the debounced function: its calls, and the calls of
    [func] it makes, with their times. *)
Inductive Entry : Type :=
| Asked (time : Z) (a : A)
| Ran (time : Z) (a : A).

(** The variable [timeout] of the closure, the timers that are armed,
    the clock, and what has happened, the latest first. *)
Record State : Type := {
  timeout : option nat;
  armed : list Timer;
  next : nat;
  clock : Z;
  log : list Entry
}.

Definition start : State :=
  {| timeout := None; armed := []; next := 0; clock := 0; log := [] |}.

(** [clearTimeout(timeout)] *)
Definition clearTimeout (handle : option nat) (ts : list Timer) : list Timer :=
  match handle with
  | Some i => filter (fun t => negb (Nat.eqb (id t) i)) ts
  | None => ts
  end.

(** [executedFunction(...args)] *)
Definition executedFunction (a : A) (s : State) : State :=
  {| timeout := Some (next s);
     armed := clearTimeout (timeout s) (armed s)
              ++ [{| id := next s; due := clock s + delay; args := a |}];
     next := S (next s);
     clock := clock s;
     log := Asked (clock s) a :: log s |}.

(** The events: a call of the debounced function, a timer that fires
    (at its due time or later, and it is no longer armed then), and
    time that passes. *)
Inductive Label : Type :=
| Call (a : A)
| Fire (i : nat)
| Elapse (ms : Z).

Definition step (lab : Label) (s : State) : option State :=
  match lab with
  | Call a => Some (executedFunction a s)
  | Fire i =>
      match find (fun t => Nat.eqb (id t) i) (armed s) with
      | Some t =>
          if due t <=? clock s then
            (* later: clearTimeout(timeout); func(...args) *)
            Some {| timeout := timeout s;
                    armed := clearTimeout (timeout s)
                               (filter (fun t' => negb (Nat.eqb (id t') i)) (armed s));
                    next := next s;
                    clock := clock s;
                    log := Ran (clock s) (args t) :: log s |}
          else None
      | None => None
      end
  | Elapse ms =>
      if 0 <=? ms then
        Some {| timeout := timeout s; armed := armed s; next := next s;
                clock := clock s + ms; log := log s |}
      else None
  end.

Fixpoint exec (tr : list Label) (s : State) : option State :=
  match tr with
  | [] => Some s
  | lab :: tr' =>
      match step lab s with
      | Some s' => exec tr' s'
      | None => None
      end
  end.



End Debounced.

Arguments Fire {A} i.
Arguments Elapse {A} ms.

End Debounce.

(* ================================================================== *)
(** * uiManager.js *)
(* ================================================================== *)

Module UIManager.

Import utils.

(** An element of the document, as far as the code reads and writes
    it. *)
Record Element : Type := {
  textContent : string;
  classList : list string;
  disabled : bool
}.

Definition set_textContent (v : string) (e : Element) : Element :=
  {| textContent := v; classList := classList e; disabled := disabled e |}.

Definition set_disabled (v : bool) (e : Element) : Element :=
  {| textContent := textContent e; classList := classList e; disabled := v |}.

(** [classList.add(token)]: the token is appended unless it is there. *)
Definition classList_add (token : string) (e : Element) : Element :=
  if existsb (String.eqb token) (classList e) then e
  else {| textContent := textContent e;
          classList := classList e ++ [token];
          disabled := disabled e |}.

(** [classList.remove(token, ...)] *)
Definition classList_remove (tokens : list string) (e : Element) : Element :=
  {| textContent := textContent e;
     classList := filter (fun t => negb (existsb (String.eqb t) tokens))
                    (classList e);
     disabled := disabled e |}.

(** A reference to an element.  Two references are the same element
    when they are equal. *)
Definition Ref : Type := nat.

(** [this.dom]: the twelve properties that [cacheDOMElements] sets,
    each an element or [null]. *)
Record Dom : Type := {
  connectWallet : option Ref;
  walletModal : option Ref;
  closeModal_ : option Ref;
  connectMetamask : option Ref;
  connectPhantom : option Ref;
  connectTrust : option Ref;
  boostSection : option Ref;
  amountInput : option Ref;
  networkDisplay : option Ref;
  walletAddressDisplay : option Ref;
  boostNowBtn : option Ref;
  feedbackContainer : option Ref
}.

(** [this.dom[key]], where it is an element; no property inherited from
    [Object.prototype] has a name that starts with "connect". *)
Definition lookup (d : Dom) (key : string) : option Ref :=
  if String.eqb key "connectWallet" then connectWallet d
  else if String.eqb key "walletModal" then walletModal d
  else if String.eqb key "closeModal" then closeModal_ d
  else if String.eqb key "connectMetamask" then connectMetamask d
  else if String.eqb key "connectPhantom" then connectPhantom d
  else if String.eqb key "connectTrust" then connectTrust d
  else if String.eqb key "boostSection" then boostSection d
  else if String.eqb key "amountInput" then amountInput d
  else if String.eqb key "networkDisplay" then networkDisplay d
  else if String.eqb key "walletAddressDisplay" then walletAddressDisplay d
  else if String.eqb key "boostNowBtn" then boostNowBtn d
  else if String.eqb key "feedbackContainer" then feedbackContainer d
  else None.

(** A [UIManager] and the document it works on: the elements by
    reference, the children of [document.body] that the code appends,
    and the next reference [createElement] gives. *)
Record t : Type := {
  dom : Dom;
  spinner : option Ref;
  elements : Ref -> Element;
  body : list Ref;
  fresh : Ref
}.

Definition write (r : Ref) (f : Element -> Element) (ui : t) : t :=
  {| dom := dom ui;
     spinner := spinner ui;
     elements := fun r' => if Nat.eqb r' r then f (elements ui r) else elements ui r';
     body := body ui;
     fresh := fresh ui |}.

(** Update wallet button state *)
Definition updateButtonState (state walletName : string) (address : option string)
  (ui : t) : t :=
  match lookup (dom ui) ("connect" ++ walletName) with
  | None => ui
  | Some button =>
      let ui := write button
                  (classList_remove ["animate-pulse"; "connecting"; "connected"]) ui in
      let ui := write button (set_disabled (String.eqb state "connecting")) ui in
      if String.eqb state "connecting" then
        write button (classList_add "connecting")
          (write button (set_textContent "Connecting...") ui)
      else if String.eqb state "connected" then
        write button (classList_add "connected")
          (write button (set_textContent (shortenAddress address)) ui)
      else
        write button (classList_add "animate-pulse")
          (write button (set_textContent ("Connect " ++ walletName)) ui)
  end.

(** Show processing spinner overlay *)
Definition showProcessingSpinner (ui : t) : t :=
  match spinner ui with
  | Some _ => ui
  | None =>
      let r := fresh ui in
      {| dom := dom ui;
         spinner := Some r;
         elements := fun r' =>
           if Nat.eqb r' r
           then {| textContent := "Processing Transaction...";
                   classList := ["modal"; "active"];
                   disabled := false |}
           else elements ui r';
         body := body ui ++ [r];
         fresh := S r |}
  end.

(** Hide processing spinner overlay *)
Definition hideProcessingSpinner (ui : t) : t :=
  match spinner ui with
  | Some r =>
      {| dom := dom ui;
         spinner := None;
         elements := elements ui;
         body := filter (fun r' => negb (Nat.eqb r' r)) (body ui);
         fresh := fresh ui |}
  | None => ui
  end.

End UIManager.

(** ** The processing overlay, call by call *)

Module Overlay.
Import UIManager.
(** The two calls that show and hide the spinner. *)
Inductive Call : Type := show | hide.

Definition perform (ui : t) (c : Call) : t :=
  match c with
  | show => showProcessingSpinner ui
  | hide => hideProcessingSpinner ui
  end.

(** A page with none of the elements that the code looks up. *)
Definition blank : t :=
  {| dom := {| connectWallet := None; walletModal := None;
               closeModal_ := None; connectMetamask := None;
               connectPhantom := None; connectTrust := None;
               boostSection := None; amountInput := None;
               networkDisplay := None; walletAddressDisplay := None;
               boostNowBtn := None; feedbackContainer := None |};
     spinner := None;
     elements := fun _ => {| textContent := ""; classList := [];
                             disabled := false |};
     body := [];
     fresh := 0%nat |}.
End Overlay.

(** ** The shapes of strings that the statements speak of *)

Module Shape.

Import ethers utils.

(** Decimal digits only. *)
Fixpoint all_digits (s : string) : bool :=
  match s with
  | EmptyString => true
  | String c s' => (is_digit c && all_digits s')%bool
  end.

(** The characters [escapeHTML] replaces. *)
Definition special (c : ascii) : bool :=
  (Ascii.eqb c "&" || Nat.eqb (nat_of_ascii c) 160
   || Ascii.eqb c "<" || Ascii.eqb c ">")%bool.

(** The characters that open and close a tag. *)
Definition bracket (c : ascii) : bool :=
  (Ascii.eqb c "<" || Ascii.eqb c ">")%bool.

(** The string without its commas. *)
Fixpoint without_commas (s : string) : string :=
  match s with
  | EmptyString => EmptyString
  | String c s' =>
      if Ascii.eqb c "," then without_commas s' else String c (without_commas s')
  end.

End Shape.

(* ================================================================== *)
(** * Theorems *)
(* ================================================================== *)

(** ** The runtime model on known values *)

Module RuntimeFacts.

Import Scenario.

(** The literal [0.5] is the binary64 value [2^52 * 2^-53], the literal
    [0.1] is [0x1.999999999999ap-4]. *)
Example half_bits : half = S754_finite false 4503599627370496 (-53).
Proof. reflexivity. Qed.

Example tenth_bits : tenth = S754_finite false 7205759403792794 (-56).
Proof. reflexivity. Qed.

Example toString_tenth : Number_toString tenth = "0.1".
Proof. vm_compute. reflexivity. Qed.

Example toString_sum :
  Number_toString (SFadd prec emax tenth (Number_of_decimal 2 (-1)))
  = "0.30000000000000004".
Proof. vm_compute. reflexivity. Qed.

Example toString_small : Number_toString (Number_of_decimal 1 (-7)) = "1e-7".
Proof. vm_compute. reflexivity. Qed.

Example toString_large : Number_toString (Number_of_decimal 1 21) = "1e+21".
Proof. vm_compute. reflexivity. Qed.

Example toString_max :
  Number_toString (SFmax_float prec emax) = "1.7976931348623157e+308".
Proof. vm_compute. reflexivity. Qed.

Example floor_negative :
  Math_floor (Number_of_decimal (-35) (-1)) = Number_of_Z (-4).
Proof. vm_compute. reflexivity. Qed.

Example parseEther_padding :
  ethers.parseEther "1.5" = inl 1500000000000000000.
Proof. vm_compute. reflexivity. Qed.

Example parseEther_precision :
  ethers.parseEther "0.0000000000000000001"
  = inr (new_Error "too many decimals for format").
Proof. vm_compute. reflexivity. Qed.

Example stringify_error :
  JSON_stringify custom_error
  = "{" ++ quote "InstructionError" ++ ":[0,{" ++ quote "Custom" ++ ":1}]}".
Proof. vm_compute. reflexivity. Qed.

Example phone_is_mobile :
  isMobileDevice phone = true /\ isMobileDevice desktop = false.
Proof. split; reflexivity. Qed.

(** A string is included in whatever it is appended to. *)
Lemma prefix_self s : prefix s s = true.
Proof.
  induction s as [|c s IH]; cbn; auto.
  destruct (ascii_dec c c); [exact IH|congruence].
Qed.

Lemma includes_appended p s : includes s (p ++ s) = true.
Proof.
  induction p as [|c p IH]; cbn.
  - destruct s; cbn; auto.
    destruct (ascii_dec a a); [|congruence].
    rewrite prefix_self. reflexivity.
  - rewrite IH. apply orb_true_r.
Qed.

Lemma object_is_truthy v : is_object v = true -> truthy v = true.
Proof. destruct v; cbn; congruence. Qed.

End RuntimeFacts.

(** ** transactionService.js *)

Module TransferFacts.

Import TransactionService Observe Scenario.

Arguments weiAmount : simpl never.
Arguments lamports : simpl never.
Arguments JSON_stringify : simpl never.
Arguments append : simpl never.

(** Follow a transfer through every answer its calls can get. *)
Ltac answers :=
  repeat (cbn;
          match goal with
          | |- context [answer ?sc ?n ?q] => destruct (answer sc n q) eqn:?
          | |- context [match ethereum ?w with _ => _ end] =>
              destruct (ethereum w) eqn:?
          | |- context [match solana ?w with _ => _ end] =>
              destruct (solana w) eqn:?
          | |- context [match solConnection ?s with _ => _ end] =>
              destruct (solConnection s) eqn:?
          | |- context [match weiAmount ?a with _ => _ end] =>
              destruct (weiAmount a) eqn:?
          | |- context [match ?o with Some _ => _ | None => _ end] =>
              destruct o eqn:?
          | |- context [if truthy ?j then _ else _] => destruct (truthy j) eqn:?
          end); cbn.

Ltac open_transfer :=
  unfold run, boostWithPhantom, boostWithMetaMask, boostWithTrustWallet,
    connection, initializeSolanaConnection, parsed, call, window, this, assign.

(** Whatever the amount and whatever the libraries answer, the transfer
    instruction is asked for with [Math.floor(amount * LAMPORTS_PER_SOL)]
    lamports. *)
Lemma phantom_lamports amount publicKey sc s :
  Forall (fun l => l = lamports amount)
    (pick lamports_of (events (run (boostWithPhantom amount publicKey) sc s))).
Proof. open_transfer. answers; repeat constructor. Qed.

(** Whatever the signer answers, what is sent to it is the parsed
    amount, to the configured address, with a gas limit of 21000; when
    the amount does not parse nothing is sent and the transfer rejects. *)
Lemma metamask_value amount sc s :
  match weiAmount amount with
  | inl v =>
      Forall (fun tx => tx = {| to := CONFIG.BOOST_ADDRESSES.ethereum;
                                value := v; gasLimit := 21000 |})
        (pick sent_of (events (run (boostWithMetaMask amount) sc s)))
  | inr e =>
      pick sent_of (events (run (boostWithMetaMask amount) sc s)) = []
      /\ exists e', outcome (run (boostWithMetaMask amount) sc s) = Rejected e'
  end.
Proof.
  open_transfer. destruct (weiAmount amount) eqn:Hw.
  - answers; repeat constructor.
  - answers; split; try reflexivity; eexists; reflexivity.
Qed.



(** The two amounts of the end-to-end scenarios are converted
    exactly: for the amount 0.5 every transfer instruction
    the Solana path asks for carries 500000000 lamports, and in the
    simulated successful run it asks for exactly one and returns the
    signature; for the amount 0.1 every transaction the Ethereum path
    hands to the signer carries 100000000000000000 wei for the
    configured address, and in the simulated successful run it hands
    over exactly one. *)
Theorem minor_unit_conversion :
  (forall sc s,
     Forall (fun l => BigInt_of_Number l = Some 500000000)
       (pick lamports_of (events (run (boostWithPhantom half sender) sc s))))
  /\ BigInt_of_Number (lamports half) = Some 500000000
  /\ pick lamports_of
       (events (run (boostWithPhantom half sender) success constructor))
     = [Number_of_Z 500000000]
  /\ outcome (run (boostWithPhantom half sender) success constructor)
     = Resolved "signature"
  /\ (forall sc s,
        Forall (fun tx => value tx = 100000000000000000
                          /\ to tx = "0xeA54572eBA790E31f97e1D6f941D7427276688C3")
          (pick sent_of (events (run (boostWithMetaMask tenth) sc s))))
  /\ weiAmount tenth = inl 100000000000000000
  /\ map value
       (pick sent_of (events (run (boostWithMetaMask tenth) success constructor)))
     = [100000000000000000].
Proof.
  assert (Hl : lamports half = Number_of_Z 500000000) by (vm_compute; reflexivity).
  assert (Hw : weiAmount tenth = inl 100000000000000000) by (vm_compute; reflexivity).
  refine (conj _ (conj _ (conj _ (conj _ (conj _ (conj _ _)))))).
  - intros sc s. eapply Forall_impl; [|apply phantom_lamports].
    intros l ->. rewrite Hl. vm_compute. reflexivity.
  - rewrite Hl. vm_compute. reflexivity.
  - vm_compute. reflexivity.
  - vm_compute. reflexivity.
  - intros sc s. pose proof (metamask_value tenth sc s) as H.
    rewrite Hw in H. eapply Forall_impl; [|exact H].
    intros tx ->. split; reflexivity.
  - exact Hw.
  - vm_compute. reflexivity.
Qed.

(** C2.  The conversion to the minor unit is not exact on the Solana
    path.  The amount 2.01 prints as "2.01", and 2.01 SOL are
    2010000000 lamports; [Math.floor(2.01 * LAMPORTS_PER_SOL)] is
    2009999999, because the product of the two binary64 numbers lies
    just below 2010000000 and [Math.floor] cuts it down.  Every
    transfer instruction that [boostWithPhantom] asks for carries that
    amount, and in the simulated successful run the transfer is built,
    submitted and resolves, one lamport short.  The amount 1.001 loses
    a lamport in the same way.  The Ethereum path, which parses the
    decimal string of the amount, converts 2.01 exactly. *)
Theorem floor_loses_a_lamport :
  Number_toString two_point_o_one = "2.01"
  /\ BigInt_of_Number (lamports two_point_o_one) = Some 2009999999
  /\ 201 * 10 ^ 7 = 2010000000
  /\ (forall sc s,
        Forall (fun l => BigInt_of_Number l = Some 2009999999)
          (pick lamports_of
             (events (run (boostWithPhantom two_point_o_one sender) sc s))))
  /\ pick lamports_of
       (events (run (boostWithPhantom two_point_o_one sender) success constructor))
     = [Number_of_Z 2009999999]
  /\ List.length
       (pick submitted_of
          (events (run (boostWithPhantom two_point_o_one sender) success
                     constructor)))
     = 1%nat
  /\ outcome (run (boostWithPhantom two_point_o_one sender) success constructor)
     = Resolved "signature"
  /\ BigInt_of_Number (lamports (Number_of_decimal 1001 (-3))) = Some 1000999999
  /\ weiAmount two_point_o_one = inl 2010000000000000000.
Proof.
  assert (Hl : lamports two_point_o_one = Number_of_Z 2009999999)
    by (vm_compute; reflexivity).
  refine (conj _ (conj _ (conj _ (conj _ (conj _ (conj _ (conj _ (conj _ _)))))))).
  - vm_compute. reflexivity.
  - rewrite Hl. vm_compute. reflexivity.
  - reflexivity.
  - intros sc s. eapply Forall_impl; [|apply phantom_lamports].
    intros l ->. rewrite Hl. vm_compute. reflexivity.
  - vm_compute. reflexivity.
  - vm_compute. reflexivity.
  - vm_compute. reflexivity.
  - vm_compute. reflexivity.
  - vm_compute. reflexivity.
Qed.




(** In this revision, when the network confirmation of a Solana
    transfer reports an error (an object, or any other truthy value),
    the transfer rejects with the TransactionFailed error whose detail
    is the error as JSON, and that detail is part of the message. *)
Theorem confirmation_error_rejects amount publicKey sc s err :
  In (Some err)
     (pick confirmed_of (events (run (boostWithPhantom amount publicKey) sc s))) ->
  truthy err = true ->
  outcome (run (boostWithPhantom amount publicKey) sc s)
  = Rejected (Kind.TransactionFailed (JSON_stringify err))
  /\ includes (JSON_stringify err)
       (message (Kind.TransactionFailed (JSON_stringify err))) = true.
Proof.
  intros Hin Ht. split; [|apply RuntimeFacts.includes_appended].
  revert Hin Ht. open_transfer.
  answers; intros Hin Ht; cbn in Hin;
  repeat (destruct Hin as [Hin|Hin]; try discriminate); try contradiction;
  try (injection Hin as <-); try congruence; try reflexivity.
Qed.

Lemma confirmation_error_rejects_witness :
  outcome (run (boostWithPhantom half sender) (failing custom_error) constructor)
  = Rejected (Kind.TransactionFailed (JSON_stringify custom_error))
  /\ includes (JSON_stringify custom_error)
       (message (Kind.TransactionFailed (JSON_stringify custom_error))) = true.
Proof.
  apply confirmation_error_rejects.
  - vm_compute. left. reflexivity.
  - reflexivity.
Defined.




End TransferFacts.

(** ** walletManager.js, one invocation at a time *)

Module WalletFacts.

Import WalletManager Asked Observe Scenario.

Ltac script_cases :=
  repeat (cbn;
          match goal with
          | |- context [answer ?sc ?n ?q] => destruct (answer sc n q) eqn:?
          | |- context [match ethereum ?w with _ => _ end] =>
              destruct (ethereum w) eqn:?
          | |- context [match solana ?w with _ => _ end] =>
              destruct (solana w) eqn:?
          | |- context [if ?b then _ else _] => destruct b eqn:?
          end); cbn.

(** C9.  [checkExistingConnection] never asks the user: the only
    requests it makes are Phantom's [connect({ onlyIfTrusted: true })]
    and the network of the Ethereum provider, in this order; and when
    no provider holds a trusted session it returns [null], without
    throwing and without touching the connection state. *)
Theorem checkExistingConnection_passive sc s :
  let r := run checkExistingConnection sc s in
  Forall (fun ev => prompting ev = false) (events r)
  /\ In (pick asked (events r))
        [ [];
          ["solana.connect({ onlyIfTrusted: true })"];
          ["getNetwork"];
          ["solana.connect({ onlyIfTrusted: true })"; "getNetwork"] ]
  /\ (no_trusted_session sc -> outcome r = Resolved None /\ final r = s).
Proof.
  unfold run, checkExistingConnection, call, window, this, assign,
    ethereum_is, solana_is.
  script_cases.
  all: split; [repeat constructor|split]; [cbn; auto 6|].
  all: intros [Hp He]; try (split; reflexivity).
  all: try (specialize (Hp 0%nat); destruct Hp as [e' Hp]; congruence).
  all: pose proof (He 0%nat) as He0; pose proof (He 1%nat) as He1;
       repeat match goal with
              | E : ethereum _ = _ |- _ => rewrite E in *; clear E
              end; congruence.
Qed.

Lemma checkExistingConnection_passive_witness :
  outcome (run checkExistingConnection no_wallet constructor) = Resolved None
  /\ final (run checkExistingConnection no_wallet constructor) = constructor.
Proof.
  apply (proj2 (proj2 (checkExistingConnection_passive no_wallet constructor))).
  split.
  - intros n. eexists. reflexivity.
  - intros n. reflexivity.
Defined.

(** C1 fails in the code.  On a page where MetaMask has an account
    selected but is not on Ethereum Mainnet, [checkExistingConnection]
    on a new wallet manager returns [null] and leaves the account set
    while the wallet type is still [null]. *)
Theorem checkExistingConnection_unlinks :
  let r := run checkExistingConnection metamask_on_chain_5 constructor in
  linked constructor
  /\ outcome r = Resolved None
  /\ publicKey (final r) = Some "0x00000000000000000000000000000000000000aa"
  /\ connectedWalletType (final r) = None
  /\ ~ linked (final r).
Proof.
  cbn. refine (conj _ (conj eq_refl (conj eq_refl (conj eq_refl _)))).
  - unfold linked; cbn. split; intros H; exact H.
  - unfold linked; cbn. intros [H _]. apply H; [discriminate|reflexivity].
Qed.

(** The sibling paths keep the two fields together: [disconnect] clears
    both, and a handshake sets both or none. *)
Lemma disconnect_links sc s :
  linked (final (run disconnect sc s)).
Proof.
  unfold linked; cbn. split; intros H; congruence.
Qed.

Lemma connectMetaMask_links sc s :
  linked s -> linked (final (run connectMetaMask sc s)).
Proof.
  intros Hs. unfold run, connectMetaMask, call, this, assign.
  script_cases; auto.
  unfold linked; cbn. destruct l; [discriminate|]. cbn.
  split; intros _; discriminate.
Qed.

Lemma connectPhantom_links sc s :
  linked s -> linked (final (run connectPhantom sc s)).
Proof.
  intros Hs. unfold run, connectPhantom, call, this, assign.
  script_cases; auto.
  unfold linked; cbn. split; intros _; discriminate.
Qed.

Lemma connectTrustWallet_links sc s :
  linked s -> linked (final (run connectTrustWallet sc s)).
Proof.
  intros Hs. unfold run, connectTrustWallet, call, this, assign.
  script_cases; auto.
  all: unfold linked; cbn; destruct l; try discriminate; cbn;
       split; intros _; discriminate.
Qed.

Lemma connect_links walletName sc s :
  linked s -> linked (final (run (connect walletName) sc s)).
Proof.
  intros Hs.
  unfold run, connect, connectMetaMask, connectPhantom, connectTrustWallet,
    call, window, this, assign.
  script_cases.
  all: try (destruct (CONFIG.DEEP_LINKS walletName); cbn).
  all: unfold linked in *; cbn; try exact Hs.
  all: try (destruct l; cbn in *; try discriminate); split; intros _; discriminate.
Qed.

(** C8.  Registering the account-change listeners a second time does
    nothing, whatever the page and the callback of the second call.  So
    after two registrations on a page where no listener was registered
    before, an account change reported by a provider that was there at
    the first registration runs the callback exactly once; one reported
    by a provider that was not there at the first registration runs it
    not at all, whatever the second registration finds, because the
    first call sets [listenersSetup] also when it registers nothing. *)
Theorem setupEventListeners_idempotent w1 w2 cb1 cb2 p :
  setupEventListeners w2 cb2 (setupEventListeners w1 cb1 p)
  = setupEventListeners w1 cb1 p
  /\ (forall f accs,
        listenersSetup (manager p) = false ->
        ethereum_on p = [] ->
        ethereum w1 <> None ->
        cb1 = Some f ->
        strict_neq (opt_toLowerCase (hd_error accs))
                   (opt_toLowerCase (publicKey (manager p))) = true ->
        fired (emit (accountsChanged accs)
                 (setupEventListeners w2 cb2 (setupEventListeners w1 cb1 p)))
        = S (fired p))
  /\ (forall f key,
        listenersSetup (manager p) = false ->
        solana_on p = [] ->
        solana w1 <> None ->
        cb1 = Some f ->
        strict_neq_null key (publicKey (manager p)) = true ->
        fired (emit (accountChanged key)
                 (setupEventListeners w2 cb2 (setupEventListeners w1 cb1 p)))
        = S (fired p))
  /\ (forall accs,
        listenersSetup (manager p) = false ->
        ethereum_on p = [] ->
        ethereum w1 = None ->
        fired (emit (accountsChanged accs)
                 (setupEventListeners w2 cb2 (setupEventListeners w1 cb1 p)))
        = fired p)
  /\ (forall key,
        listenersSetup (manager p) = false ->
        solana_on p = [] ->
        solana w1 = None ->
        fired (emit (accountChanged key)
                 (setupEventListeners w2 cb2 (setupEventListeners w1 cb1 p)))
        = fired p).
Proof.
  assert (Hidem : setupEventListeners w2 cb2 (setupEventListeners w1 cb1 p)
                  = setupEventListeners w1 cb1 p).
  { unfold setupEventListeners.
    destruct (listenersSetup (manager p)) eqn:Hs; cbn.
    - rewrite Hs. reflexivity.
    - reflexivity. }
  split; [exact Hidem|]. rewrite Hidem.
  refine (conj _ (conj _ (conj _ _))).
  - intros f accs Hs He Hw -> Hneq.
    unfold setupEventListeners, emit, ethereum_is. rewrite Hs, He.
    destruct (ethereum w1); [|congruence]. cbn.
    rewrite Hneq. reflexivity.
  - intros f key Hs He Hw -> Hneq.
    unfold setupEventListeners, emit, solana_is. rewrite Hs, He.
    destruct (solana w1); [|congruence]. cbn.
    rewrite Hneq. reflexivity.
  - intros accs Hs He Hw.
    unfold setupEventListeners, emit, ethereum_is. rewrite Hs, He, Hw.
    reflexivity.
  - intros key Hs He Hw.
    unfold setupEventListeners, emit, solana_is. rewrite Hs, He, Hw.
    reflexivity.
Qed.

(** C8, as the claim states it, fails when the provider comes late.
    Two registrations, the first on a page without the Ethereum
    provider and the second on the page with it: the account change
    that the provider reports afterwards runs the callback zero times,
    not once. *)
Lemma setupEventListeners_misses_late_provider :
  let f := fun s => set_publicKey None (set_connectedWalletType None s) in
  ethereum desktop = None
  /\ ethereum desktop_metamask <> None
  /\ fired (emit (accountsChanged ["0x00000000000000000000000000000000000000BB"])
              (setupEventListeners desktop_metamask (Some f)
                 (setupEventListeners desktop (Some f) fresh_page)))
     = 0%nat.
Proof.
  cbn zeta. split; [reflexivity|]. split; [discriminate|]. reflexivity.
Qed.

Lemma setupEventListeners_idempotent_witness :
  fired (emit (accountsChanged ["0x00000000000000000000000000000000000000BB"])
           (setupEventListeners desktop_metamask (Some (fun s => s))
              (setupEventListeners desktop_metamask
                 (Some (fun s => set_publicKey None
                                   (set_connectedWalletType None s)))
                 fresh_page)))
  = 1%nat.
Proof.
  apply (proj1 (proj2 (setupEventListeners_idempotent
                         desktop_metamask desktop_metamask
                         (Some (fun s => set_publicKey None
                                           (set_connectedWalletType None s)))
                         (Some (fun s => s)) fresh_page))
           (fun s => set_publicKey None (set_connectedWalletType None s))
           ["0x00000000000000000000000000000000000000BB"]).
  - reflexivity.
  - reflexivity.
  - discriminate.
  - reflexivity.
  - reflexivity.
Defined.

End WalletFacts.

(** ** [connect] in the event loop *)

Module LoopFacts.

Import WalletManager EventLoop Isolation Invariant Scenario.

Lemma settle_nth_length id o ps :
  List.length (settle_nth id o ps) = List.length ps.
Proof.
  revert id. induction ps as [|[o'|] ps IH]; intros [|id]; cbn; auto.
Qed.

Lemma settle_nth_last o ps :
  settle_nth (List.length ps) o (ps ++ [None]) = (ps ++ [Some o])%list.
Proof.
  induction ps as [|p ps IH]; cbn; [reflexivity|].
  rewrite IH. destruct p; reflexivity.
Qed.

Lemma promise_settle id o l :
  promise id (settle id o l) =
  match promise id l with
  | Some st => Some (settled_with o st)
  | None => None
  end.
Proof.
  unfold promise, settle. cbn.
  generalize (promises l). clear l.
  induction id as [|id IH]; intros [|[o'|] ps]; cbn; auto.
Qed.

Lemma promise_fresh l ps :
  promises l = (ps ++ [None])%list -> promise (List.length ps) l = Some None.
Proof.
  intros E. unfold promise. rewrite E.
  rewrite nth_error_app2, Nat.sub_diag; auto.
Qed.

Lemma set_connecting_back s :
  connecting s = false -> set_connecting false (set_connecting true s) = s.
Proof. destruct s; cbn; intros ->; reflexivity. Qed.

(** On a phone
    where no provider is injected, [connect('MetaMask')] does not fail
    with ProviderNotDetected: it opens the deep link and polls, its
    promise is pending, and when nothing shows up it is rejected with
    ConnectTimeout, which is another error. *)
Lemma connect_on_phone_polls :
  hasWalletExtension phone "MetaMask" = false
  /\ (exists l, step (Connect phone "MetaMask") start = Some l
                /\ promise 0 l = Some None
                /\ location l = ["https://metamask.app.link/dapp/nexium-bot.onrender.com/add-volume.html"])
  /\ (exists l, exec nothing_appears start = Some l
                /\ promise 0 l = Some (Some (Rejected Kind.ConnectTimeout)))
  /\ Kind.ConnectTimeout <> Kind.ProviderNotDetected "MetaMask".
Proof.
  refine (conj eq_refl (conj _ (conj _ _))).
  - eexists. split; [reflexivity|]. split; reflexivity.
  - eexists. split; [vm_compute; reflexivity|]. reflexivity.
  - discriminate.
Qed.

(** C4, as the claim states it, fails in three ways.  On a phone
    without the provider [connect] polls and is rejected with
    ConnectTimeout in the end; on a desktop without the provider that
    is offline it is rejected with Offline; and while another
    [connect] is in flight it is rejected with AlreadyConnecting.
    None of these is ProviderNotDetected. *)
Lemma connect_without_provider_differs :
  (hasWalletExtension phone "MetaMask" = false
   /\ (exists l, step (Connect phone "MetaMask") start = Some l
                 /\ promise 0 l = Some None
                 /\ location l = ["https://metamask.app.link/dapp/nexium-bot.onrender.com/add-volume.html"])
   /\ (exists l, exec nothing_appears start = Some l
                 /\ promise 0 l = Some (Some (Rejected Kind.ConnectTimeout)))
   /\ Kind.ConnectTimeout <> Kind.ProviderNotDetected "MetaMask")
  /\ (hasWalletExtension offline_desktop "MetaMask" = false
      /\ isMobileDevice offline_desktop = false
      /\ (exists l, step (Connect offline_desktop "MetaMask") start = Some l
                    /\ promise 0 l = Some (Some (Rejected Kind.Offline)))
      /\ Kind.Offline <> Kind.ProviderNotDetected "MetaMask")
  /\ (hasWalletExtension desktop_metamask "Phantom" = false
      /\ isMobileDevice desktop_metamask = false
      /\ (exists l, exec [Connect desktop_metamask "MetaMask";
                          Connect desktop_metamask "Phantom"] start = Some l
                    /\ promise 0 l = Some None
                    /\ promise 1 l = Some (Some (Rejected Kind.AlreadyConnecting)))
      /\ Kind.AlreadyConnecting <> Kind.ProviderNotDetected "Phantom").
Proof.
  refine (conj _ (conj _ _)).
  - exact connect_on_phone_polls.
  - refine (conj eq_refl (conj eq_refl (conj _ _))); [|discriminate].
    eexists. split; [vm_compute; reflexivity|]. reflexivity.
  - refine (conj eq_refl (conj eq_refl (conj _ _))); [|discriminate].
    eexists. split; [vm_compute; reflexivity|]. split; reflexivity.
Qed.
(** Without the provider on a device that is not mobile, [connect]
    fails at once and leaves the page as it was. *)
Lemma connect_not_detected l w walletName :
  connecting (wallet l) = false ->
  onLine w = true ->
  isMobileDevice w = false ->
  hasWalletExtension w walletName = false ->
  step (Connect w walletName) l
  = Some (with_promises
            (promises l ++ [Some (Rejected (Kind.ProviderNotDetected walletName))])
            l).
Proof.
  intros Hc Ho Hm He.
  cbn. rewrite Hc. cbn. rewrite Ho. cbn. rewrite Hm, He. cbn.
  unfold settle, with_promises, with_wallet; cbn.
  rewrite settle_nth_last, set_connecting_back by exact Hc.
  destruct l; reflexivity.
Qed.

(** Without the provider on a mobile device, [connect] opens the deep
    link and arms the poll and the timeout. *)
Lemma connect_starts_polling l w walletName deeplink :
  connecting (wallet l) = false ->
  onLine w = true ->
  isMobileDevice w = true ->
  hasWalletExtension w walletName = false ->
  CONFIG.DEEP_LINKS walletName = Some deeplink ->
  step (Connect w walletName) l
  = Some {| wallet := set_connecting true (wallet l);
            now := now l;
            promises := promises l ++ [None];
            tasks := tasks l;
            intervals := intervals l ++
              [{| owner := List.length (promises l); due := now l + 1000;
                  period := 1000; callback := checkConnection walletName |}];
            timeouts := timeouts l ++
              [{| owner := List.length (promises l); due := now l + 30000;
                  period := 0; callback := timedOut |}];
            location := location l ++ [deeplink] |}.
Proof.
  intros Hc Ho Hm He Hd.
  cbn. rewrite Hc. cbn. rewrite Ho. cbn. rewrite Hm, He. cbn.
  rewrite Hd. cbn. reflexivity.
Qed.

(** C4, amended.  For each wallet, when no matching provider is
    injected, [connect] fails with ProviderNotDetected only on a device
    that is not mobile,
    with no connect in flight and the browser online; it then fails at
    once and leaves the page as it was.  The two checks that come first
    win: with a connect in flight it fails with AlreadyConnecting, and
    otherwise, offline, with Offline.  On a mobile device, with no
    connect in flight and online, it does not fail at the call: it
    opens the deep link of the wallet, which each of the three wallets
    has, arms the 1-second poll and the 30-second timeout, and its
    promise is pending. *)
Theorem connect_without_provider l w walletName :
  hasWalletExtension w walletName = false ->
  (connecting (wallet l) = true ->
     step (Connect w walletName) l
     = Some (with_promises
               (promises l ++ [Some (Rejected Kind.AlreadyConnecting)]) l))
  /\ (connecting (wallet l) = false -> onLine w = false ->
      step (Connect w walletName) l
      = Some (with_promises (promises l ++ [Some (Rejected Kind.Offline)]) l))
  /\ (connecting (wallet l) = false -> onLine w = true ->
      isMobileDevice w = false ->
      step (Connect w walletName) l
      = Some (with_promises
                (promises l ++ [Some (Rejected (Kind.ProviderNotDetected walletName))])
                l))
  /\ (connecting (wallet l) = false -> onLine w = true ->
      isMobileDevice w = true ->
      forall deeplink, CONFIG.DEEP_LINKS walletName = Some deeplink ->
      exists l',
        step (Connect w walletName) l = Some l'
        /\ promise (List.length (promises l)) l' = Some None
        /\ location l' = (location l ++ [deeplink])%list
        /\ intervals l' = (intervals l ++
              [{| owner := List.length (promises l); due := now l + 1000;
                  period := 1000; callback := checkConnection walletName |}])%list
        /\ timeouts l' = (timeouts l ++
              [{| owner := List.length (promises l); due := now l + 30000;
                  period := 0; callback := timedOut |}])%list)
  /\ (In walletName ["MetaMask"; "Phantom"; "Trust"] ->
      exists deeplink, CONFIG.DEEP_LINKS walletName = Some deeplink).
Proof.
  intros He. refine (conj _ (conj _ (conj _ (conj _ _)))).
  - intros Hc. cbn. rewrite Hc. cbn.
    unfold settle, with_promises; cbn. rewrite settle_nth_last.
    destruct l; reflexivity.
  - intros Hc Ho. cbn. rewrite Hc. cbn. rewrite Ho. cbn.
    unfold settle, with_promises; cbn. rewrite settle_nth_last.
    destruct l; reflexivity.
  - intros Hc Ho Hm. apply connect_not_detected; assumption.
  - intros Hc Ho Hm deeplink Hd. eexists.
    split; [apply connect_starts_polling; eassumption|].
    split; [apply promise_fresh; reflexivity|].
    split; [reflexivity|]. split; reflexivity.
  - intros [<-|[<-|[<-|[]]]]; eexists; reflexivity.
Qed.

Lemma connect_without_provider_witness :
  step (Connect desktop "Phantom") start
  = Some (with_promises [Some (Rejected (Kind.ProviderNotDetected "Phantom"))] start).
Proof.
  apply (proj1 (proj2 (proj2 (@connect_without_provider start desktop "Phantom"
                  eq_refl)))); reflexivity.
Defined.

(** *** Pages the event loop gets to are well formed *)

Lemma drive_wf R (p : M R) : forall id w l,
  (id < List.length (promises l))%nat ->
  wf l ->
  wf (drive id w p l)
  /\ List.length (promises (drive id w p l)) = List.length (promises l).
Proof.
  induction p; intros id w l Hid Hwf; cbn.
  - auto.
  - auto.
  - apply H; auto.
  - apply (IHp id w (with_wallet f l)); auto.
  - apply H; auto.
  - destruct Hwf as (Ht & Hi & Ho). split; [|reflexivity].
    split; [|split]; cbn; auto.
    apply Forall_app; split; auto.
  - apply (IHp2 id w
             (with_intervals
                (intervals l ++
                 [{| owner := id; due := now l + ms; period := ms; callback := p1 |}]) l));
      cbn; auto.
    destruct Hwf as (Ht & Hi & Ho). split; [|split]; cbn; auto.
    apply Forall_app; split; auto.
  - apply (IHp id w (with_intervals (filter (not_of id) (intervals l)) l));
      cbn; auto.
    destruct Hwf as (Ht & Hi & Ho). split; [|split]; cbn; auto.
    apply Forall_forall. intros t Hin. apply filter_In in Hin.
    rewrite Forall_forall in Hi. apply Hi, Hin.
  - apply (IHp2 id w
             (with_timeouts
                (timeouts l ++
                 [{| owner := id; due := now l + ms; period := 0; callback := p1 |}]) l));
      cbn; auto.
    destruct Hwf as (Ht & Hi & Ho). split; [|split]; cbn; auto.
    apply Forall_app; split; auto.
  - destruct (IHp id w (settle id (Resolved v) l)) as [H1 H2]; cbn;
      rewrite ?settle_nth_length; auto.
    + destruct Hwf as (Ht & Hi & Ho).
      split; [|split]; cbn; rewrite settle_nth_length; auto.
    + split; auto. rewrite H2. cbn. apply settle_nth_length.
  - destruct (IHp id w (settle id (Rejected e) l)) as [H1 H2]; cbn;
      rewrite ?settle_nth_length; auto.
    + destruct Hwf as (Ht & Hi & Ho).
      split; [|split]; cbn; rewrite settle_nth_length; auto.
    + split; auto. rewrite H2. cbn. apply settle_nth_length.
  - apply (IHp id w (with_location (location l ++ [url]) l)); auto.
Qed.

Lemma Forall_remove_nth A (P : A -> Prop) i (l : list A) :
  Forall P l -> Forall P (remove_nth i l).
Proof.
  intros H. revert i. induction H; intros [|i]; cbn; auto.
Qed.

Lemma find_owned i (ts : list Timer) t :
  find (owned_by i) ts = Some t -> In t ts /\ owner t = i.
Proof.
  intros H. apply find_some in H. destruct H as [Hin Ho].
  split; auto. unfold owned_by in Ho. apply Nat.eqb_eq in Ho. exact Ho.
Qed.

Lemma step_wf lab l l' : wf l -> step lab l = Some l' -> wf l'.
Proof.
  intros Hwf Hs. pose proof Hwf as (Ht & Hi & Ho).
  destruct lab as [w n|i w r|i w|i w|ms]; cbn in Hs.
  - injection Hs as <-. apply drive_wf; cbn.
    + rewrite length_app; cbn. lia.
    + split; [|split]; cbn; rewrite length_app; cbn;
        (eapply Forall_impl; [|eassumption]); cbn; intros; lia.
  - destruct (nth_error (tasks l) i) as [[o R X q k]|] eqn:Hn; [|discriminate].
    destruct (reply_to q r) as [a|]; [|discriminate].
    injection Hs as <-.
    apply nth_error_In in Hn.
    pose proof (proj1 (Forall_forall _ _) Ht _ Hn) as Hlt. cbn in Hlt.
    apply drive_wf; cbn; auto.
    split; [|split]; cbn; auto. apply Forall_remove_nth, Ht.
  - destruct (find (owned_by i) (intervals l)) as [t|] eqn:Hf; [|discriminate].
    destruct (due t <=? now l); [|discriminate].
    injection Hs as <-.
    apply find_owned in Hf. destruct Hf as [Hin Hown].
    pose proof (proj1 (Forall_forall _ _) Hi _ Hin) as Hlt. cbn in Hlt.
    apply drive_wf; cbn; [lia|].
    split; [|split]; cbn; auto.
    apply Forall_forall. intros t' Hin'. apply in_map_iff in Hin'.
    destruct Hin' as (t0 & <- & Hin0).
    pose proof (proj1 (Forall_forall _ _) Hi _ Hin0) as Hlt0. cbn in Hlt0.
    unfold rearm. destruct (owned_by i t0); cbn; exact Hlt0.
  - destruct (find (owned_by i) (timeouts l)) as [t|] eqn:Hf; [|discriminate].
    destruct (due t <=? now l); [|discriminate].
    injection Hs as <-.
    apply find_owned in Hf. destruct Hf as [Hin Hown].
    pose proof (proj1 (Forall_forall _ _) Ho _ Hin) as Hlt. cbn in Hlt.
    apply drive_wf; cbn; [lia|].
    split; [|split]; cbn; auto.
    apply Forall_forall. intros t' Hin'. apply filter_In in Hin'.
    rewrite Forall_forall in Ho. apply Ho, Hin'.
  - destruct (0 <=? ms); [|discriminate]. injection Hs as <-. exact Hwf.
Qed.

Lemma exec_wf tr : forall l l', wf l -> exec tr l = Some l' -> wf l'.
Proof.
  induction tr as [|lab tr IH]; cbn; intros l l' Hwf He.
  - injection He as <-. exact Hwf.
  - destruct (step lab l) as [l1|] eqn:Hs; [|discriminate].
    eapply IH; [|exact He]. eapply step_wf; eauto.
Qed.

Lemma reachable_wf l : reachable l -> wf l.
Proof.
  intros [tr He]. eapply exec_wf; [|exact He].
  split; [|split]; constructor.
Qed.

Lemma reachable_start : reachable start.
Proof. exists []. reflexivity. Qed.

(** *** What an invocation keeps true from event to event *)

Section Keeping.

Variable I : option (Outcome Info) -> WalletManager.t -> Prop.
Variable id : nat.

Lemma drive_rests R (p : M R) : forall w l st,
  promise id l = Some st ->
  holds I p (wallet l) st ->
  (st = None -> lists_ok I id l) ->
  rests I id (drive id w p l).
Proof.
  induction p; intros w l st Hp Hh Hl; cbn in *.
  - exists st; auto.
  - exists st; auto.
  - eapply H; eauto.
  - eapply IHp; eauto.
  - eapply H; eauto.
  - destruct Hh as [Hi Hk]. exists st. split; [exact Hp|]. split; [exact Hi|].
    intros E. destruct (Hl E) as (Ht & Hi1 & Hi2).
    split; [|split]; cbn; auto.
    apply Forall_app; split; auto. constructor; auto.
    cbn. intros _. auto.
  - destruct Hh as [Hcb Hk]. eapply IHp2; eauto.
    intros E. destruct (Hl E) as (Ht & Hi1 & Hi2).
    split; [|split]; cbn; auto.
    apply Forall_app; split; auto. constructor; auto.
    intros _. cbn. auto.
  - eapply IHp; eauto.
    intros E. destruct (Hl E) as (Ht & Hi1 & Hi2).
    split; [|split]; cbn; auto.
    apply Forall_forall. intros t Hin. apply filter_In in Hin.
    rewrite Forall_forall in Hi1. apply Hi1, Hin.
  - destruct Hh as [Hcb Hk]. eapply IHp2; eauto.
    intros E. destruct (Hl E) as (Ht & Hi1 & Hi2).
    split; [|split]; cbn; auto.
    apply Forall_app; split; auto. constructor; auto.
    intros _. cbn. auto.
  - eapply IHp with (st := settled_with (Resolved v) st); eauto.
    + rewrite promise_settle, Hp. reflexivity.
    + destruct st; cbn; discriminate.
  - eapply IHp with (st := settled_with (Rejected e) st); eauto.
    + rewrite promise_settle, Hp. reflexivity.
    + destruct st; cbn; discriminate.
  - eapply IHp; eauto.
Qed.

Lemma step_rests lab l l' :
  promise id l = Some None ->
  I None (wallet l) ->
  lists_ok I id l ->
  own id lab l = true ->
  step lab l = Some l' ->
  rests I id l'.
Proof.
  intros Hp Hi (Ht & Hi1 & Hi2) Ho Hs.
  destruct lab as [w n|i w r|i w|i w|ms]; cbn in *.
  - discriminate.
  - destruct (nth_error (tasks l) i) as [[o R X q k]|] eqn:Hn; [|discriminate].
    apply Nat.eqb_eq in Ho. subst o.
    destruct (reply_to q r) as [a|]; [|discriminate].
    injection Hs as <-.
    apply nth_error_In in Hn.
    pose proof (proj1 (Forall_forall _ _) Ht _ Hn) as Hk. cbn in Hk.
    eapply drive_rests; cbn; eauto.
    intros _. split; [|split]; cbn; auto.
    apply Forall_remove_nth. exact Ht.
  - apply Nat.eqb_eq in Ho. subst i.
    destruct (find (owned_by id) (intervals l)) as [t|] eqn:Hf; [|discriminate].
    destruct (due t <=? now l); [|discriminate].
    injection Hs as <-.
    apply find_owned in Hf. destruct Hf as [Hin Hown].
    rewrite Forall_forall in Hi1. pose proof (Hi1 _ Hin Hown) as Hcb.
    eapply drive_rests; cbn; eauto.
    intros _. split; [|split]; cbn; auto.
    apply Forall_forall. intros t' Hin'. apply in_map_iff in Hin'.
    destruct Hin' as (t0 & <- & Hin0).
    unfold rearm. destruct (owned_by id t0); [|apply Hi1; auto].
    unfold timer_ok; cbn. apply Hi1; auto.
  - apply Nat.eqb_eq in Ho. subst i.
    destruct (find (owned_by id) (timeouts l)) as [t|] eqn:Hf; [|discriminate].
    destruct (due t <=? now l); [|discriminate].
    injection Hs as <-.
    apply find_owned in Hf. destruct Hf as [Hin Hown].
    rewrite Forall_forall in Hi2. pose proof (Hi2 _ Hin Hown) as Hcb.
    eapply drive_rests; cbn; eauto.
    intros _. split; [|split]; cbn; auto.
    apply Forall_forall. intros t' Hin'. apply filter_In in Hin'. apply Hi2, Hin'.
  - destruct (0 <=? ms); [|discriminate]. injection Hs as <-.
    exists None. cbn. split; [exact Hp|]. split; [exact Hi|].
    intros _. split; [|split]; auto.
Qed.

Lemma call_run_rests tr : forall l l',
  rests I id l -> call_run id tr l = Some l' -> rests I id l'.
Proof.
  induction tr as [|lab tr IH]; cbn; intros l l' Hr Hc.
  - injection Hc as <-. exact Hr.
  - destruct Hr as (st & Hp & Hi & Hl). rewrite Hp in Hc.
    destruct st as [o|].
    + injection Hc as <-. exists (Some o). auto.
    + destruct (own id lab l) eqn:Ho; [|discriminate].
      destruct (step lab l) as [l1|] eqn:Hs; [|discriminate].
      eapply IH; [|exact Hc].
      eapply step_rests; eauto.
Qed.

End Keeping.

Lemma connect_rests I l w walletName l0 :
  wf l ->
  holds I (async (connect walletName)) (wallet l) None ->
  step (Connect w walletName) l = Some l0 ->
  rests I (List.length (promises l)) l0.
Proof.
  intros (Ht & Hi1 & Hi2) Hh Hs. cbn in Hs. injection Hs as <-.
  eapply drive_rests with (st := None); cbn; auto.
  - apply promise_fresh. reflexivity.
  - intros _. split; [|split]; cbn.
    + eapply Forall_impl; [|exact Ht]. intros [o R X q k]; cbn.
      intros Hlt E. exfalso. rewrite E in Hlt. exact (Nat.lt_irrefl _ Hlt).
    + eapply Forall_impl; [|exact Hi1]. intros t Hlt E. exfalso.
      cbn beta in Hlt. rewrite E in Hlt. exact (Nat.lt_irrefl _ Hlt).
    + eapply Forall_impl; [|exact Hi2]. intros t Hlt E. exfalso.
      cbn beta in Hlt. rewrite E in Hlt. exact (Nat.lt_irrefl _ Hlt).
Qed.

(** Follow [connect] through every page and every answer. *)
Ltac every_path :=
  repeat (cbn in *; intros;
          match goal with
          | |- _ /\ _ => split
          | H : _ /\ _ |- _ => destruct H
          | |- context [if ?b then _ else _] => destruct b eqn:?
          | |- context [match ?x with _ => _ end] => destruct x eqn:?
          end).

Ltac open_connect :=
  unfold async, connect, connectMetaMask, connectPhantom, connectTrustWallet,
    checkConnection, timedOut, call, this, assign, window.

Lemma connect_untouched walletName s :
  holds (untouched (publicKey s) (connectedWalletType s))
    (async (connect walletName)) s None.
Proof.
  open_connect. every_path; cbn in *; try discriminate; auto.
Qed.

Lemma connect_guarded walletName s :
  holds guarded (async (connect walletName)) s None.
Proof.
  open_connect.
  every_path; cbn in *; try discriminate; try congruence; auto.
Qed.

(** At the moment of the rejection [connect] has changed nothing.
    Take any page the event loop can get to and call [connect] there;
    follow this invocation through
    its own events (the answers to its awaits, its poll, its timeout,
    time passing) up to the event that settles its promise.  If the
    promise is rejected, whatever the reason, the account and the wallet
    type of the wallet manager are what they were before the call. *)
Theorem connect_atomic_on_failure l w walletName tr l0 l' e :
  reachable l ->
  step (Connect w walletName) l = Some l0 ->
  call_run (List.length (promises l)) tr l0 = Some l' ->
  promise (List.length (promises l)) l' = Some (Some (Rejected e)) ->
  publicKey (wallet l') = publicKey (wallet l)
  /\ connectedWalletType (wallet l') = connectedWalletType (wallet l).
Proof.
  intros Hr Hs Hc Hp.
  assert (H : rests (untouched (publicKey (wallet l)) (connectedWalletType (wallet l)))
                (List.length (promises l)) l').
  { eapply call_run_rests; [|exact Hc].
    eapply connect_rests; [apply reachable_wf, Hr| |exact Hs].
    apply connect_untouched. }
  destruct H as (st & Hst & Hi & _).
  rewrite Hp in Hst. injection Hst as <-. exact Hi.
Qed.

Lemma connect_atomic_on_failure_witness :
  exists l0 l',
    step (Connect desktop_metamask "MetaMask") start = Some l0
    /\ call_run 0 wrong_network l0 = Some l'
    /\ promise 0 l'
       = Some (Some (Rejected (new_Error "Please switch MetaMask to Ethereum Mainnet.")))
    /\ publicKey (wallet l') = None
    /\ connectedWalletType (wallet l') = None.
Proof.
  eexists. eexists.
  split; [reflexivity|]. split; [reflexivity|]. split; [reflexivity|].
  exact (connect_atomic_on_failure (l := start) (w := desktop_metamask)
           (walletName := "MetaMask") wrong_network
           reachable_start eq_refl eq_refl eq_refl).
Defined.

(** X4.  While an invocation of [connect] is followed through its own
    events only, the guard holds: as long as its promise is pending the
    [connecting] flag is up, so that another [connect] is rejected at
    once with AlreadyConnecting and changes nothing else on the page. *)
Theorem guard_holds_in_isolation l w walletName tr l0 l1 w' walletName' :
  reachable l ->
  step (Connect w walletName) l = Some l0 ->
  call_run (List.length (promises l)) tr l0 = Some l1 ->
  promise (List.length (promises l)) l1 = Some None ->
  step (Connect w' walletName') l1
  = Some (with_promises
            (promises l1 ++ [Some (Rejected Kind.AlreadyConnecting)]) l1).
Proof.
  intros Hr Hs Hc Hp.
  assert (H : rests guarded (List.length (promises l)) l1).
  { eapply call_run_rests; [|exact Hc].
    eapply connect_rests; [apply reachable_wf, Hr| |exact Hs].
    apply connect_guarded. }
  destruct H as (st & Hst & Hi & _).
  rewrite Hp in Hst. injection Hst as <-.
  cbn in Hi. cbn. rewrite Hi. cbn. unfold settle; cbn.
  rewrite settle_nth_last. reflexivity.
Qed.

(** C5 fails in the code.  The timeout of an invocation that went the
    deep-link way stays armed when the poll settles the invocation.
    When it fires it finds the [connecting] flag of a later invocation
    up, and takes it down.  From then on a further [connect] is let
    through although the later invocation has not settled: here the
    second and the third invocation are both pending at the end, each
    waiting for the wallet. *)
Theorem stale_timeout_opens_guard :
  exists l,
    exec three_connects start = Some l
    /\ promise 0 l
       = Some (Some (Resolved {| info_publicKey := Some account;
                                 network := "Ethereum";
                                 walletType := None |}))
    /\ promise 1 l = Some None
    /\ promise 2 l = Some None
    /\ promise 2 l <> Some (Some (Rejected Kind.AlreadyConnecting))
    /\ map task_owner (tasks l) = [1; 2]%nat.
Proof.
  eexists. split; [vm_compute; reflexivity|].
  refine (conj eq_refl (conj eq_refl (conj eq_refl (conj _ eq_refl)))).
  discriminate.
Qed.

(** C7 fails in the code, by the same stale timeout.  It takes down
    the [connecting] flag of the second invocation, which is polling
    for a wallet that never shows up.  When the timeout of the second
    invocation fires, 30 seconds after it started to poll, it finds the
    flag down and does nothing: the promise of the second invocation is
    still pending, no timeout is armed any more, and the poll goes on. *)
Theorem stale_timeout_disarms_polling :
  (exists l,
     exec phantom_starts_polling start = Some l
     /\ now l = 5000
     /\ hasWalletExtension phone_metamask "Phantom" = false
     /\ promise 1 l = Some None
     /\ map (fun t => (owner t, period t)) (intervals l) = [(1%nat, 1000)]
     /\ map (fun t => (owner t, due t)) (timeouts l)
        = [(0%nat, 30000); (1%nat, 35000)])
  /\ (exists l,
        exec phantom_never_appears start = Some l
        /\ now l = 35000
        /\ promise 1 l = Some None
        /\ timeouts l = []
        /\ map owner (intervals l) = [1%nat]
        /\ connecting (wallet l) = false).
Proof.
  split.
  - eexists. split; [vm_compute; reflexivity|].
    refine (conj eq_refl (conj eq_refl (conj eq_refl (conj eq_refl eq_refl)))).
  - eexists. split; [vm_compute; reflexivity|].
    refine (conj eq_refl (conj eq_refl (conj eq_refl (conj eq_refl eq_refl)))).
Qed.

(** C10.  [connect] is not atomic on failure when it fails by its
    timeout.  The timeout rejects the promise but does not stop a
    handshake that is waiting for the wallet: at the rejection the
    account and the wallet type are still unset, and when the wallet
    answers afterwards the handshake sets both, on a wallet manager
    whose [connect] has failed. *)
Example handshake_outlives_timeout :
  exists l l',
    exec slow_approval start = Some l
    /\ promise 0 l = Some (Some (Rejected Kind.ConnectTimeout))
    /\ publicKey (wallet l) = None
    /\ connectedWalletType (wallet l) = None
    /\ exec late_answers l = Some l'
    /\ promise 0 l' = Some (Some (Rejected Kind.ConnectTimeout))
    /\ publicKey (wallet l') = Some account
    /\ connectedWalletType (wallet l') = Some "MetaMask".
Proof.
  eexists. eexists. split; [vm_compute; reflexivity|].
  refine (conj eq_refl (conj eq_refl (conj eq_refl (conj _ _)))).
  - vm_compute. reflexivity.
  - refine (conj eq_refl (conj eq_refl eq_refl)).
Qed.

(** *** The poll and the timeout, followed in isolation *)

Lemma drive_checkConnection_absent id w walletName l :
  hasWalletExtension w walletName = false ->
  drive id w (checkConnection walletName) l = l.
Proof.
  unfold hasWalletExtension, checkConnection, window. cbn.
  destruct (String.eqb walletName "MetaMask") eqn:E1.
  { apply String.eqb_eq in E1. subst walletName. cbn.
    unfold ethereum_is. destruct (ethereum w) as [eth|]; cbn; [|reflexivity].
    intros ->. reflexivity. }
  destruct (String.eqb walletName "Phantom") eqn:E2.
  { apply String.eqb_eq in E2. subst walletName. cbn.
    unfold solana_is. destruct (solana w) as [sol|]; cbn; [|reflexivity].
    intros ->. reflexivity. }
  destruct (String.eqb walletName "Trust") eqn:E3.
  { cbn. intros ->. reflexivity. }
  cbn. reflexivity.
Qed.

Lemma drive_timedOut id w l :
  connecting (wallet l) = true ->
  drive id w timedOut l
  = settle id (Rejected Kind.ConnectTimeout)
      (with_wallet (set_connecting false)
         (with_intervals (filter (not_of id) (intervals l)) l)).
Proof.
  intros H. unfold timedOut, this, assign. cbn. rewrite H. reflexivity.
Qed.

Lemma polling_step id walletName t0 lab l l' :
  polling id walletName t0 l ->
  own id lab l = true ->
  absent walletName lab = true ->
  step lab l = Some l' ->
  polling id walletName t0 l'
  \/ (promise id l' = Some (Some (Rejected Kind.ConnectTimeout))
      /\ t0 + 30000 <= now l').
Proof.
  intros (Hp & Hc & Ht & Hi & Ho) Hown Habs Hs.
  destruct lab as [w n|i w r|i w|i w|ms]; cbn in Hown, Habs, Hs.
  - discriminate.
  - destruct (nth_error (tasks l) i) as [[o R X q k]|] eqn:Hn; [|discriminate].
    apply Nat.eqb_eq in Hown. subst o.
    apply nth_error_In in Hn.
    pose proof (proj1 (Forall_forall _ _) Ht _ Hn) as Hne. cbn in Hne.
    congruence.
  - apply Nat.eqb_eq in Hown. subst i.
    destruct (find (owned_by id) (intervals l)) as [t|] eqn:Hf; [|discriminate].
    destruct (due t <=? now l); [|discriminate].
    injection Hs as <-.
    apply find_owned in Hf. destruct Hf as [Hin Hownt].
    destruct (proj1 (Forall_forall _ _) Hi _ Hin Hownt) as [Hcb _].
    rewrite Hcb, drive_checkConnection_absent
      by (apply negb_true_iff; exact Habs).
    left. split; [exact Hp|]. split; [exact Hc|]. split; [exact Ht|].
    split; [|exact Ho]. cbn.
    apply Forall_forall. intros t' Hin'. apply in_map_iff in Hin'.
    destruct Hin' as (t1 & <- & Hin1).
    pose proof (proj1 (Forall_forall _ _) Hi _ Hin1) as H1.
    unfold rearm. destruct (owned_by id t1); cbn; exact H1.
  - apply Nat.eqb_eq in Hown. subst i.
    destruct (find (owned_by id) (timeouts l)) as [t|] eqn:Hf; [|discriminate].
    destruct (due t <=? now l) eqn:Hdue; [|discriminate].
    injection Hs as <-.
    apply find_owned in Hf. destruct Hf as [Hin Hownt].
    destruct (proj1 (Forall_forall _ _) Ho _ Hin Hownt) as [Hcb Hd].
    right. rewrite Hcb, drive_timedOut by exact Hc.
    split.
    + rewrite promise_settle. unfold promise in *. cbn. rewrite Hp. reflexivity.
    + cbn. apply Z.leb_le in Hdue. lia.
  - destruct (0 <=? ms); [|discriminate]. injection Hs as <-.
    left. split; [exact Hp|]. split; [exact Hc|]. auto.
Qed.

Lemma polling_run id walletName t0 tr : forall l l',
  polling id walletName t0 l ->
  forallb (absent walletName) tr = true ->
  call_run id tr l = Some l' ->
  polling id walletName t0 l'
  \/ (promise id l' = Some (Some (Rejected Kind.ConnectTimeout))
      /\ t0 + 30000 <= now l').
Proof.
  induction tr as [|lab tr IH]; cbn; intros l l' Hpoll Habs Hc.
  - injection Hc as <-. left. exact Hpoll.
  - apply andb_true_iff in Habs. destruct Habs as [Ha Habs].
    pose proof Hpoll as (Hp & _). rewrite Hp in Hc.
    destruct (own id lab l) eqn:Ho; [|discriminate].
    destruct (step lab l) as [l1|] eqn:Hs; [|discriminate].
    destruct (@polling_step id walletName t0 lab l l1 Hpoll Ho Ha Hs)
      as [Hpoll1|[Hrej Hnow]].
    + eapply IH; eauto.
    + right. destruct tr; cbn in Hc; rewrite ?Hrej in Hc;
        injection Hc as <-; auto.
Qed.

(** Followed through its own events only, polling does what the
    specification says.  On a mobile device without the provider,
    [connect] arms a poll of period 1000 ms and a timeout due 30000 ms
    later.  As long as no polled page shows the provider, the promise is
    pending until the timeout fires; it is then rejected with
    ConnectTimeout, and the clock is at 30 seconds after the call or
    later. *)
Theorem polling_times_out_in_isolation l w walletName deeplink tr l0 l' :
  reachable l ->
  connecting (wallet l) = false ->
  onLine w = true ->
  isMobileDevice w = true ->
  hasWalletExtension w walletName = false ->
  CONFIG.DEEP_LINKS walletName = Some deeplink ->
  step (Connect w walletName) l = Some l0 ->
  forallb (absent walletName) tr = true ->
  call_run (List.length (promises l)) tr l0 = Some l' ->
  polling (List.length (promises l)) walletName (now l) l0
  /\ (polling (List.length (promises l)) walletName (now l) l'
      \/ (promise (List.length (promises l)) l'
          = Some (Some (Rejected Kind.ConnectTimeout))
          /\ now l + 30000 <= now l')).
Proof.
  intros Hr Hc Ho Hm He Hd Hs Habs Hrun.
  assert (Hpoll : polling (List.length (promises l)) walletName (now l) l0).
  { rewrite (connect_starts_polling l w walletName Hc Ho Hm He Hd) in Hs.
    injection Hs as <-.
    destruct (reachable_wf Hr) as (Ht & Hi & Hto).
    split; [apply promise_fresh; reflexivity|].
    split; [reflexivity|]. cbn.
    split; [|split].
    - eapply Forall_impl; [|exact Ht]. cbn. intros t Hlt. lia.
    - apply Forall_app. split.
      + eapply Forall_impl; [|exact Hi]. cbn. intros t Hlt E. exfalso. lia.
      + constructor; [|constructor]. cbn. auto.
    - apply Forall_app. split.
      + eapply Forall_impl; [|exact Hto]. cbn. intros t Hlt E. exfalso. lia.
      + constructor; [|constructor]. cbn. auto. }
  split; [exact Hpoll|].
  eapply polling_run; eauto.
Qed.

(** And when the clock is there, the timeout can fire and rejects. *)
Theorem polling_timeout_fires id walletName t0 l w :
  polling id walletName t0 l ->
  In id (map owner (timeouts l)) ->
  t0 + 30000 <= now l ->
  exists l', step (Expire id w) l = Some l'
             /\ promise id l' = Some (Some (Rejected Kind.ConnectTimeout)).
Proof.
  intros (Hp & Hc & Ht & Hi & Ho) Hin Hnow. cbn.
  destruct (find (owned_by id) (timeouts l)) as [t|] eqn:Hf.
  - apply find_owned in Hf. destruct Hf as [Hint Hownt].
    destruct (proj1 (Forall_forall _ _) Ho _ Hint Hownt) as [Hcb Hd].
    rewrite Hd. destruct (t0 + 30000 <=? now l) eqn:Hle.
    + eexists. split; [reflexivity|].
      rewrite Hcb, drive_timedOut by exact Hc.
      rewrite promise_settle. unfold promise in *. cbn. rewrite Hp. reflexivity.
    + apply Z.leb_gt in Hle. lia.
  - exfalso. apply in_map_iff in Hin. destruct Hin as (t & Hownt & Hint).
    apply (find_none _ _ Hf) in Hint. unfold owned_by in Hint.
    rewrite Hownt, Nat.eqb_refl in Hint. discriminate.
Qed.

End LoopFacts.

(* ================================================================== *)
(** * More of walletManager.js *)
(* ================================================================== *)

(** ** The handshakes, request by request *)

Module HandshakeFacts.

Import WalletManager Asked Observe Protocol WalletFacts.

(** Turn the tests a path has taken into equations. *)
Ltac tests :=
  repeat match goal with
         | H : negb _ = false |- _ => apply (proj1 (Bool.negb_false_iff _)) in H
         | H : negb _ = true |- _ => apply (proj1 (Bool.negb_true_iff _)) in H
         | H : (_ =? _) = true |- _ => apply Z.eqb_eq in H; subst
         | H : (_ && _)%bool = true |- _ => apply andb_prop in H; destruct H
         | H : (_ || _)%bool = false |- _ => apply orb_false_elim in H; destruct H
         | H : String.eqb _ _ = true |- _ => apply String.eqb_eq in H; subst
         end.

Lemma hasWalletExtension_known w walletName :
  hasWalletExtension w walletName = true ->
  walletName = "MetaMask" \/ walletName = "Phantom" \/ walletName = "Trust".
Proof.
  unfold hasWalletExtension.
  destruct (String.eqb_spec walletName "MetaMask"); auto.
  destruct (String.eqb_spec walletName "Phantom"); auto.
  destruct (String.eqb_spec walletName "Trust"); auto.
  discriminate.
Qed.

Lemma DEEP_LINKS_known walletName :
  CONFIG.DEEP_LINKS walletName <> None <->
  walletName = "MetaMask" \/ walletName = "Phantom" \/ walletName = "Trust".
Proof.
  unfold CONFIG.DEEP_LINKS.
  destruct (String.eqb_spec walletName "MetaMask"); [split; auto; discriminate|].
  destruct (String.eqb_spec walletName "Phantom"); [split; auto; discriminate|].
  destruct (String.eqb_spec walletName "Trust"); [split; auto; discriminate|].
  split; [congruence|]. intros [H|[H|H]]; congruence.
Qed.

(** X7.  [connectMetaMask] asks for the accounts and then, if there is
    one, for the network, and for nothing else: it never asks the
    wallet to switch networks.  It resolves only when the network is
    chain 1; the account it stores and returns is the first one the
    wallet answered, and the wallet type it stores is MetaMask.  When
    it throws, the wallet manager is as it was, and the error is the
    one a request failed with or one of its own two. *)
Theorem connectMetaMask_protocol sc s :
  let r := run connectMetaMask sc s in
  In (pick asked (events r))
     [ ["eth_requestAccounts"]; ["eth_requestAccounts"; "getNetwork"] ]
  /\ (forall info, outcome r = Resolved info ->
        pick chain_of (events r) = [1]
        /\ (exists account rest,
              pick accounts_of (events r) = [account :: rest]
              /\ info_publicKey info = Some account)
        /\ network info = "Ethereum"
        /\ final r = set_connectedWalletType (Some "MetaMask")
                       (set_publicKey (info_publicKey info) s))
  /\ (forall e, outcome r = Rejected e ->
        final r = s
        /\ (pick error_of (events r) = [e]
            \/ pick error_of (events r) = []
               /\ In e [new_Error "MetaMask failed to provide accounts. Please unlock it.";
                        new_Error "Please switch MetaMask to Ethereum Mainnet."])).
Proof.
  unfold run, connectMetaMask, call, this, assign.
  script_cases.
  all: split; [cbn; auto|split]; intros x Hx; try discriminate.
  all: try (injection Hx as <-).
  all: cbn; auto.
  all: tests; destruct l; [discriminate|]; cbn; repeat split; eauto.
Qed.

(** X8.  [connectTrustWallet] asks for the accounts and for the
    network; when the network is chain 56 it asks for nothing more.
    When it is another chain it asks the wallet to switch, and when
    the wallet has switched it reads the network again.  When the first
    failure in that part, of the switch request or of the network query
    after it, carries the code 4902 it asks the wallet to add the
    chain, and only then, and reads the network again when the chain
    was added; with any other failure there it throws "Failed to switch
    to BNB Smart Chain: " followed by the message of the failure.  It
    resolves only when the network it read last is chain 56, with the
    first account the wallet answered; when it throws, the wallet
    manager is as it was. *)
Theorem connectTrustWallet_protocol sc s :
  let r := run connectTrustWallet sc s in
  In (pick asked (events r))
     [ ["eth_requestAccounts"];
       ["eth_requestAccounts"; "getNetwork"];
       ["eth_requestAccounts"; "getNetwork"; "wallet_switchEthereumChain"];
       ["eth_requestAccounts"; "getNetwork"; "wallet_switchEthereumChain";
        "getNetwork"];
       ["eth_requestAccounts"; "getNetwork"; "wallet_switchEthereumChain";
        "wallet_addEthereumChain"];
       ["eth_requestAccounts"; "getNetwork"; "wallet_switchEthereumChain";
        "wallet_addEthereumChain"; "getNetwork"];
       ["eth_requestAccounts"; "getNetwork"; "wallet_switchEthereumChain";
        "getNetwork"; "wallet_addEthereumChain"];
       ["eth_requestAccounts"; "getNetwork"; "wallet_switchEthereumChain";
        "getNetwork"; "wallet_addEthereumChain"; "getNetwork"] ]
  /\ (hd_error (pick chain_of (events r)) = Some 56 ->
        pick asked (events r) = ["eth_requestAccounts"; "getNetwork"])
  /\ (In "wallet_addEthereumChain" (pick asked (events r)) ->
        exists e, hd_error (pick error_of (events r)) = Some e
                  /\ code e = Some 4902)
  /\ (forall info, outcome r = Resolved info ->
        last (pick chain_of (events r)) 0 = 56
        /\ (exists account rest,
              pick accounts_of (events r) = [account :: rest]
              /\ info_publicKey info = Some account)
        /\ network info = "BNB Smart Chain"
        /\ final r = set_connectedWalletType (Some "Trust")
                       (set_publicKey (info_publicKey info) s))
  /\ (forall e, outcome r = Rejected e -> final r = s)
  /\ (forall c, hd_error (pick chain_of (events r)) = Some c -> c <> 56 ->
        exists rest,
          pick asked (events r)
          = "eth_requestAccounts" :: "getNetwork"
            :: "wallet_switchEthereumChain" :: rest)
  /\ (In ("wallet_switchEthereumChain", true) (pick answered_of (events r)) ->
        exists rest,
          pick asked (events r)
          = "eth_requestAccounts" :: "getNetwork"
            :: "wallet_switchEthereumChain" :: "getNetwork" :: rest)
  /\ (forall c e, hd_error (pick chain_of (events r)) = Some c -> c <> 56 ->
        hd_error (pick error_of (events r)) = Some e ->
        (code e = Some 4902 ->
           In "wallet_addEthereumChain" (pick asked (events r)))
        /\ (code e <> Some 4902 ->
              outcome r
              = Rejected (new_Error ("Failed to switch to BNB Smart Chain: "
                                     ++ message e))))
  /\ (In ("wallet_addEthereumChain", true) (pick answered_of (events r)) ->
        exists front,
          pick asked (events r)
          = (front ++ ["wallet_addEthereumChain"; "getNetwork"])%list).
Proof.
  unfold run, connectTrustWallet, call, this, assign, code_is.
  script_cases.
  all: refine (conj _ (conj _ (conj _ (conj _ (conj _ (conj _ (conj _ (conj _ _)))))))).
  all: try (cbn; auto 10; fail).
  all: try (intros x Hx; try discriminate; try (injection Hx as <-);
            cbn in *; auto; fail).
  all: cbn.
  all: try (intros Hx; injection Hx as ->; cbn in *; discriminate).
  all: try (intros Hx; repeat (destruct Hx as [Hx|Hx]; try discriminate);
            try contradiction; fail).
  all: try (intros x Hx; injection Hx as <-; tests;
            destruct l; [discriminate|]; cbn; repeat split; eauto; fail).
  all: try (intros Hx; discriminate).
  all: try (intros _;
       match goal with
       | H : match code ?e with _ => _ end = true |- _ =>
           exists e; split; [reflexivity|];
           destruct (code e); [|discriminate];
           apply Z.eqb_eq in H; congruence
       end; fail).
  all: try (intros c Hx Hne; try discriminate; injection Hx as <-;
            try (eexists; reflexivity); tests; congruence).
  all: try (intros _; eexists; reflexivity).
  all: try (intros Hx; repeat (destruct Hx as [Hx|Hx]; try discriminate);
            try contradiction;
            first [ exists ["eth_requestAccounts"; "getNetwork";
                            "wallet_switchEthereumChain"]; reflexivity
                  | exists ["eth_requestAccounts"; "getNetwork";
                            "wallet_switchEthereumChain"; "getNetwork"]; reflexivity ]).
  all: try (intros c e' Hx Hne He; try discriminate;
            injection Hx as <-; try (tests; congruence);
            try discriminate; injection He as <-;
            split; intros Hcode; cbn; auto 10;
            match goal with
            | H : match code ?e with _ => _ end = _ |- _ =>
                rewrite ?Hcode in H; cbn in H; try discriminate;
                destruct (code e) as [code4902|] eqn:Ec; try reflexivity; try congruence;
                try (apply Z.eqb_eq in H; congruence);
                try (apply Z.eqb_neq in H; congruence)
            end).
Qed.

(** X9.  What [checkExistingConnection] returns is what it has stored:
    the account and the wallet type of the wallet manager are those of
    the result, and the network goes with the wallet type.  Phantom
    comes first: when Phantom is connected and answers the trusted
    connect, the result is Phantom's and the Ethereum provider is not
    queried at all. *)
Theorem checkExistingConnection_adopts sc s :
  let r := run checkExistingConnection sc s in
  (forall info, outcome r = Resolved (Some info) ->
     publicKey (final r) = info_publicKey info
     /\ connectedWalletType (final r) = walletType info
     /\ In (walletType info, network info)
          [ (Some "Phantom", "Solana"); (Some "MetaMask", "Ethereum");
            (Some "Trust", "BNB Smart Chain") ])
  /\ (forall key,
        (solana_is isPhantom (page sc 0)
         && solana_is isConnected_ (page sc 0))%bool = true ->
        answer sc 0 (solana_connect true) = inl key ->
        outcome r = Resolved (Some {| info_publicKey := Some key;
                                      network := "Solana";
                                      walletType := Some "Phantom" |})
        /\ pick asked (events r) = ["solana.connect({ onlyIfTrusted: true })"]
        /\ final r = set_solConnection
                       (Some (web3.new_Connection CONFIG.SOLANA_RPC_URL
                                "confirmed" ""))
                       (set_connectedWalletType (Some "Phantom")
                          (set_publicKey (Some key) s))).
Proof.
  unfold run, checkExistingConnection, call, window, this, assign,
    ethereum_is, solana_is.
  script_cases.
  all: split.
  all: try (intros x Hx; try discriminate; try (injection Hx as <-);
            cbn in *; auto 6; try contradiction; fail).
  all: try (intros x Hx1 Hx2; try discriminate; try congruence;
            try (injection Hx2 as <-); cbn; auto; fail).
  all: intros key _ Hk;
       repeat match goal with
              | H : inl _ = inl _ |- _ => injection H as H; try subst
              end; auto.
Qed.

(** X10.  [checkExistingConnection] swallows only the refusal of
    Phantom.  When the Ethereum provider has an account selected and
    the network query fails, it throws the error of the query, and the
    wallet manager is as it was. *)
Theorem checkExistingConnection_rethrows sc s e :
  In e (pick network_error_of (events (run checkExistingConnection sc s))) ->
  outcome (run checkExistingConnection sc s) = Rejected e
  /\ final (run checkExistingConnection sc s) = s.
Proof.
  unfold run, checkExistingConnection, call, window, this, assign,
    ethereum_is, solana_is.
  script_cases.
  all: try (intros []; fail).
  all: intros [<-|[]]; auto.
Qed.

Lemma checkExistingConnection_rethrows_witness :
  outcome (run checkExistingConnection
             {| answer := fun X n q => inr (new_Error "network changed");
                page := page metamask_on_chain_5 |}
             constructor)
  = Rejected (new_Error "network changed")
  /\ final (run checkExistingConnection
              {| answer := fun X n q => inr (new_Error "network changed");
                 page := page metamask_on_chain_5 |}
              constructor)
     = constructor.
Proof.
  apply checkExistingConnection_rethrows. cbn. left. reflexivity.
Defined.

End HandshakeFacts.

(** ** What the user is told, and what the listeners do *)

Module MessageFacts.

Import WalletManager Scenario.

Lemma append_empty a b : a ++ b = "" -> b = "".
Proof. destruct a; cbn; [auto|discriminate]. Qed.

(** X11.  [getConnectionErrorMessage] always has something to say: its
    result is never the empty string.  A message that contains
    "rejected" is reported as a declined connection whatever else it
    contains, and a non-empty message with none of the four key words
    is passed on as it is. *)
Theorem getConnectionErrorMessage_not_empty error walletName :
  getConnectionErrorMessage error walletName <> ""
  /\ (includes "rejected" (message error) = true ->
      getConnectionErrorMessage error walletName
      = "Connection to " ++ walletName ++ " was declined.")
  /\ (includes "rejected" (message error) = false ->
      includes "locked" (message error) = false ->
      includes "not detected" (message error) = false ->
      includes "timed out" (message error) = false ->
      message error <> "" ->
      getConnectionErrorMessage error walletName = message error).
Proof.
  unfold getConnectionErrorMessage.
  refine (conj _ (conj _ _)).
  - destruct (includes "rejected" (message error)); [discriminate|].
    destruct (includes "locked" (message error)).
    { intros H. apply append_empty in H. discriminate. }
    destruct (includes "not detected" (message error)); [discriminate|].
    destruct (includes "timed out" (message error)); [discriminate|].
    destruct (String.eqb_spec (message error) ""); [discriminate|assumption].
  - intros ->. reflexivity.
  - intros -> -> -> -> H.
    destruct (String.eqb_spec (message error) ""); [contradiction|reflexivity].
Qed.

(** X12.  What the user is told for the errors [connect] itself throws,
    for each of the three wallets: a missing extension becomes the
    request to install it, the timeout of the poll becomes the short
    timeout message, a refusal by the user becomes the declined
    message; the other errors of [connect] and of the handshakes are
    shown as they are (the request to unlock the wallet does not count
    as "locked"). *)
Theorem connect_errors_as_shown walletName :
  In walletName ["MetaMask"; "Phantom"; "Trust"] ->
  getConnectionErrorMessage (Kind.ProviderNotDetected walletName) walletName
  = "Please install the " ++ walletName ++ " extension."
  /\ getConnectionErrorMessage Kind.ConnectTimeout walletName
     = "Connection timed out. Please try again."
  /\ getConnectionErrorMessage Kind.AlreadyConnecting walletName
     = "Connection already in progress"
  /\ getConnectionErrorMessage Kind.Offline walletName
     = "No internet connection. Please check your network."
  /\ getConnectionErrorMessage
       (new_Error "MetaMask failed to provide accounts. Please unlock it.")
       walletName
     = "MetaMask failed to provide accounts. Please unlock it."
  /\ getConnectionErrorMessage
       (new_Error "Please switch MetaMask to Ethereum Mainnet.") walletName
     = "Please switch MetaMask to Ethereum Mainnet."
  /\ getConnectionErrorMessage
       (mkError "User rejected the request." (Some 4001)) walletName
     = "Connection to " ++ walletName ++ " was declined.".
Proof.
  intros [<-|[<-|[<-|[]]]]; repeat split; vm_compute; reflexivity.
Qed.

Lemma connect_errors_as_shown_witness :
  getConnectionErrorMessage (Kind.ProviderNotDetected "Phantom") "Phantom"
  = "Please install the Phantom extension.".
Proof.
  apply (connect_errors_as_shown (walletName := "Phantom")).
  right. left. reflexivity.
Defined.

Lemma fold_handle_fixed ev p (ls : list Listener) :
  (forall l, In l ls -> handle l ev p = p) ->
  fold_left (fun p' l => handle l ev p') ls p = p.
Proof.
  induction ls as [|l ls IH]; cbn; intros H; [reflexivity|].
  rewrite (H l) by auto. apply IH. intros l' Hl. apply H. auto.
Qed.

(** Once the listeners are set up, setting them up again does nothing. *)
Lemma setup_again ws : forall p,
  listenersSetup (manager p) = true ->
  fold_left (fun q (wc : Window * option Callback) =>
               setupEventListeners (fst wc) (snd wc) q) ws p = p.
Proof.
  induction ws as [|[w cb] ws IH]; cbn; intros p Hp; [reflexivity|].
  unfold setupEventListeners at 2. rewrite Hp. apply IH, Hp.
Qed.

(** X13.  An account-change event that reports the account the wallet
    manager already holds runs no callback and changes nothing,
    whatever is registered: for the Ethereum provider when the first
    reported account equals the held one up to the case of letters, or
    when no account is reported and none is held; for Phantom when the
    reported key is the held one, letter for letter.  Phantom reporting
    no key is different: [publicKey?.toString()] is then [undefined],
    which is never the held [this.publicKey], so the registered
    callback runs, also when the wallet manager holds no account; and a
    reported key that differs from the held one, be it in the case of
    a letter only, counts as a change. *)
Theorem same_account_is_ignored p :
  (forall accs a b,
      hd_error accs = Some a ->
      publicKey (manager p) = Some b ->
      toLowerCase a = toLowerCase b ->
      emit (accountsChanged accs) p = p)
  /\ (publicKey (manager p) = None -> emit (accountsChanged []) p = p)
  /\ (forall k, publicKey (manager p) = Some k ->
                emit (accountChanged (Some k)) p = p)
  /\ (forall cb, solana_on p = [on_accountChanged cb] ->
                 emit (accountChanged None) p = invoke cb p)
  /\ (forall cb k k', solana_on p = [on_accountChanged cb] ->
                      publicKey (manager p) = Some k ->
                      k' <> k ->
                      emit (accountChanged (Some k')) p = invoke cb p).
Proof.
  refine (conj _ (conj _ (conj _ (conj _ _)))); cycle 3.
  - intros cb Hl. unfold emit. rewrite Hl. cbn.
    destruct (publicKey (manager p)); reflexivity.
  - intros cb k k' Hl Hk Hne. unfold emit. rewrite Hl. cbn. rewrite Hk. cbn.
    destruct (String.eqb_spec k' k); [contradiction|]. reflexivity.
  - intros accs a b Ha Hb Hab. unfold emit. apply fold_handle_fixed.
    intros [cb| |cb] _; cbn; try reflexivity.
    rewrite Ha, Hb. cbn. rewrite Hab, String.eqb_refl. reflexivity.
  - intros Hb. unfold emit. apply fold_handle_fixed.
    intros [cb| |cb] _; cbn; try reflexivity.
    rewrite Hb. reflexivity.
  - intros k Hb. unfold emit. apply fold_handle_fixed.
    intros [cb| |cb] _; cbn; try reflexivity.
    rewrite Hb. cbn. rewrite String.eqb_refl. reflexivity.
Qed.

(** X14.  The listeners are registered at the providers that are there
    at the first call of [setupEventListeners], and the first call
    closes the door: on a page where no provider is injected yet, it
    registers nothing, and no later call registers anything either,
    whatever providers have shown up by then.  No event of a provider
    is observed on such a page. *)
Theorem late_provider_is_not_observed w cb p later ev :
  listenersSetup (manager p) = false ->
  ethereum_on p = [] ->
  solana_on p = [] ->
  ethereum w = None ->
  solana w = None ->
  let p' := fold_left (fun q (wc : Window * option Callback) =>
                         setupEventListeners (fst wc) (snd wc) q)
              later (setupEventListeners w cb p) in
  ethereum_on p' = [] /\ solana_on p' = [] /\ emit ev p' = p'.
Proof.
  intros Hs He Hso Hw1 Hw2 p'. subst p'.
  rewrite setup_again.
  - unfold setupEventListeners, ethereum_is, solana_is.
    rewrite Hs, Hw1, Hw2. cbn. rewrite He, Hso.
    refine (conj eq_refl (conj eq_refl _)).
    unfold emit. cbn. rewrite ?He, ?Hso. destruct ev; reflexivity.
  - unfold setupEventListeners. rewrite Hs. reflexivity.
Qed.

Lemma late_provider_is_not_observed_witness :
  emit (accountsChanged [account])
    (setupEventListeners desktop_metamask (Some (fun s => s))
       (setupEventListeners desktop (Some (fun s => s)) fresh_page))
  = setupEventListeners desktop_metamask (Some (fun s => s))
       (setupEventListeners desktop (Some (fun s => s)) fresh_page).
Proof.
  apply (proj2 (proj2 (@late_provider_is_not_observed desktop (Some (fun s => s))
                  fresh_page [(desktop_metamask, Some (fun s => s))]
                  (accountsChanged [account])
                  eq_refl eq_refl eq_refl eq_refl eq_refl))).
Defined.

(** X15.  A chain change reported by the Ethereum provider reloads the
    page, once however often [setupEventListeners] was called, runs no
    callback and leaves the wallet manager alone. *)
Theorem chain_change_reloads w cb p later chainId :
  listenersSetup (manager p) = false ->
  ethereum_on p = [] ->
  ethereum w <> None ->
  let p' := fold_left (fun q (wc : Window * option Callback) =>
                         setupEventListeners (fst wc) (snd wc) q)
              later (setupEventListeners w cb p) in
  reloads (emit (chainChanged chainId) p') = S (reloads p)
  /\ fired (emit (chainChanged chainId) p') = fired p
  /\ manager (emit (chainChanged chainId) p') = manager p'.
Proof.
  intros Hs He Hw p'. subst p'.
  rewrite setup_again.
  - unfold setupEventListeners, ethereum_is, emit.
    rewrite Hs, He. destruct (ethereum w); [|congruence]. cbn.
    refine (conj eq_refl (conj eq_refl eq_refl)).
  - unfold setupEventListeners. rewrite Hs. reflexivity.
Qed.

Lemma chain_change_reloads_witness :
  reloads (emit (chainChanged "0x38")
             (setupEventListeners desktop_metamask (Some (fun s => s))
                (setupEventListeners desktop_metamask (Some (fun s => s))
                   fresh_page)))
  = 1%nat.
Proof.
  apply (proj1 (@chain_change_reloads desktop_metamask (Some (fun s => s))
                  fresh_page [(desktop_metamask, Some (fun s => s))] "0x38"
                  eq_refl eq_refl ltac:(discriminate))).
Defined.

End MessageFacts.

(** ** More of [connect] in the event loop *)

Module GuardFacts.

Import WalletManager EventLoop Isolation Invariant Scenario LoopFacts.
Import Asked Inherited Settled HandshakeFacts.

Lemma connect_consistent walletName s :
  holds (consistent walletName) (async (connect walletName)) s None.
Proof.
  open_connect.
  every_path; cbn in *; try discriminate; try congruence; auto.
  all: tests; cbn; auto 6.
Qed.

(** X1.  What [connect] leaves behind when it settles.  Take any page
    the event loop can get to, call [connect] there and follow this
    invocation through its own events.  While its promise is pending
    the [connecting] flag is up.  At the event that resolves it the
    flag is down, the account of the wallet manager is the account of
    the result, the wallet type is the wallet asked for and the network
    of the result is the network of that wallet.  At the event that
    rejects it the flag is down, so that [connect] can be called again,
    unless the rejection is the one that says another invocation is in
    progress. *)
Theorem connect_settles_consistently l w walletName tr l0 l' :
  reachable l ->
  step (Connect w walletName) l = Some l0 ->
  call_run (List.length (promises l)) tr l0 = Some l' ->
  exists st,
    promise (List.length (promises l)) l' = Some st
    /\ consistent walletName st (wallet l').
Proof.
  intros Hr Hs Hc.
  assert (H : rests (consistent walletName) (List.length (promises l)) l').
  { eapply call_run_rests; [|exact Hc].
    eapply connect_rests; [apply reachable_wf, Hr| |exact Hs].
    apply connect_consistent. }
  destruct H as (st & Hst & Hi & _). exists st. split; assumption.
Qed.

Lemma connect_settles_consistently_witness :
  exists l0 l',
    step (Connect desktop_metamask "MetaMask") start = Some l0
    /\ call_run 0 [Answer 0 desktop_metamask (accounts [account]);
                   Answer 0 desktop_metamask (chain 1)] l0 = Some l'
    /\ exists st, promise 0 l' = Some st /\ consistent "MetaMask" st (wallet l').
Proof.
  eexists. eexists.
  split; [reflexivity|]. split; [reflexivity|].
  exact (connect_settles_consistently (l := start) (w := desktop_metamask)
           (walletName := "MetaMask")
           [Answer 0 desktop_metamask (accounts [account]);
            Answer 0 desktop_metamask (chain 1)]
           reachable_start eq_refl eq_refl).
Defined.

(** X2.  When [connect] is rejected in the turn in which it is called,
    it has changed nothing on the page: no field of the wallet manager,
    no timer, no pending request, no navigation.  This happens for one
    of four reasons, tried in this order: another invocation is in
    progress; the browser is offline; the device is not mobile and the
    extension is not there; the device is mobile, the extension is not
    there and no deep link is configured for the wallet.  (The name of
    the wallet is not one of the properties an object literal inherits;
    for those the look-up of the deep link finds a function.) *)
Theorem connect_rejected_at_once l w walletName l' e :
  inherited walletName = false ->
  step (Connect w walletName) l = Some l' ->
  promise (List.length (promises l)) l' = Some (Some (Rejected e)) ->
  l' = with_promises (promises l ++ [Some (Rejected e)]) l
  /\ e = (if connecting (wallet l) then Kind.AlreadyConnecting
          else if negb (onLine w) then Kind.Offline
          else if negb (isMobileDevice w) then Kind.ProviderNotDetected walletName
          else new_Error ("No deeplink configured for " ++ walletName))
  /\ (connecting (wallet l) = false -> onLine w = true ->
      hasWalletExtension w walletName = false
      /\ (isMobileDevice w = true -> CONFIG.DEEP_LINKS walletName = None)).
Proof.
  intros _ Hs Hp. cbn in Hs. injection Hs as <-. revert Hp.
  unfold async, connect, connectMetaMask, connectPhantom, connectTrustWallet,
    call, this, assign, window.
  cbn.
  assert (Hpending : forall ps, nth_error (ps ++ [@None (Outcome Info)])
                               (List.length ps) = Some None).
  { intros ps. rewrite nth_error_app2, Nat.sub_diag; auto. }
  assert (Hsettled : forall ps (o : Outcome Info),
             nth_error (settle_nth (List.length ps) o (ps ++ [None]))
               (List.length ps) = Some (Some o)).
  { intros ps o. rewrite settle_nth_last.
    rewrite nth_error_app2, Nat.sub_diag; auto. }
  destruct (connecting (wallet l)) eqn:Hc; cbn.
  { unfold promise, settle; cbn. rewrite Hsettled.
    intros H. injection H as <-. rewrite settle_nth_last.
    split; [reflexivity|]. split; [reflexivity|discriminate]. }
  destruct (onLine w) eqn:Ho; cbn.
  2:{ unfold promise, settle; cbn. rewrite Hsettled.
      intros H. injection H as <-. rewrite settle_nth_last.
      split; [reflexivity|]. split; [reflexivity|discriminate]. }
  destruct (hasWalletExtension w walletName) eqn:He; cbn.
  - (* the extension is there: the handshake waits for the wallet *)
    rewrite orb_true_r. cbn.
    destruct (hasWalletExtension_known _ _ He) as [ -> | [ -> | -> ] ]; cbn;
      unfold promise; cbn; rewrite Hpending; discriminate.
  - rewrite orb_false_r.
    destruct (isMobileDevice w) eqn:Hm; cbn.
    + destruct (CONFIG.DEEP_LINKS walletName) eqn:Hd; cbn.
      * unfold promise; cbn. rewrite Hpending. discriminate.
      * unfold promise, settle; cbn. rewrite Hsettled.
        intros H. injection H as <-.
        rewrite settle_nth_last.
        unfold with_promises, with_wallet; cbn.
        rewrite set_connecting_back by exact Hc.
        split; [destruct l; reflexivity|]. split; [reflexivity|]. auto.
    + unfold promise, settle; cbn. rewrite Hsettled.
      intros H. injection H as <-.
      rewrite settle_nth_last.
      unfold with_promises, with_wallet; cbn.
      rewrite set_connecting_back by exact Hc.
      split; [destruct l; reflexivity|]. split; [reflexivity|].
      split; [reflexivity|discriminate].
Qed.

Lemma connect_rejected_at_once_witness :
  exists l',
    step (Connect {| ethereum := None; solana := None; onLine := false;
                     userAgent := desktop_agent |} "MetaMask") start = Some l'
    /\ l' = with_promises ([] ++ [Some (Rejected Kind.Offline)]) start.
Proof.
  eexists. split; [reflexivity|].
  apply (connect_rejected_at_once (l := start)
           (w := {| ethereum := None; solana := None; onLine := false;
                    userAgent := desktop_agent |})
           (walletName := "MetaMask") (e := Kind.Offline)
           eq_refl eq_refl eq_refl).
Defined.

(** X3.  For a wallet name other than MetaMask, Phantom and Trust,
    [connect] asks no provider anything and opens no link: it is
    rejected at once, with the error of the missing extension on a
    device that is not mobile and with the error of the missing deep
    link on a mobile device, and the page is as it was.  The error
    "Unknown wallet" of the [switch] is never the result. *)
Theorem connect_unknown_wallet l w walletName :
  inherited walletName = false ->
  ~ In walletName ["MetaMask"; "Phantom"; "Trust"] ->
  connecting (wallet l) = false ->
  onLine w = true ->
  step (Connect w walletName) l
  = Some (with_promises
            (promises l ++
             [Some (Rejected
                      (if isMobileDevice w
                       then new_Error ("No deeplink configured for " ++ walletName)
                       else Kind.ProviderNotDetected walletName))])
            l).
Proof.
  intros _ Hn Hc Ho.
  assert (He : hasWalletExtension w walletName = false).
  { destruct (hasWalletExtension w walletName) eqn:He; [|reflexivity].
    exfalso. apply Hn. cbn.
    destruct (hasWalletExtension_known _ _ He) as [H|[H|H]]; auto. }
  assert (Hd : CONFIG.DEEP_LINKS walletName = None).
  { destruct (CONFIG.DEEP_LINKS walletName) eqn:Hd; [|reflexivity].
    exfalso. apply Hn. cbn.
    assert (H : CONFIG.DEEP_LINKS walletName <> None) by congruence.
    apply DEEP_LINKS_known in H. destruct H as [H|[H|H]]; auto. }
  cbn. rewrite Hc. cbn. rewrite Ho. cbn. rewrite He. cbn.
  destruct (isMobileDevice w); cbn; rewrite ?Hd; cbn;
    unfold settle, with_promises, with_wallet; cbn;
    rewrite settle_nth_last, set_connecting_back by exact Hc;
    destruct l; reflexivity.
Qed.

Lemma connect_unknown_wallet_witness :
  step (Connect phone "Coinbase") start
  = Some (with_promises
            ([] ++ [Some (Rejected (new_Error "No deeplink configured for Coinbase"))])
            start).
Proof.
  apply (@connect_unknown_wallet start phone "Coinbase").
  - reflexivity.
  - cbn. intros [H|[H|[H|H]]]; try discriminate; contradiction.
  - reflexivity.
  - reflexivity.
Defined.

Lemma guard_holds_in_isolation_witness :
  exists l0,
    step (Connect desktop_metamask "MetaMask") start = Some l0
    /\ promise 0 l0 = Some None
    /\ step (Connect desktop_metamask "Phantom") l0
       = Some (with_promises
                 (promises l0 ++ [Some (Rejected Kind.AlreadyConnecting)]) l0).
Proof.
  eexists. split; [reflexivity|]. split; [reflexivity|].
  exact (guard_holds_in_isolation (l := start) (w := desktop_metamask)
           (walletName := "MetaMask") [] desktop_metamask "Phantom"
           reachable_start eq_refl eq_refl eq_refl).
Defined.

Lemma polling_times_out_in_isolation_witness :
  exists l0 l',
    step (Connect phone "MetaMask") start = Some l0
    /\ call_run 0 [Elapse 1000; Tick 0 phone; Elapse 29000; Expire 0 phone] l0
       = Some l'
    /\ polling 0 "MetaMask" 0 l0
    /\ (polling 0 "MetaMask" 0 l'
        \/ (promise 0 l' = Some (Some (Rejected Kind.ConnectTimeout))
            /\ 0 + 30000 <= now l')).
Proof.
  eexists. eexists.
  split; [vm_compute; reflexivity|]. split; [vm_compute; reflexivity|].
  refine (@polling_times_out_in_isolation start phone "MetaMask" _
            [Elapse 1000; Tick 0 phone; Elapse 29000; Expire 0 phone] _ _
            reachable_start eq_refl eq_refl _ _ eq_refl _ _ _);
    vm_compute; reflexivity.
Defined.

(** While invocation [id] polls and no page shows the provider, its
    timeout stays armed. *)
Lemma polling_step_armed id walletName t0 lab l l' :
  polling id walletName t0 l ->
  In id (map owner (timeouts l)) ->
  own id lab l = true ->
  absent walletName lab = true ->
  step lab l = Some l' ->
  promise id l' = Some None ->
  In id (map owner (timeouts l')).
Proof.
  intros Hpoll Harm Hown Habs Hs Hpend.
  pose proof Hpoll as (Hp & Hc & Ht & Hi & Ho).
  destruct lab as [w n|i w r|i w|i w|ms]; cbn in Hown, Habs, Hs.
  - discriminate.
  - destruct (nth_error (tasks l) i) as [[o R X q k]|] eqn:Hn; [|discriminate].
    apply Nat.eqb_eq in Hown. subst o.
    apply nth_error_In in Hn.
    pose proof (proj1 (Forall_forall _ _) Ht _ Hn) as Hne. cbn in Hne.
    congruence.
  - apply Nat.eqb_eq in Hown. subst i.
    destruct (find (owned_by id) (intervals l)) as [t|] eqn:Hf; [|discriminate].
    destruct (due t <=? now l); [|discriminate].
    injection Hs as <-.
    apply find_owned in Hf. destruct Hf as [Hin Hownt].
    destruct (proj1 (Forall_forall _ _) Hi _ Hin Hownt) as [Hcb _].
    rewrite Hcb, drive_checkConnection_absent
      by (apply negb_true_iff; exact Habs).
    exact Harm.
  - apply Nat.eqb_eq in Hown. subst i.
    destruct (@polling_step id walletName t0 (Expire id w) l l' Hpoll)
      as [Hpoll'|[Hrej _]]; cbn; rewrite ?Nat.eqb_refl; auto.
    + exfalso.
      destruct (find (owned_by id) (timeouts l)) as [t|] eqn:Hf; [|discriminate].
      destruct (due t <=? now l) eqn:Hdue; [|discriminate].
      injection Hs as <-.
      apply find_owned in Hf. destruct Hf as [Hin Hownt].
      destruct (proj1 (Forall_forall _ _) Ho _ Hin Hownt) as [Hcb Hd].
      rewrite Hcb, drive_timedOut in Hpend by exact Hc.
      rewrite promise_settle in Hpend. unfold promise in *. cbn in Hpend.
      rewrite Hp in Hpend. discriminate.
    + congruence.
  - destruct (0 <=? ms); [|discriminate]. injection Hs as <-. exact Harm.
Qed.

Lemma polling_run_armed id walletName t0 tr : forall l l',
  polling id walletName t0 l ->
  In id (map owner (timeouts l)) ->
  forallb (absent walletName) tr = true ->
  call_run id tr l = Some l' ->
  promise id l' = Some None ->
  polling id walletName t0 l' /\ In id (map owner (timeouts l')).
Proof.
  induction tr as [|lab tr IH]; cbn; intros l l' Hpoll Harm Habs Hc Hpend.
  - injection Hc as <-. auto.
  - apply andb_true_iff in Habs. destruct Habs as [Ha Habs].
    pose proof Hpoll as (Hp & _). rewrite Hp in Hc.
    destruct (own id lab l) eqn:Ho; [|discriminate].
    destruct (step lab l) as [l1|] eqn:Hs; [|discriminate].
    destruct (@polling_step id walletName t0 lab l l1 Hpoll Ho Ha Hs)
      as [Hpoll1|[Hrej Hnow]].
    + apply (IH l1 l' Hpoll1); auto.
      exact (@polling_step_armed id walletName t0 lab l l1 Hpoll Harm Ho Ha Hs
               (proj1 Hpoll1)).
    + exfalso. destruct tr; cbn in Hc; rewrite ?Hrej in Hc;
        injection Hc as <-; congruence.
Qed.

Lemma polling_elapse id walletName t0 ms l :
  polling id walletName t0 l -> polling id walletName t0 (with_now (now l + ms) l).
Proof. intros (Hp & Hc & Ht & Hi & Ho). repeat split; assumption. Qed.

(** X5.  On a mobile device without the provider, [connect] arms a
    poll of period 1000 ms and a timeout due 30000 ms after the call.
    Followed through its own events only, and as long as no page shows
    the provider, the promise is settled in one way only: rejected with
    ConnectTimeout, at 30 seconds after the call or later.  Until then
    it is pending with the timeout armed: the timeout cannot fire
    before the 30 seconds are over, and once they are over it fires and
    rejects the promise with ConnectTimeout. *)
Theorem polling_ends_in_timeout l w walletName deeplink tr l0 l' :
  reachable l ->
  connecting (wallet l) = false ->
  onLine w = true ->
  isMobileDevice w = true ->
  hasWalletExtension w walletName = false ->
  CONFIG.DEEP_LINKS walletName = Some deeplink ->
  step (Connect w walletName) l = Some l0 ->
  forallb (absent walletName) tr = true ->
  call_run (List.length (promises l)) tr l0 = Some l' ->
  let id := List.length (promises l) in
  (promise id l0 = Some None
   /\ (exists cb, filter (owned_by id) (intervals l0)
                  = [{| owner := id; due := now l + 1000; period := 1000;
                        callback := cb |}])
   /\ (exists cb, filter (owned_by id) (timeouts l0)
                  = [{| owner := id; due := now l + 30000; period := 0;
                        callback := cb |}]))
  /\ (promise id l' = Some (Some (Rejected Kind.ConnectTimeout))
      /\ now l + 30000 <= now l'
      \/ promise id l' = Some None
         /\ (forall w', now l' < now l + 30000 -> step (Expire id w') l' = None)
         /\ (forall w' ms,
               0 <= ms -> now l + 30000 <= now l' + ms ->
               exists l'',
                 exec [Elapse ms; Expire id w'] l' = Some l''
                 /\ promise id l''
                    = Some (Some (Rejected Kind.ConnectTimeout)))).
Proof.
  intros Hr Hc Ho Hm He Hd Hs Habs Hrun id.
  destruct (@polling_times_out_in_isolation l w walletName deeplink tr l0 l'
              Hr Hc Ho Hm He Hd Hs Habs Hrun) as [Hpoll0 Hend].
  fold id in Hpoll0, Hend, Hrun.
  pose proof Hs as Hs0.
  rewrite (connect_starts_polling l w walletName Hc Ho Hm He Hd) in Hs0.
  injection Hs0 as Hl0.
  destruct (reachable_wf Hr) as (Ht & Hi & Hto).
  assert (Hnone : forall ts,
             Forall (fun t => (owner t < id)%nat) ts ->
             filter (owned_by id) ts = []).
  { intros ts Hts. induction Hts as [|t ts Hlt _ IH]; [reflexivity|].
    cbn. unfold owned_by at 1.
    destruct (Nat.eqb_spec (owner t) id); [lia|exact IH]. }
  assert (Harm0 : In id (map owner (timeouts l0))).
  { rewrite <- Hl0. cbn. rewrite map_app, in_app_iff. right. left. reflexivity. }
  split.
  - split; [apply Hpoll0|]. rewrite <- Hl0. cbn.
    rewrite !filter_app, (Hnone _ Hi), (Hnone _ Hto). cbn.
    unfold owned_by. cbn. fold id. rewrite Nat.eqb_refl. cbn.
    split; eexists; reflexivity.
  - destruct Hend as [Hpoll|Hrej]; [right|left; exact Hrej].
    pose proof Hpoll as (Hp & Hcon & Hta & Hin & Hou).
    destruct (@polling_run_armed id walletName (now l) tr l0 l'
                Hpoll0 Harm0 Habs Hrun Hp) as [_ Harm].
    split; [exact Hp|]. split.
    + intros w' Hlt. cbn.
      destruct (find (owned_by id) (timeouts l')) as [t|] eqn:Hf; [|reflexivity].
      apply find_owned in Hf. destruct Hf as [Hint Hownt].
      destruct (proj1 (Forall_forall _ _) Hou _ Hint Hownt) as [_ Hdue].
      rewrite Hdue. destruct (now l + 30000 <=? now l') eqn:E; [|reflexivity].
      apply Z.leb_le in E. lia.
    + intros w' ms Hms Hnow. cbn [exec].
      assert (E : step (Elapse ms) l' = Some (with_now (now l' + ms) l')).
      { cbn. destruct (0 <=? ms) eqn:E; [reflexivity|]. apply Z.leb_gt in E. lia. }
      rewrite E.
      destruct (@polling_timeout_fires id walletName (now l)
                  (with_now (now l' + ms) l') w'
                  (polling_elapse ms Hpoll) Harm Hnow) as (l'' & Hl'' & Hrej).
      exists l''. rewrite Hl''. auto.
Qed.

Lemma polling_ends_in_timeout_witness :
  exists l0 l',
    step (Connect phone "MetaMask") start = Some l0
    /\ call_run 0 [Elapse 1000; Tick 0 phone; Elapse 29000; Expire 0 phone] l0
       = Some l'
    /\ promise 0 l' = Some (Some (Rejected Kind.ConnectTimeout))
    /\ now l' = 30000.
Proof.
  eexists. eexists.
  split; [vm_compute; reflexivity|]. split; [vm_compute; reflexivity|].
  destruct (@polling_ends_in_timeout start phone "MetaMask" _
              [Elapse 1000; Tick 0 phone; Elapse 29000; Expire 0 phone] _ _
              reachable_start eq_refl eq_refl eq_refl eq_refl eq_refl
              eq_refl eq_refl eq_refl) as [_ [[H _]|[H _]]].
  - split; [exact H|reflexivity].
  - vm_compute in H. discriminate H.
Defined.

(** X6.  The poll looks for the provider the way [hasWalletExtension]
    does.  While the provider is not there a poll does nothing; once
    it is there the poll clears its own interval and starts the
    handshake of the wallet, which waits for the answer to its first
    request. *)
Theorem poll_detects_extension id w walletName l :
  (hasWalletExtension w walletName = false ->
     drive id w (checkConnection walletName) l = l)
  /\ (hasWalletExtension w walletName = true ->
      exists X (q : Request X) (k : X + Error -> M unit),
        drive id w (checkConnection walletName) l
        = with_tasks (tasks l ++ [task id q k])
            (with_intervals (filter (not_of id) (intervals l)) l)
        /\ request_name q
           = if String.eqb walletName "Phantom" then "solana.connect()"
             else "eth_requestAccounts").
Proof.
  split; [apply drive_checkConnection_absent|].
  intros He.
  destruct (hasWalletExtension_known _ _ He) as [ -> | [ -> | -> ] ];
    revert He; unfold hasWalletExtension, checkConnection, window,
      connectMetaMask, connectPhantom, connectTrustWallet, call,
      ethereum_is, solana_is; cbn.
  - destruct (ethereum w) as [eth|]; cbn; [|discriminate].
    intros ->. cbn. repeat eexists.
  - destruct (solana w) as [sol|]; cbn; [|discriminate].
    intros ->. cbn. repeat eexists.
  - destruct (ethereum w) as [eth|]; cbn; [|discriminate].
    intros ->. cbn. repeat eexists.
Qed.

End GuardFacts.

(* ================================================================== *)
(** * More of transactionService.js *)
(* ================================================================== *)

Module PipelineFacts.

Import TransactionService Observe Pipeline Scenario TransferFacts.

Ltac prefixes :=
  first [ exists 0%nat; reflexivity | exists 1%nat; reflexivity
        | exists 2%nat; reflexivity | exists 3%nat; reflexivity
        | exists 4%nat; reflexivity | exists 5%nat; reflexivity
        | exists 6%nat; reflexivity | exists 7%nat; reflexivity
        | exists 8%nat; reflexivity | exists 9%nat; reflexivity ].

(** X16.  A transfer checks for its provider before anything else: when
    [window.ethereum] (for MetaMask and Trust Wallet) or [window.solana]
    (for Phantom) is not there, it throws the error that says so, has
    called no library and no wallet, and has not created the Solana
    connection. *)
Theorem transfer_without_provider amount publicKey sc s :
  (ethereum (page sc 0) = None ->
     run (boostWithMetaMask amount) sc s
     = {| final := s; outcome := Rejected (new_Error "MetaMask not found");
          events := [] |}
     /\ run (boostWithTrustWallet amount) sc s
        = {| final := s; outcome := Rejected (new_Error "Trust Wallet not found");
             events := [] |})
  /\ (solana (page sc 0) = None ->
      run (boostWithPhantom amount publicKey) sc s
      = {| final := s; outcome := Rejected (new_Error "Phantom wallet not found");
           events := [] |}).
Proof.
  open_transfer. cbn. split.
  - intros ->. split; reflexivity.
  - intros ->. reflexivity.
Qed.

(** X17.  One invocation of [boostWithMetaMask] or [boostWithTrustWallet]
    is one attempt.  Its calls are an initial part of the sequence
    getSigner, getAddress, sendTransaction, wait.  When it resolves,
    exactly one transaction was handed to the signer that [getSigner]
    answered, for the configured address of the network, with the
    parsed amount and a gas limit of 21000, and the result is the hash
    of the receipt of that transaction.  When it rejects, no receipt
    was obtained, and the error is the one a call failed with, passed
    on as it is, or the error of the missing provider or of the amount
    that does not parse, in which cases nothing was sent. *)
Theorem ethereum_transfers_once :
  one_transfer boostWithMetaMask CONFIG.BOOST_ADDRESSES.ethereum "MetaMask not found"
  /\ one_transfer boostWithTrustWallet CONFIG.BOOST_ADDRESSES.bnb
       "Trust Wallet not found".
Proof.
  split; intros amount sc s; open_transfer; answers.
  all: refine (conj _ (conj _ _)).
  all: try (intros x Hx; try discriminate; injection Hx as <-).
  all: try prefixes.
  all: cbn; auto 8.
  all: repeat eexists; eauto.
Qed.

(** X18.  One invocation of [boostWithPhantom] runs its calls in the
    order of the code and stops at the first that fails, passing the
    error on as it is.  When it resolves, every step has worked on what
    the step before it answered: the instruction goes from the key of
    the sender to the key of the configured address, the message has
    the sender as payer, the block hash that [getLatestBlockhash]
    answered and this one instruction, the transaction that was
    submitted is the one the wallet signed, and the signature that is
    returned is the one that was confirmed, against the same block
    hash and block height, without error.  Nothing is submitted that
    the wallet has not signed. *)
Theorem phantom_pipeline amount publicKey sc s :
  let r := run (boostWithPhantom amount publicKey) sc s in
  (exists n, pick asked (events r) = firstn n solana_calls)
  /\ (forall signature, outcome r = Resolved signature ->
        exists sender recipient instruction latest message transaction signed,
          pick key_of (events r)
          = [(publicKey, sender); (CONFIG.BOOST_ADDRESSES.solana, recipient)]
          /\ pick instruction_of (events r) = [(sender, recipient, instruction)]
          /\ pick latest_of (events r) = [latest]
          /\ pick message_of (events r)
             = [(sender, blockhash latest, [instruction], message)]
          /\ pick transaction_of (events r) = [(message, transaction)]
          /\ pick signed_of (events r) = [(transaction, signed)]
          /\ pick signature_of (events r) = [(signed, false, 3, signature)]
          /\ pick strategy_of (events r)
             = [(signature, lastValidBlockHeight latest, blockhash latest,
                 "confirmed")]
          /\ (pick confirmed_of (events r) = [None]
              \/ exists err, pick confirmed_of (events r) = [Some err]
                             /\ truthy err = false))
  /\ (pick signed_of (events r) = [] -> pick submitted_of (events r) = [])
  /\ (forall e, outcome r = Rejected e ->
        pick error_of (events r) = [e]
        \/ pick error_of (events r) = []
           /\ (e = new_Error "Phantom wallet not found"
               \/ exists err, pick confirmed_of (events r) = [Some err]
                              /\ truthy err = true
                              /\ e = Kind.TransactionFailed (JSON_stringify err))).
Proof.
  open_transfer. answers.
  all: refine (conj _ (conj _ (conj _ _))).
  all: try (intros x Hx; try discriminate; injection Hx as <-).
  all: try prefixes.
  all: cbn; auto 8.
  all: try discriminate.
  all: try (repeat eexists; eauto; fail).
  all: try (right; repeat eexists; eauto; fail).
Qed.

Lemma phantom_connections amount publicKey sc s :
  Forall (fun c' => c' = handle s)
    (pick connection_of (events (run (boostWithPhantom amount publicKey) sc s))).
Proof.
  open_transfer. destruct s as [[c|]]; answers; repeat constructor.
Qed.

Lemma phantom_final amount publicKey sc s :
  final (run (boostWithPhantom amount publicKey) sc s)
  = match solana (page sc 0) with
    | Some _ => {| solConnection := Some (handle s) |}
    | None => s
    end.
Proof.
  open_transfer. destruct s as [[c|]]; answers; reflexivity.
Qed.

(** X19.  The Solana connection is created when it is first needed and
    kept.  [initializeSolanaConnection] returns the stored connection,
    or stores and returns a new one to the configured endpoint with the
    commitment "confirmed"; calling it again changes nothing and
    returns the same connection.  [boostWithPhantom] makes its three
    RPC calls on that connection, leaves it stored, and a later transfer
    of the same service uses it again. *)
Theorem solConnection_is_lazy sc s :
  run initializeSolanaConnection sc s
  = {| final := {| solConnection := Some (handle s) |};
       outcome := Resolved (handle s); events := [] |}
  /\ (forall sc',
        run initializeSolanaConnection sc'
          (final (run initializeSolanaConnection sc s))
        = run initializeSolanaConnection sc s)
  /\ (forall amount publicKey,
        let r := run (boostWithPhantom amount publicKey) sc s in
        Forall (fun c => c = handle s) (pick connection_of (events r))
        /\ (solana (page sc 0) <> None ->
            final r = {| solConnection := Some (handle s) |})
        /\ (forall sc' amount' publicKey',
              Forall (fun c => c = handle s)
                (pick connection_of
                   (events (run (boostWithPhantom amount' publicKey') sc'
                              (final r)))))).
Proof.
  refine (conj _ (conj _ _)).
  - unfold run, initializeSolanaConnection, this, assign. cbn.
    destruct s as [[c|]]; reflexivity.
  - intros sc'. unfold run, initializeSolanaConnection, this, assign. cbn.
    destruct s as [[c|]]; reflexivity.
  - intros amount publicKey. cbn zeta. refine (conj _ (conj _ _)).
    + apply phantom_connections.
    + rewrite phantom_final. destruct (solana (page sc 0)); congruence.
    + intros sc' amount' publicKey'. rewrite phantom_final.
      destruct (solana (page sc 0)); [|apply phantom_connections].
      exact (phantom_connections amount' publicKey' sc'
               {| solConnection := Some (handle s) |}).
Qed.

End PipelineFacts.


(* ================================================================== *)
(** * The revision that takes amounts in USD *)
(* ================================================================== *)

(** ** Strings *)

Module StringFacts.

Import utils.

Lemma append_cons c a b : String c a ++ b = String c (a ++ b).
Proof. reflexivity. Qed.

Lemma append_nil a : a ++ "" = a.
Proof.
  induction a as [|c a IH]; [reflexivity|]. rewrite append_cons, IH. reflexivity.
Qed.

Lemma append_assoc a b c : a ++ (b ++ c) = (a ++ b) ++ c.
Proof.
  induction a as [|x a IH]; [reflexivity|].
  rewrite !append_cons, IH. reflexivity.
Qed.

Lemma length_app a b :
  String.length (a ++ b) = (String.length a + String.length b)%nat.
Proof.
  induction a as [|c a IH]; [reflexivity|].
  rewrite append_cons. cbn [String.length]. rewrite IH. reflexivity.
Qed.

Lemma substring_none s : forall n, substring n 0 s = "".
Proof. induction s as [|c s IH]; intros [|n]; cbn; auto. Qed.

Lemma substring_all s : substring 0 (String.length s) s = s.
Proof. induction s as [|c s IH]; cbn; [reflexivity|]. rewrite IH. reflexivity. Qed.

Lemma substring_length s : forall n m,
  String.length (substring n m s) = Nat.min m (String.length s - n).
Proof.
  induction s as [|c s IH]; intros [|n] [|m]; cbn; auto;
    rewrite IH; rewrite ?Nat.sub_0_r; reflexivity.
Qed.

(** A string, cut in two at [j]. *)
Lemma substring_split s : forall j,
  (j <= String.length s)%nat ->
  s = substring 0 j s ++ substring j (String.length s - j) s
  /\ String.length (substring 0 j s) = j.
Proof.
  induction s as [|c s IH]; intros j Hj.
  - cbn in Hj. assert (j = 0)%nat by lia. subst. cbn. auto.
  - destruct j as [|j].
    + cbn [substring String.length Nat.sub]. rewrite substring_all. cbn. auto.
    + cbn [String.length] in Hj. destruct (IH j ltac:(lia)) as [E L].
      cbn [substring String.length Nat.sub]. rewrite append_cons, <- E.
      cbn [String.length]. auto.
Qed.

Lemma substring_prefix a : forall j b,
  (j <= String.length a)%nat -> substring 0 j (a ++ b) = substring 0 j a.
Proof.
  induction a as [|c a IH]; intros j b Hj.
  - cbn in Hj. assert (j = 0)%nat by lia. subst. apply substring_none.
  - destruct j as [|j]; [reflexivity|].
    rewrite append_cons. cbn [substring]. cbn [String.length] in Hj.
    rewrite IH by lia. reflexivity.
Qed.

Lemma substring_suffix a : forall m b,
  substring (String.length a) m (a ++ b) = substring 0 m b.
Proof.
  induction a as [|c a IH]; intros m b; [reflexivity|].
  rewrite append_cons. cbn [String.length substring]. apply IH.
Qed.

Lemma every_app p a b :
  every p (a ++ b) = (every p a && every p b)%bool.
Proof.
  induction a as [|c a IH]; [reflexivity|].
  rewrite append_cons. cbn [every]. rewrite IH, andb_assoc. reflexivity.
Qed.

End StringFacts.

(** ** What [parseUnits] reads of what [toFixed] prints *)

Module DecimalFacts.

Import ethers Fixed Shape StringFacts.

Lemma all_digits_app a b :
  all_digits (a ++ b) = (all_digits a && all_digits b)%bool.
Proof.
  induction a as [|c a IH]; [reflexivity|].
  rewrite append_cons. cbn [all_digits]. rewrite IH, andb_assoc. reflexivity.
Qed.

Lemma all_digits_zeros n : all_digits (zeros n) = true.
Proof. induction n; cbn; auto. Qed.

Lemma length_zeros n : String.length (zeros n) = n.
Proof. induction n; cbn; auto. Qed.

Lemma BigInt_from_app a : forall acc b,
  BigInt_from acc (a ++ b) = BigInt_from (BigInt_from acc a) b.
Proof.
  induction a as [|c a IH]; intros acc b; [reflexivity|].
  rewrite append_cons. cbn [BigInt_from]. apply IH.
Qed.

Lemma BigInt_from_zeros n : forall acc,
  BigInt_from acc (zeros n) = acc * 10 ^ Z.of_nat n.
Proof.
  induction n as [|n IH]; intros acc.
  - cbn. lia.
  - cbn [zeros BigInt_from]. rewrite IH.
    change (Z.of_nat (nat_of_ascii "0") - 48) with 0.
    rewrite Nat2Z.inj_succ, Z.pow_succ_r by lia. lia.
Qed.

Lemma uint_digits d : all_digits (NilEmpty.string_of_uint d) = true.
Proof. induction d; cbn; auto. Qed.

Lemma BigInt_from_uint_acc d : forall a,
  BigInt_from (Z.pos a) (NilEmpty.string_of_uint d) = Z.pos (Pos.of_uint_acc d a).
Proof.
  induction d; intros a; cbn [NilEmpty.string_of_uint BigInt_from Pos.of_uint_acc];
    try reflexivity; rewrite <- IHd; f_equal;
    match goal with
    | |- context [nat_of_ascii ?c] =>
        let n := eval compute in (Z.of_nat (nat_of_ascii c)) in
        change (Z.of_nat (nat_of_ascii c)) with n
    end; lia.
Qed.

Lemma BigInt_from_uint d :
  BigInt_from 0 (NilEmpty.string_of_uint d) = Z.of_N (Pos.of_uint d).
Proof.
  induction d; cbn [NilEmpty.string_of_uint BigInt_from Pos.of_uint];
    try reflexivity; try exact IHd;
    apply (BigInt_from_uint_acc d).
Qed.

(** The decimal digits of a natural number, read back. *)
Lemma string_of_Z_digits n :
  0 <= n ->
  all_digits (string_of_Z n) = true
  /\ BigInt_from 0 (string_of_Z n) = n
  /\ string_of_Z n <> "".
Proof.
  intros Hn. destruct n as [|p|p]; [cbn; repeat split; discriminate| |lia].
  unfold string_of_Z. cbn [Z.to_int NilZero.string_of_int].
  assert (Hnil : Pos.to_uint p <> Decimal.Nil).
  { intros E. pose proof (Unsigned.of_to p) as H. rewrite E in H. discriminate. }
  assert (E : NilZero.string_of_uint (Pos.to_uint p)
              = NilEmpty.string_of_uint (Pos.to_uint p)).
  { unfold NilZero.string_of_uint. destruct (Pos.to_uint p); congruence. }
  rewrite E. split; [apply uint_digits|]. split.
  - rewrite BigInt_from_uint, Unsigned.of_to. reflexivity.
  - destruct (Pos.to_uint p); cbn; congruence.
Qed.

Lemma BigInt_from_nonneg s : forall acc,
  all_digits s = true -> 0 <= acc -> 0 <= BigInt_from acc s.
Proof.
  induction s as [|c s IH]; intros acc Hs Hacc; [exact Hacc|].
  cbn [all_digits] in Hs. apply andb_prop in Hs. destruct Hs as [Hc Hs].
  cbn [BigInt_from]. apply IH; [exact Hs|].
  unfold is_digit in Hc. apply andb_prop in Hc. destruct Hc as [H1 _].
  apply Nat.leb_le in H1. lia.
Qed.

Lemma digit_is_no_sign c : is_digit c = true -> c <> "-"%char /\ c <> "."%char.
Proof. intros H. split; intros ->; discriminate. Qed.

Lemma digits_of_app a : forall r,
  all_digits a = true ->
  match r with
  | EmptyString => True
  | String c _ => is_digit c = false
  end ->
  digits_of (a ++ r) = (a, r).
Proof.
  induction a as [|c a IH]; intros r Ha Hr.
  - cbn [append]. change ("" ++ r) with r.
    destruct r as [|c r]; [reflexivity|]. cbn [digits_of]. rewrite Hr. reflexivity.
  - rewrite append_cons. cbn [all_digits] in Ha. apply andb_prop in Ha.
    destruct Ha as [Hc Ha]. cbn [digits_of]. rewrite Hc, (IH r Ha Hr). reflexivity.
Qed.

Lemma all_digits_split a b :
  all_digits (a ++ b) = true -> all_digits a = true /\ all_digits b = true.
Proof. rewrite all_digits_app. apply andb_prop. Qed.

(** [parseUnits] on digits, a point and at most [decimals] digits. *)
Lemma parseUnits_decimal (negative : bool) a b decimals :
  all_digits a = true ->
  a <> "" ->
  all_digits b = true ->
  (String.length b <= decimals)%nat ->
  BigInt_from 0 (a ++ b) * 10 ^ Z.of_nat (decimals - String.length b) < 2 ^ 511 ->
  parseUnits ((if negative then "-" else "") ++ a ++ "." ++ b) decimals
  = inl ((if negative then -1 else 1)
         * (BigInt_from 0 (a ++ b) * 10 ^ Z.of_nat (decimals - String.length b))).
Proof.
  intros Ha Hne Hb Hlen Hlt.
  assert (Hpos : 0 <= BigInt_from 0 (a ++ b) * 10 ^ Z.of_nat (decimals - String.length b)).
  { apply Z.mul_nonneg_nonneg; [|apply Z.pow_nonneg; lia].
    apply BigInt_from_nonneg; [|lia].
    rewrite all_digits_app, Ha, Hb. reflexivity. }
  unfold parseUnits.
  assert (Hsplit :
    (match (if negative then "-" else "") ++ a ++ "." ++ b return bool * string with
     | String "-" rest => (true, rest)
     | _ => (false, (if negative then "-" else "") ++ a ++ "." ++ b)
     end) = (negative, a ++ "." ++ b)).
  { destruct negative; [reflexivity|].
    change ("" ++ a ++ "." ++ b) with (a ++ "." ++ b).
    destruct a as [|c a]; [contradiction|]. rewrite append_cons.
    cbn [all_digits] in Ha. apply andb_prop in Ha. destruct Ha as [Hc _].
    destruct c as [[] [] [] [] [] [] [] []]; try discriminate; reflexivity. }
  rewrite Hsplit.
  rewrite (digits_of_app a ("." ++ b) Ha) by reflexivity.
  change (match "." ++ b with String "." r => r | _ => "." ++ b end) with b.
  rewrite <- (append_nil b) at 1.
  rewrite (digits_of_app b "" Hb) by exact I.
  assert (Hl : String.length (b ++ zeros (decimals - String.length b)) = decimals).
  { rewrite length_app, length_zeros. lia. }
  rewrite Hl, Nat.sub_diag, substring_none.
  assert (Hsub : substring 0 decimals (b ++ zeros (decimals - String.length b))
                 = b ++ zeros (decimals - String.length b)).
  { set (dec := b ++ zeros (decimals - String.length b)) in *.
    rewrite <- Hl. apply substring_all. }
  rewrite Hsub.
  rewrite append_assoc, BigInt_from_app, BigInt_from_zeros.
  assert (Hz : (String.length a + String.length b =? 0)%nat = false).
  { apply Nat.eqb_neq. destruct a; [contradiction|]. cbn. lia. }
  rewrite Hz. cbn [String.eqb negb orb all_zeros].
  set (v := BigInt_from 0 (a ++ b) * 10 ^ Z.of_nat (decimals - String.length b)) in *.
  assert (H511 : 0 < 2 ^ 511) by (apply Z.pow_pos_nonneg; lia).
  destruct negative.
  - replace (- 2 ^ 511 <=? - v) with true by (symmetry; apply Z.leb_le; lia).
    replace (- v <? 2 ^ 511) with true by (symmetry; apply Z.ltb_lt; lia).
    cbn [andb]. f_equal; try lia.
  - replace (- 2 ^ 511 <=? v) with true by (symmetry; apply Z.leb_le; lia).
    replace (v <? 2 ^ 511) with true by (symmetry; apply Z.ltb_lt; lia).
    cbn [andb]. f_equal; try lia.
Qed.

(** What [toFixed] prints for a natural number of units of the last
    decimal, read by [parseUnits]. *)
Lemma parseUnits_point (negative : bool) n f decimals :
  0 <= n ->
  (0 < f <= decimals)%nat ->
  n * 10 ^ Z.of_nat (decimals - f) < 2 ^ 511 ->
  parseUnits ((if negative then "-" else "") ++ point n f) decimals
  = inl ((if negative then -1 else 1) * (n * 10 ^ Z.of_nat (decimals - f))).
Proof.
  intros Hn Hf Hlt.
  destruct (string_of_Z_digits Hn) as (Hd & Hv & Hne).
  unfold point. destruct (Nat.eqb_spec f 0) as [->|_]; [lia|].
  set (m := zeros (f + 1 - String.length (string_of_Z n)) ++ string_of_Z n).
  assert (Hm : all_digits m = true).
  { unfold m. rewrite all_digits_app, all_digits_zeros, Hd. reflexivity. }
  assert (Hk : (f + 1 <= String.length m)%nat).
  { unfold m. rewrite length_app, length_zeros. lia. }
  assert (Hval : BigInt_from 0 m = n).
  { unfold m. rewrite BigInt_from_app, BigInt_from_zeros. cbn. exact Hv. }
  destruct (@substring_split m (String.length m - f) ltac:(lia)) as [E L].
  replace (String.length m - (String.length m - f))%nat with f in E by lia.
  set (a := substring 0 (String.length m - f) m) in *.
  set (b := substring (String.length m - f) f m) in *.
  assert (Hab : all_digits a = true /\ all_digits b = true).
  { apply all_digits_split. rewrite <- E. exact Hm. }
  destruct Hab as [Ha Hb].
  assert (Hlb : String.length b = f).
  { pose proof (f_equal String.length E) as El. rewrite length_app, L in El. lia. }
  assert (Hna : a <> "").
  { intros Ea. rewrite Ea in L. cbn in L. lia. }
  clearbody a b. rewrite <- Hlb. rewrite <- Hval, E.
  apply parseUnits_decimal; auto; try lia.
  rewrite <- E, Hval, Hlb. exact Hlt.
Qed.

End DecimalFacts.

(** ** The amounts that are sent *)

Module LegacyFacts.

Import ethers Observe Scenario Fixed Legacy Shape StringFacts DecimalFacts.

Lemma nearest_bound M D f :
  0 < D -> 0 <= M -> M < 10 ^ 21 * D ->
  0 <= nearest (M * 10 ^ Z.of_nat f) D <= 10 ^ 21 * 10 ^ Z.of_nat f.
Proof.
  intros HD HM Hlt. unfold nearest.
  assert (Hp : 0 < 10 ^ Z.of_nat f) by (apply Z.pow_pos_nonneg; lia).
  split.
  - apply Z.div_pos; nia.
  - apply Z.lt_succ_r. apply Z.div_lt_upper_bound; nia.
Qed.

(** Where [toFixed] prints positionally, [parseUnits] reads the number
    of units it printed. *)
Lemma toFixed_parses x f n :
  (0 < f <= 18)%nat ->
  units x f = Some n ->
  parseUnits (Number_toFixed x f) 18 = inl (n * 10 ^ Z.of_nat (18 - f)).
Proof.
  intros Hf. destruct x as [sg|sg| |sg m e]; unfold units, Number_toFixed;
    try discriminate.
  - intros H. injection H as <-.
    assert (H : 0 * 10 ^ Z.of_nat (18 - f) < 2 ^ 511) by (cbn; reflexivity).
    pose proof (@parseUnits_point false 0 f 18 ltac:(lia) Hf H) as P.
    etransitivity; [exact P|]. reflexivity.
  - destruct (cmp_dec_bin 1 21 (Z.pos m) e) eqn:Hc; try discriminate.
    intros H.
    assert (Hn : n = (if sg then -1 else 1)
                     * nearest (Z.pos m * 2 ^ Z.max e 0 * 10 ^ Z.of_nat f)
                         (2 ^ Z.max (- e) 0)) by congruence.
    clear H. subst n.
    unfold cmp_dec_bin in Hc. apply Z.compare_gt_iff in Hc.
    change (Z.max 21 0) with 21 in Hc. change (Z.max (-21) 0) with 0 in Hc.
    rewrite Z.pow_0_r, Z.mul_1_r, Z.mul_1_l in Hc.
    assert (HD : 0 < 2 ^ Z.max (- e) 0) by (apply Z.pow_pos_nonneg; lia).
    assert (HM : 0 <= Z.pos m * 2 ^ Z.max e 0).
    { apply Z.mul_nonneg_nonneg; [lia|apply Z.pow_nonneg; lia]. }
    pose proof (@nearest_bound _ _ f HD HM Hc) as [Hn0 Hn1].
    set (n := nearest (Z.pos m * 2 ^ Z.max e 0 * 10 ^ Z.of_nat f)
                (2 ^ Z.max (- e) 0)) in *.
    assert (Hbig : n * 10 ^ Z.of_nat (18 - f) < 2 ^ 511).
    { assert (E : 10 ^ Z.of_nat f * 10 ^ Z.of_nat (18 - f) = 10 ^ 18).
      { rewrite <- Z.pow_add_r by lia. f_equal. lia. }
      assert (Hp : 0 < 10 ^ Z.of_nat (18 - f)) by (apply Z.pow_pos_nonneg; lia).
      assert (n * 10 ^ Z.of_nat (18 - f) <= 10 ^ 21 * 10 ^ 18) by nia.
      assert (10 ^ 21 * 10 ^ 18 < 2 ^ 511) by (vm_compute; reflexivity).
      lia. }
    pose proof (@parseUnits_point sg n f 18 Hn0 Hf Hbig) as P.
    clearbody n.
    destruct sg; (etransitivity; [exact P|]); apply f_equal; cbv beta iota; ring.
Qed.

Ltac answers :=
  repeat (cbn;
          match goal with
          | |- context [answer ?sc ?n ?q] => destruct (answer sc n q) eqn:?
          | |- context [match ethereum ?w with _ => _ end] =>
              destruct (ethereum w) eqn:?
          | |- context [match solana ?w with _ => _ end] =>
              destruct (solana w) eqn:?
          | |- context [match TransactionService.solConnection ?s with _ => _ end] =>
              destruct (TransactionService.solConnection s) eqn:?
          end); cbn.

Ltac open_legacy :=
  unfold run, boostWithPhantom, boostWithMetaMask, boostWithTrustWallet,
    connection, initializeSolanaConnection, parsed, call, window, this, assign.

Lemma legacy_sends boost destination missing rate n amountUSD sc s :
  (forall amountUSD,
      boost amountUSD
      = (w <- window ;;
         match ethereum w with
         | None => Throw (new_Error missing)
         | Some _ =>
             signer <- call getSigner ;;
             weiAmount <- parsed (parseEther
                                    (Number_toFixed (Number_mul amountUSD rate) 6)) ;;
             tx <- call (sendTransaction signer
                           {| to := destination; value := weiAmount |}) ;;
             call (wait tx) ;;
             Ret tx
         end)) ->
  units (Number_mul amountUSD rate) 6 = Some n ->
  Forall (fun tx => tx = {| to := destination; value := n * 10 ^ 12 |})
    (pick sent_of (events (run (boost amountUSD) sc s))).
Proof.
  intros Hboost Hu. rewrite Hboost. clear Hboost.
  unfold parseEther. rewrite (@toFixed_parses _ 6 n) by (auto; lia).
  change (Z.of_nat (18 - 6)) with 12.
  generalize (n * 10 ^ 12). intros v.
  open_legacy. answers; repeat constructor.
Qed.

Lemma legacy_not_a_number boost missing rate destination amountUSD sc s :
  (forall amountUSD,
      boost amountUSD
      = (w <- window ;;
         match ethereum w with
         | None => Throw (new_Error missing)
         | Some _ =>
             signer <- call getSigner ;;
             weiAmount <- parsed (parseEther
                                    (Number_toFixed (Number_mul amountUSD rate) 6)) ;;
             tx <- call (sendTransaction signer
                           {| to := destination; value := weiAmount |}) ;;
             call (wait tx) ;;
             Ret tx
         end)) ->
  isFinite (Number_mul amountUSD rate) = false ->
  pick sent_of (events (run (boost amountUSD) sc s)) = []
  /\ exists e, outcome (run (boost amountUSD) sc s) = Rejected e.
Proof.
  intros Hboost Hn. rewrite Hboost. clear Hboost.
  assert (E : parseEther (Number_toFixed (Number_mul amountUSD rate) 6)
              = inr (new_Error "invalid FixedNumber string value")).
  { destruct (Number_mul amountUSD rate) as [sg|[|]| |sg m e];
      try discriminate; reflexivity. }
  rewrite E. open_legacy. answers; split; try reflexivity; eexists; reflexivity.
Qed.

(** X20.  The revision that takes USD sends whole millionths of a
    coin.  Where [toFixed(6)] prints the converted amount positionally,
    as [n] millionths rounded half up, every transaction that
    [boostWithMetaMask] hands to the signer goes to the Ethereum address
    with the value [n * 10^12] wei, at the rate of 0.0005 per dollar,
    and every one of [boostWithTrustWallet] to the BNB address, at the
    rate of 0.002.
    An amount that is not finite is rejected before anything is sent.
    One dollar gives 500 millionths; 0.0009 dollar gives none, and a
    transaction of value zero. *)
Theorem legacy_amount_in_wei amountUSD sc s :
  (forall n,
      units (Number_mul amountUSD (Number_of_decimal 5 (-4))) 6 = Some n ->
      Forall (fun tx => tx = {| to := CONFIG.BOOST_ADDRESSES.ethereum;
                                value := n * 10 ^ 12 |})
        (pick sent_of (events (run (boostWithMetaMask amountUSD) sc s))))
  /\ (forall n,
        units (Number_mul amountUSD (Number_of_decimal 2 (-3))) 6 = Some n ->
        Forall (fun tx => tx = {| to := CONFIG.BOOST_ADDRESSES.bnb;
                                  value := n * 10 ^ 12 |})
          (pick sent_of (events (run (boostWithTrustWallet amountUSD) sc s))))
  /\ (isFinite amountUSD = false ->
      (pick sent_of (events (run (boostWithMetaMask amountUSD) sc s)) = []
       /\ exists e, outcome (run (boostWithMetaMask amountUSD) sc s) = Rejected e)
      /\ (pick sent_of (events (run (boostWithTrustWallet amountUSD) sc s)) = []
          /\ exists e, outcome (run (boostWithTrustWallet amountUSD) sc s)
                       = Rejected e))
  /\ units (Number_mul (Number_of_Z 1) (Number_of_decimal 5 (-4))) 6 = Some 500
  /\ units (Number_mul (Number_of_decimal 9 (-4)) (Number_of_decimal 5 (-4))) 6
     = Some 0.
Proof.
  refine (conj _ (conj _ (conj _ (conj _ _)))).
  - intros n Hn. eapply legacy_sends; [|exact Hn]. reflexivity.
  - intros n Hn. eapply legacy_sends; [|exact Hn]. reflexivity.
  - intros Hf. split.
    + eapply legacy_not_a_number; [reflexivity|].
      destruct amountUSD as [sg|sg| |sg m e]; try discriminate; reflexivity.
    + eapply legacy_not_a_number; [reflexivity|].
      destruct amountUSD as [sg|sg| |sg m e]; try discriminate; reflexivity.
  - vm_compute. reflexivity.
  - vm_compute. reflexivity.
Qed.

(** X21.  The revision that takes USD awaits the confirmation and
    does not look at it: whenever [confirmTransaction] has answered,
    whatever [confirmation.value.err] it reports, [boostWithPhantom]
    resolves with the signature that [sendTransaction] gave. *)
Theorem legacy_confirmation_is_ignored amountUSD publicKey sc s c :
  In c (pick confirmed_of (events (run (boostWithPhantom amountUSD publicKey) sc s))) ->
  exists signature,
    pick signature_of (events (run (boostWithPhantom amountUSD publicKey) sc s))
    = [signature]
    /\ outcome (run (boostWithPhantom amountUSD publicKey) sc s)
       = Resolved signature.
Proof.
  open_legacy. answers; intros Hin; cbn in Hin; try contradiction.
  all: eexists; split; reflexivity.
Qed.

Lemma legacy_confirmation_is_ignored_witness :
  exists signature,
    pick signature_of
      (events (run (boostWithPhantom (Number_of_Z 10) sender)
                 (unconfirmed custom_error) TransactionService.constructor))
    = [signature]
    /\ outcome (run (boostWithPhantom (Number_of_Z 10) sender)
                  (unconfirmed custom_error) TransactionService.constructor)
       = Resolved signature.
Proof.
  apply (@legacy_confirmation_is_ignored (Number_of_Z 10) sender
           (unconfirmed custom_error) TransactionService.constructor
           (Some custom_error)).
  vm_compute. left. reflexivity.
Defined.

(** C3.  In the revision that takes USD the answer of
    [confirmTransaction] is not read.  In the simulated run in which
    every call succeeds and the confirmation reports the error object
    [{ InstructionError: [0, { Custom: 1 }] }], [boostWithPhantom]
    resolves with the signature; and so it does whenever the
    confirmation has reported an error.  The revision that takes
    native amounts rejects the same run, with the message
    "Transaction failed: " followed by the error as JSON. *)
Theorem confirmation_error_is_not_read :
  is_object custom_error = true
  /\ pick confirmed_of
       (events (run (boostWithPhantom (Number_of_Z 10) sender)
                  (unconfirmed custom_error) TransactionService.constructor))
     = [Some custom_error]
  /\ outcome (run (boostWithPhantom (Number_of_Z 10) sender)
                (unconfirmed custom_error) TransactionService.constructor)
     = Resolved "signature"
  /\ (forall amountUSD publicKey sc s err,
        In (Some err)
           (pick confirmed_of
              (events (run (boostWithPhantom amountUSD publicKey) sc s))) ->
        exists signature,
          outcome (run (boostWithPhantom amountUSD publicKey) sc s)
          = Resolved signature)
  /\ outcome (run (TransactionService.boostWithPhantom half sender)
                (failing custom_error) TransactionService.constructor)
     = Rejected
         (new_Error ("Transaction failed: {" ++ quote "InstructionError"
                     ++ ":[0,{" ++ quote "Custom" ++ ":1}]}")).
Proof.
  refine (conj eq_refl (conj _ (conj _ (conj _ _)))).
  - vm_compute. reflexivity.
  - vm_compute. reflexivity.
  - intros amountUSD publicKey sc s err. open_legacy.
    answers; intros Hin; cbn in Hin; try contradiction.
    all: eexists; reflexivity.
  - vm_compute. reflexivity.
Qed.

End LegacyFacts.

(* ================================================================== *)
(** * utils.js *)
(* ================================================================== *)

Module UtilsFacts.

Import utils Shape StringFacts.

Lemma shortenAddress_parts a :
  a <> "" ->
  shortenAddress (Some a)
  = substring 0 (Nat.min 6 (String.length a)) a ++ "..."
    ++ substring (String.length a - 4) (Nat.min 4 (String.length a)) a.
Proof.
  intros Hne. unfold shortenAddress.
  destruct (String.eqb_spec a ""); [contradiction|].
  unfold String_slice. set (len := String.length a).
  change (0 <? 0) with false. change (6 <? 0) with false.
  change (-4 <? 0) with true. cbv iota.
  repeat f_equal; lia.
Qed.

(** X22.  [shortenAddress]: "Unknown" for no address; otherwise the first six
    characters, three dots and the last four, and never more than
    thirteen characters. *)
Theorem shortenAddress_shape a :
  shortenAddress None = "Unknown"
  /\ shortenAddress (Some "") = "Unknown"
  /\ (a <> "" ->
      String.length (shortenAddress (Some a))
      = (Nat.min 6 (String.length a) + 3 + Nat.min 4 (String.length a))%nat)
  /\ ((10 <= String.length a)%nat ->
      exists p mid q,
        a = p ++ mid ++ q
        /\ String.length p = 6%nat /\ String.length q = 4%nat
        /\ shortenAddress (Some a) = p ++ "..." ++ q).
Proof.
  refine (conj eq_refl (conj eq_refl (conj _ _))).
  - intros Hne. rewrite shortenAddress_parts by exact Hne.
    rewrite !length_app, !substring_length.
    cbn [String.length]. lia.
  - intros Hlen.
    assert (Hne : a <> "") by (intros ->; cbn in Hlen; lia).
    rewrite shortenAddress_parts by exact Hne.
    set (len := String.length a) in *.
    replace (Nat.min 6 len) with 6%nat by lia.
    replace (Nat.min 4 len) with 4%nat by lia.
    destruct (@substring_split a (len - 4) ltac:(unfold len; lia)) as [E L].
    fold len in E. replace (len - (len - 4))%nat with 4%nat in E by lia.
    set (front := substring 0 (len - 4) a) in *.
    set (q := substring (len - 4) 4 a) in *.
    destruct (@substring_split front 6 ltac:(lia)) as [E' L'].
    exists (substring 0 6 front), (substring 6 (String.length front - 6) front), q.
    split; [rewrite append_assoc, <- E'; exact E|].
    split; [exact L'|].
    split.
    + pose proof (f_equal String.length E) as El.
      rewrite length_app, L in El. fold len in El. lia.
    + f_equal. clearbody q. rewrite E at 1. apply substring_prefix. lia.
Qed.

Lemma reference_safe c :
  every (fun x => negb (bracket x)) (reference c) = true
  /\ (special c = false -> reference c = String c "")
  /\ (1 <= String.length (reference c))%nat.
Proof.
  unfold reference, special, bracket.
  destruct (Ascii.eqb c "&") eqn:E1; [cbn; repeat split; try discriminate; lia|].
  destruct (Nat.eqb (nat_of_ascii c) 160) eqn:E2;
    [cbn; repeat split; try discriminate; lia|].
  destruct (Ascii.eqb c "<") eqn:E3; [cbn; repeat split; try discriminate; lia|].
  destruct (Ascii.eqb c ">") eqn:E4; [cbn; repeat split; try discriminate; lia|].
  cbn. rewrite E3, E4. cbn. repeat split; lia.
Qed.

(** X23.  [escapeHTML] leaves no angle bracket in its result, so that what it
    returns can be put between tags without opening or closing one;
    it leaves a string without the four special characters as it is;
    and its result is at least as long as the string. *)
Theorem escapeHTML_has_no_markup str :
  every (fun c => negb (bracket c)) (escapeHTML str) = true
  /\ (every (fun c => negb (special c)) str = true -> escapeHTML str = str)
  /\ (String.length str <= String.length (escapeHTML str))%nat.
Proof.
  induction str as [|c str (IH1 & IH2 & IH3)]; [cbn; auto|].
  destruct (reference_safe c) as (R1 & R2 & R3).
  cbn [escapeHTML]. refine (conj _ (conj _ _)).
  - rewrite every_app, R1, IH1. reflexivity.
  - cbn [every]. intros H. apply andb_prop in H. destruct H as [Hc Hs].
    rewrite R2 by (apply negb_true_iff; exact Hc).
    rewrite IH2 by exact Hs. reflexivity.
  - rewrite length_app. cbn [String.length]. lia.
Qed.

Lemma hex_lower c : hex c = true -> hex (ascii_toLowerCase c) = true.
Proof.
  destruct c as [[] [] [] [] [] [] [] []]; intros H; try discriminate H;
    reflexivity.
Qed.

Lemma hex_not_base58_zero : base58 "0" = false.
Proof. reflexivity. Qed.

Lemma every_hex_lower s :
  every hex s = true -> every hex (toLowerCase s) = true.
Proof.
  induction s as [|c s IH]; cbn [every toLowerCase]; [auto|].
  intros H. apply andb_prop in H. destruct H as [Hc Hs].
  rewrite hex_lower, IH by assumption. reflexivity.
Qed.

Lemma length_toLowerCase s : String.length (toLowerCase s) = String.length s.
Proof. induction s; cbn; auto. Qed.

(** X24.  The two address formats.  A valid Ethereum address has 42
    characters, stays valid when it is put in lower case (the form in
    which the account listeners compare addresses), and is never a
    valid Solana address; the three destination addresses of the
    configuration are valid for their networks. *)
Theorem address_formats address :
  (isValidEthereumAddress address = true ->
     String.length address = 42%nat
     /\ isValidEthereumAddress (toLowerCase address) = true
     /\ isValidSolanaAddress address = false)
  /\ (isValidSolanaAddress address = true ->
      (32 <= String.length address <= 44)%nat
      /\ isValidEthereumAddress address = false)
  /\ isValidEthereumAddress CONFIG.BOOST_ADDRESSES.ethereum = true
  /\ isValidEthereumAddress CONFIG.BOOST_ADDRESSES.bnb = true
  /\ isValidSolanaAddress CONFIG.BOOST_ADDRESSES.solana = true.
Proof.
  assert (Heth : isValidEthereumAddress address = true ->
                 exists rest, address = String "0" (String "x" rest)
                              /\ String.length rest = 40%nat
                              /\ every hex rest = true).
  { unfold isValidEthereumAddress.
    destruct address as [|c0 [|c1 rest]]; try discriminate.
    - destruct c0 as [[] [] [] [] [] [] [] []]; discriminate.
    - destruct c0 as [[] [] [] [] [] [] [] []]; try discriminate;
      destruct c1 as [[] [] [] [] [] [] [] []]; try discriminate.
      intros H. apply andb_prop in H. destruct H as [H1 H2].
      apply Nat.eqb_eq in H1. exists rest. auto. }
  assert (Hno : isValidEthereumAddress address = true ->
                isValidSolanaAddress address = false).
  { intros H. destruct (Heth H) as (rest & -> & _ & _).
    unfold isValidSolanaAddress. cbn [every].
    rewrite hex_not_base58_zero. cbn. apply andb_false_r. }
  refine (conj _ (conj _ (conj eq_refl (conj eq_refl eq_refl)))).
  - intros H. split; [|split; [|exact (Hno H)]].
    + destruct (Heth H) as (rest & -> & L & _). cbn. lia.
    + destruct (Heth H) as (rest & -> & L & Hh).
      cbn [toLowerCase]. change (ascii_toLowerCase "0") with "0"%char.
      change (ascii_toLowerCase "x") with "x"%char.
      unfold isValidEthereumAddress.
      rewrite length_toLowerCase, L, every_hex_lower by exact Hh. reflexivity.
  - intros H. split.
    + unfold isValidSolanaAddress in H.
      apply andb_prop in H. destruct H as [H _].
      apply andb_prop in H. destruct H as [H1 H2].
      apply Nat.leb_le in H1. apply Nat.leb_le in H2. lia.
    + apply not_true_is_false. intros E. rewrite (Hno E) in H. discriminate.
Qed.

Lemma digit_is_word c : digit c = true -> word c = true.
Proof.
  unfold word, digit. intros ->. rewrite orb_true_r. reflexivity.
Qed.

Lemma digits_ahead_all s :
  every digit s = true -> digits_ahead s = String.length s.
Proof.
  induction s as [|c s IH]; cbn [every digits_ahead String.length]; [auto|].
  intros H. apply andb_prop in H. destruct H as [Hc Hs].
  rewrite Hc, IH by exact Hs. reflexivity.
Qed.

(** Three digits after a digit get the comma, and none inside. *)
Lemma commas_from_group p b :
  digit p = true -> every digit b = true -> String.length b = 3%nat ->
  commas_from (Some p) b = "," ++ b.
Proof.
  intros Hp Hb Hl.
  destruct b as [|b0 [|b1 [|b2 [|]]]]; try discriminate.
  cbn [every] in Hb.
  apply andb_prop in Hb. destruct Hb as [H0 Hb].
  apply andb_prop in Hb. destruct Hb as [H1 Hb].
  apply andb_prop in Hb. destruct Hb as [H2 _].
  cbn [commas_from]. unfold thousands_ahead. cbn [digits_ahead].
  rewrite H0, H1, H2, (digit_is_word _ Hp), (digit_is_word _ H0),
    (digit_is_word _ H1).
  reflexivity.
Qed.

Lemma commas_from_groups a : forall prev b,
  a <> "" ->
  every digit a = true -> every digit b = true -> String.length b = 3%nat ->
  commas_from prev (a ++ b) = commas_from prev a ++ "," ++ b.
Proof.
  induction a as [|c a IH]; intros prev b Hne Ha Hb Hl; [contradiction|].
  cbn [every] in Ha. apply andb_prop in Ha. destruct Ha as [Hc Ha].
  rewrite append_cons. cbn [commas_from].
  assert (Hsame : thousands_ahead (String c (a ++ b)) = thousands_ahead (String c a)).
  { unfold thousands_ahead.
    rewrite !digits_ahead_all
      by (cbn [every]; rewrite ?every_app, ?Hc, ?Ha, ?Hb; reflexivity).
    cbn [String.length]. rewrite length_app, Hl.
    replace (S (String.length a + 3)) with (S (String.length a) + 1 * 3)%nat by lia.
    rewrite Nat.Div0.mod_add. reflexivity. }
  rewrite Hsame.
  rewrite <- append_assoc. f_equal. rewrite append_cons. f_equal.
  destruct a as [|c' a'].
  - cbn [append commas_from]. change ("" ++ b) with b.
    rewrite commas_from_group by assumption. reflexivity.
  - apply IH; auto. discriminate.
Qed.

Lemma commas_from_short s :
  every digit s = true -> (String.length s <= 3)%nat ->
  commas_from None s = s.
Proof.
  intros Hs Hl.
  destruct s as [|c0 [|c1 [|c2 [|]]]]; try (cbn in Hl; lia); cbn [every] in Hs;
  repeat match goal with
         | H : (_ && _)%bool = true |- _ => apply andb_prop in H; destruct H
         end;
  cbn [commas_from]; unfold thousands_ahead; cbn [digits_ahead];
  repeat match goal with
         | H : digit ?c = true |- _ => rewrite !H
         end; cbn; rewrite ?andb_false_r; reflexivity.
Qed.

Lemma without_commas_from s : forall prev,
  without_commas (commas_from prev s) = without_commas s.
Proof.
  induction s as [|c s IH]; intros prev; [reflexivity|].
  cbn [commas_from].
  match goal with
  | |- context [if ?b then "," else ""] => destruct b
  end.
  - change ("," ++ ?x) with (String "," x). cbn [without_commas Ascii.eqb].
    cbn. rewrite IH. reflexivity.
  - change ("" ++ ?x) with x. cbn [without_commas]. rewrite IH. reflexivity.
Qed.

(** X25.  [formatNumber] on the digits of a whole number: up to three digits
    are left as they are, and a comma goes before every group of three
    digits counted from the right.  It only inserts commas.  On a
    number with more than three decimals it groups the decimals too. *)
Theorem formatNumber_groups :
  (forall s, every digit s = true -> (String.length s <= 3)%nat ->
             commas_from None s = s)
  /\ (forall a b, a <> "" -> every digit a = true -> every digit b = true ->
                  String.length b = 3%nat ->
                  commas_from None (a ++ b) = commas_from None a ++ "," ++ b)
  /\ (forall num, without_commas (formatNumber num)
                  = without_commas (Number_toString num))
  /\ formatNumber (Number_of_Z 1234567) = "1,234,567"
  /\ formatNumber (Number_of_decimal 12345678 (-4)) = "1,234.5,678".
Proof.
  refine (conj commas_from_short (conj _ (conj _ (conj _ _)))).
  - intros a b. apply commas_from_groups.
  - intros num. apply without_commas_from.
  - vm_compute. reflexivity.
  - vm_compute. reflexivity.
Qed.

End UtilsFacts.

(** ** [debounce] *)

Module DebounceFacts.

Import Debounce.

Section Facts.

Variable A : Type.
Variable wait : Z.

Arguments delay : simpl never.






End Facts.


End DebounceFacts.

(* ================================================================== *)
(** * uiManager.js *)
(* ================================================================== *)

Module DisplayFacts.

Import utils UIManager.

Lemma added_disabled c e : disabled (classList_add c e) = disabled e.
Proof. unfold classList_add. destruct (existsb _ _); reflexivity. Qed.

Lemma added_textContent c e : textContent (classList_add c e) = textContent e.
Proof. unfold classList_add. destruct (existsb _ _); reflexivity. Qed.

Lemma added_classList c c' e text flag :
  ~ In c (classList e) ->
  (In c (classList (classList_add c' (set_textContent text (set_disabled flag e))))
   <-> c = c').
Proof.
  intros Hn. unfold classList_add. cbn.
  destruct (existsb (String.eqb c') (classList e)) eqn:Ex; cbn.
  - split; [contradiction|]. intros ->.
    apply existsb_exists in Ex. destruct Ex as (x & Hx & Heq).
    apply String.eqb_eq in Heq. subst. contradiction.
  - rewrite in_app_iff. cbn. split.
    + intros [H|[H|[]]]; [contradiction|auto].
    + intros ->. auto.
Qed.

(** X27.  In main.js the wallets are called MetaMask, Phantom and Trust, and
    [updateButtonState] looks the button up under "connect" followed by
    that name.  The button of MetaMask is cached under
    [connectMetamask], so for MetaMask the look-up finds nothing and
    the call changes nothing, whatever the state and the document; for
    Phantom and Trust it finds the button. *)
Theorem updateButtonState_misses_MetaMask state address ui :
  updateButtonState state "MetaMask" address ui = ui
  /\ lookup (dom ui) ("connect" ++ "Phantom") = connectPhantom (dom ui)
  /\ lookup (dom ui) ("connect" ++ "Trust") = connectTrust (dom ui)
  /\ (forall walletName button,
        lookup (dom ui) ("connect" ++ walletName) = Some button ->
        let e := elements (updateButtonState state walletName address ui) button in
        disabled e = String.eqb state "connecting"
        /\ textContent e
           = (if String.eqb state "connecting" then "Connecting..."
              else if String.eqb state "connected" then shortenAddress address
              else "Connect " ++ walletName)
        /\ (forall c, In c ["animate-pulse"; "connecting"; "connected"] ->
              In c (classList e)
              <-> c = (if String.eqb state "connecting" then "connecting"
                       else if String.eqb state "connected" then "connected"
                       else "animate-pulse"))
        /\ (forall r, r <> button ->
              elements (updateButtonState state walletName address ui) r
              = elements ui r)).
Proof.
  refine (conj eq_refl (conj eq_refl (conj eq_refl _))).
  intros walletName button Hb. unfold updateButtonState. rewrite Hb.
  cbn zeta.
  set (e0 := classList_remove ["animate-pulse"; "connecting"; "connected"]
               (elements ui button)).
  assert (Hrm : forall c, In c ["animate-pulse"; "connecting"; "connected"] ->
                          ~ In c (classList e0)).
  { intros c Hc Hin. apply filter_In in Hin. destruct Hin as [_ Hn].
    cbn in Hc. destruct Hc as [<-|[<-|[<-|[]]]]; discriminate. }
  destruct (String.eqb state "connecting") eqn:E1;
    [|destruct (String.eqb state "connected") eqn:E2]; cbn.
  all: rewrite ?Nat.eqb_refl; cbn; fold e0.
  all: rewrite added_disabled, added_textContent; cbn.
  all: refine (conj eq_refl (conj eq_refl (conj _ _))).
  all: try (intros r Hr; apply Nat.eqb_neq in Hr; rewrite Hr; reflexivity).
  all: intros c Hc; apply added_classList; apply Hrm; exact Hc.
Qed.

End DisplayFacts.

Module OverlayFacts.

Import UIManager Overlay.

(** X28.  The spinner overlay is in the document at most once.  On a page
    where no spinner is shown, after any sequence of calls of
    [showProcessingSpinner] and [hideProcessingSpinner] the children of
    the body are those of before, followed by the spinner if one is
    shown; so a second call of [showProcessingSpinner] adds nothing and
    one call of [hideProcessingSpinner] removes the overlay. *)
Theorem spinner_is_single calls ui :
  spinner ui = None ->
  Forall (fun r => (r < fresh ui)%nat) (body ui) ->
  let ui' := fold_left perform calls ui in
  body ui' = (body ui ++ match spinner ui' with
                         | Some r => [r]
                         | None => []
                         end)%list
  /\ dom ui' = dom ui
  /\ (forall r, (r < fresh ui)%nat -> elements ui' r = elements ui r).
Proof.
  intros Hs Hb. cbn zeta.
  assert (Hinv : forall calls u,
             (fresh ui <= fresh u)%nat ->
             body u = (body ui ++ match spinner u with
                                  | Some r => [r]
                                  | None => []
                                  end)%list ->
             (forall r, spinner u = Some r -> (fresh ui <= r)%nat) ->
             dom u = dom ui ->
             (forall r, (r < fresh ui)%nat -> elements u r = elements ui r) ->
             body (fold_left perform calls u)
             = (body ui ++ match spinner (fold_left perform calls u) with
                           | Some r => [r]
                           | None => []
                           end)%list
             /\ dom (fold_left perform calls u) = dom ui
             /\ (forall r, (r < fresh ui)%nat ->
                           elements (fold_left perform calls u) r = elements ui r)).
  { clear calls. induction calls as [|c calls IH]; intros u Hf Hbody Hsp Hd He.
    - cbn. auto.
    - cbn [fold_left]. destruct c; cbn [perform];
        unfold showProcessingSpinner, hideProcessingSpinner;
        case_eq (spinner u); [intros r E| intros E | intros r E | intros E];
        try (apply IH; assumption); rewrite E in Hbody.
      + rewrite app_nil_r in Hbody. apply IH; cbn.
        * lia.
        * rewrite Hbody. reflexivity.
        * intros r [= <-]. exact Hf.
        * exact Hd.
        * intros r Hr. destruct (Nat.eqb_spec r (fresh u)); [lia|]. auto.
      + apply IH; cbn; auto.
        * rewrite Hbody, filter_app. cbn. rewrite Nat.eqb_refl. cbn.
          rewrite !app_nil_r. apply forallb_filter_id.
          apply forallb_forall. intros x Hx.
          rewrite Forall_forall in Hb. specialize (Hb x Hx).
          specialize (Hsp r E).
          apply negb_true_iff, Nat.eqb_neq. lia.
        * discriminate. }
  apply Hinv; auto.
  - rewrite Hs, app_nil_r. reflexivity.
  - rewrite Hs. discriminate.
Qed.

Lemma spinner_is_single_witness :
  body (fold_left perform [show; show; hide; show] blank) = [1%nat].
Proof.
  exact (proj1 (@spinner_is_single [show; show; hide; show] blank eq_refl
                  (Forall_nil _))).
Defined.

End OverlayFacts.
